(** * AI-CV-Evaluator: a shallow embedding of the evaluation pipeline

    The development follows the repository file by file:

    - [JS]                   the JavaScript string and array built-ins the
                             code relies on;
    - [Num]                  numbers as IEEE 754 binary64 values;
    - [VectorDB]             services/vectorDB.js, the lexical retrieval engine
                             and the context builders;
    - [AIService]            services/aiService.js, the heuristic scoring
                             stages that server.js loads;
    - [ProductionAIService]  the OpenAI-backed variant of services/aiService.js
                             with its retrying [callOpenAI] and the fallbacks;
    - [Server]               server.js: the job store, [processEvaluation],
                             [extractFileContent] and the request handlers.

    Where the language leaves the behaviour to the engine, the code takes
    it as a parameter: [max_arguments], the number of arguments a call
    takes before a spread call throws its RangeError, and [engine_sort],
    the order [Array.prototype.sort] leaves an array in when the comparator
    is not consistent.

    The program comes first, then the notions the statements use, then the
    properties, each stated on the definitions above. *)

From Stdlib Require Import ZArith QArith Qround Qminmax Qabs List String Ascii Bool Lia.
From Stdlib Require Import Permutation Sorted DecimalString SpecFloat.
From stdpp Require Import base gmap strings.
From Equations Require Import Equations.
Import ListNotations.

Local Open Scope string_scope.
Local Open Scope Z_scope.

(** ** JavaScript built-ins *)

Module JS.

(** Strings are sequences of code units below 256: ASCII and the
    Latin-1 supplement, where the code 149 stands for the bullet U+2022,
    the one character beyond that range the code tests for.  The
    operations below treat the two alike: neither is white space, a
    letter, a digit or changed by [toLowerCase]. *)

Definition code (c : ascii) : nat := nat_of_ascii c.

(** [String.prototype.toLowerCase] on that range: A-Z, and U+00C0..U+00DE
    except the multiplication sign U+00D7, move up by 32. *)
Definition lower_char (c : ascii) : ascii :=
  let n := code c in
  if ((65 <=? n) && (n <=? 90))%nat
     || ((192 <=? n) && (n <=? 222) && negb (n =? 215))%nat
  then ascii_of_nat (n + 32)
  else c.

Fixpoint toLowerCase (s : string) : string :=
  match s with
  | EmptyString => EmptyString
  | String c s' => String (lower_char c) (toLowerCase s')
  end.

(** [s.startsWith(p)] *)
Fixpoint startsWith (s p : string) : bool :=
  match p, s with
  | EmptyString, _ => true
  | String _ _, EmptyString => false
  | String a p', String b s' => if Ascii.eqb a b then startsWith s' p' else false
  end.

(** [s.includes(sub)]: [sub] occurs in [s] at some position. *)
Fixpoint includes (s sub : string) : bool :=
  if startsWith s sub then true
  else match s with
       | EmptyString => false
       | String _ s' => includes s' sub
       end.

(** The regular-expression class [\s] on that range. *)
Definition is_space (c : ascii) : bool :=
  let n := code c in
  (((9 <=? n) && (n <=? 13)) || (n =? 32) || (n =? 160))%nat.

(** [s.split(/\s+/)]: the pieces between maximal runs of white space.  A
    leading or trailing run leaves an empty first or last piece, and the
    empty string splits into one empty piece. *)
Fixpoint split_ws (s : string) : list string :=
  match s with
  | EmptyString => [EmptyString]
  | String c s' =>
      let r := split_ws s' in
      if is_space c then
        match s' with
        | String c' _ => if is_space c' then r else EmptyString :: r
        | EmptyString => EmptyString :: r
        end
      else
        match r with
        | t :: ts => String c t :: ts
        | [] => [String c EmptyString]
        end
  end.

(** [s.trim()] *)
Fixpoint trimStart (s : string) : string :=
  match s with
  | String c s' => if is_space c then trimStart s' else s
  | EmptyString => EmptyString
  end.

Fixpoint trimEnd (s : string) : string :=
  match s with
  | EmptyString => EmptyString
  | String c s' =>
      match trimEnd s' with
      | EmptyString => if is_space c then EmptyString else String c EmptyString
      | t => String c t
      end
  end.

Definition trim (s : string) : string := trimEnd (trimStart s).

(** [s.split(sep)] for a one-character separator. *)
Fixpoint split_char (sep : ascii) (s : string) : list string :=
  match s with
  | EmptyString => [EmptyString]
  | String c s' =>
      let r := split_char sep s' in
      if Ascii.eqb c sep then EmptyString :: r
      else
        match r with
        | t :: ts => String c t :: ts
        | [] => [String c EmptyString]
        end
  end.

Definition LF : ascii := ascii_of_nat 10.
Definition newline : string := String LF EmptyString.

(** [s.substring(1)] *)
Definition substring1 (s : string) : string :=
  match s with
  | EmptyString => EmptyString
  | String _ s' => s'
  end.

(** [arr.findIndex(p)], [None] standing for -1. *)
Fixpoint findIndex {A} (p : A -> bool) (l : list A) : option nat :=
  match l with
  | [] => None
  | x :: l' => if p x then Some O else option_map S (findIndex p l')
  end.

(** [s.replace(a, b)] for one-character strings: the first occurrence. *)
Fixpoint replace_first (a b : ascii) (s : string) : string :=
  match s with
  | EmptyString => EmptyString
  | String c s' => if Ascii.eqb c a then String b s' else String c (replace_first a b s')
  end.

(** A text between double quotes. *)
Definition dq : string := String (ascii_of_nat 34) EmptyString.
Definition quoted (s : string) : string := dq +:+ s +:+ dq.

(** [arr.join(sep)] *)
Definition join (sep : string) (l : list string) : string := String.concat sep l.

(** A value that is either a number holding an integer or NaN, as
    [parseInt] returns it. *)
Inductive jsint := NaN | Int (z : Z).

(** [arr.slice(0, end)]: a negative [end] counts from the end of the
    array, and NaN counts as 0. *)
Definition slice0 {A} (end_ : jsint) (l : list A) : list A :=
  match end_ with
  | NaN => []
  | Int e =>
      if e <? 0 then firstn (Z.to_nat (Z.max (Z.of_nat (length l) + e) 0)) l
      else firstn (Z.to_nat e) l
  end.

(** [arr.sort(cmp)] is a stable sort: insertion from the right keeps an
    element in front of the later elements it ties with. *)
Section Sort.
Context {A : Type} (cmp : A -> A -> Z).

Fixpoint sort_insert (x : A) (l : list A) : list A :=
  match l with
  | [] => [x]
  | y :: l' => if cmp x y <=? 0 then x :: y :: l' else y :: sort_insert x l'
  end.

Fixpoint sort (l : list A) : list A :=
  match l with
  | [] => []
  | x :: l' => sort_insert x (sort l')
  end.
End Sort.

End JS.

(** ** Numbers and exceptions *)

Module Num.

(** A JavaScript number is an IEEE 754 binary64 value; the operations
    round to nearest, ties to even. *)
Definition number : Type := spec_float.
Definition prec : Z := 53.
Definition emax : Z := 1024.

Definition of_Z (z : Z) : number := binary_normalize prec emax z 0 false.
Definition add : number -> number -> number := SFadd prec emax.
Definition mul : number -> number -> number := SFmul prec emax.
Definition div : number -> number -> number := SFdiv prec emax.

(** [x >= y]; false when either side is NaN. *)
Definition geb (x y : number) : bool := SFleb y x.

(** The decimal literal [n/d] for a power of ten [d], as in [0.4] or
    [0.15]: the double nearest to the quotient, which the correctly
    rounded division of the two exactly represented integers returns. *)
Definition decimal (n d : Z) : number := div (of_Z n) (of_Z d).

(** [Math.round]: the nearest integer, a tie going towards +infinity;
    computed exactly from the mantissa and exponent.  A result of zero
    keeps the sign of the argument. *)
Definition Math_round (x : number) : number :=
  match x with
  | S754_finite s m e =>
      if 0 <=? e then x
      else
        let sm := if s then Z.neg m else Z.pos m in
        let z := (2 * sm + 2 ^ (- e)) / 2 ^ (1 - e) in
        if z =? 0 then S754_zero s else of_Z z
  | _ => x
  end.

(** [Math.max(x, y)]: NaN when either is NaN, and +0 counts as larger than
    -0. *)
Definition max2 (x y : number) : number :=
  match x, y with
  | S754_nan, _ | _, S754_nan => S754_nan
  | _, _ =>
      match SFcompare x y with
      | Some Lt => y
      | Some Gt => x
      | _ => match x with S754_zero true => y | _ => x end
      end
  end.

(** [Math.max(...values)], which is -Infinity without arguments. *)
Definition Math_max (values : list number) : number :=
  fold_left max2 values (S754_infinity true).

(** [Math.round] on a number known exactly as a rational. *)
Definition Math_round_Q (q : Q) : Z := Qfloor (q + (1 # 2))%Q.

(** The decimal text of an integer-valued number in a template literal. *)
Definition Z_toString (z : Z) : string := NilZero.string_of_int (Z.to_int z).

End Num.

(** Code that may throw returns an [outcome]. *)
Inductive outcome (A : Type) : Type :=
| Return (a : A)
| Throw (message : string).
Arguments Return {A} a.
Arguments Throw {A} message.

Definition obind {A B} (m : outcome A) (k : A -> outcome B) : outcome B :=
  match m with
  | Return a => k a
  | Throw e => Throw e
  end.

(** [try { body } catch (error) { handler(error.message) }] *)
Definition try_catch {A} (body : outcome A) (handler : string -> outcome A) : outcome A :=
  match body with
  | Return a => Return a
  | Throw e => handler e
  end.

(** [f(...args)]: the elements of [args] become the arguments of the
    call.  The engine keeps the arguments of a call on its stack and throws
    a RangeError when they do not fit; [max_arguments] is the number of
    arguments that fit, and the message is the one of Node.js. *)
Definition spread {A B} (max_arguments : nat) (f : list A -> B) (args : list A)
    : outcome B :=
  if (length args <=? max_arguments)%nat then Return (f args)
  else Throw "Maximum call stack size exceeded".

Declare Scope outcome_scope.
Delimit Scope outcome_scope with outcome.
Notation "'DO' x <- m ;; k" := (obind m (fun x => k))
  (at level 10, x name, m at level 99, k at level 200,
   format "'[v' 'DO'  x  <-  m  ;;  '/' k ']'") : outcome_scope.

(** ** services/vectorDB.js *)

Module VectorDB.
Import JS.

Record Document := {
  id : string;
  content : string;
  category : string;
  chunks : list string;
  keywords : list string
}.

Record ScoredChunk := { chunk : string; score : Z }.

(** The two nested [forEach] loops add to the running [score]; the bonus
    is tested on the lower-cased chunk against every query word. *)
Definition calculateRelevanceScore (chunk : string) (queryWords : list string) : Z :=
  let chunkWords := split_ws (toLowerCase chunk) in
  let score :=
    fold_left (fun score queryWord =>
      fold_left (fun score chunkWord =>
        if includes chunkWord queryWord || includes queryWord chunkWord
        then score + (if (3 <? String.length queryWord)%nat then 2 else 1)
        else score) chunkWords score) queryWords 0 in
  if existsb (fun word => includes (toLowerCase chunk) word) queryWords
  then score + 3
  else score.

Definition findRelevantChunks (chunks : list string) (query : string) : list string :=
  let queryWords := split_ws (toLowerCase query) in
  let scoredChunks :=
    sort (fun a b => score b - score a)
      (List.filter (fun item => 0 <? score item)
         (map (fun chunk => {| chunk := chunk;
                               score := calculateRelevanceScore chunk queryWords |})
              chunks)) in
  map chunk (slice0 (Int 3) scoredChunks).

Record SearchResult := {
  res_id : string;
  res_category : string;
  relevantChunks : list string;
  totalRelevance : Z
}.

Definition searchDocuments (documents : list Document) (query : string)
    (limit : jsint) : list SearchResult :=
  slice0 limit
    (sort (fun a b => totalRelevance b - totalRelevance a)
       (List.filter (fun result => 0 <? totalRelevance result)
          (map (fun doc =>
                  {| res_id := id doc;
                     res_category := category doc;
                     relevantChunks := findRelevantChunks (chunks doc) query;
                     totalRelevance :=
                       Z.of_nat (length (findRelevantChunks (chunks doc) query)) |})
               documents))).

(** The relevance of a chunk for a raw query, as [findRelevantChunks]
    computes it. *)
Definition relevance (chunk query : string) : Z :=
  calculateRelevanceScore chunk (split_ws (toLowerCase query)).

(** *** Retrieval of prompt context *)

Definition find_document (documents : list Document) (name : string) : option Document :=
  List.find (fun doc => String.eqb (id doc) name) documents.

(** [getJobRequirements(query)]; an absent or empty query is falsy. *)
Definition getJobRequirements (documents : list Document) (query : option string)
    : outcome string :=
  match find_document documents "job-requirements" with
  | None => Throw "Job requirements not loaded"
  | Some jobDoc =>
      match query with
      | None | Some EmptyString => Return (content jobDoc)
      | Some query =>
          Return (join (newline +:+ newline) (findRelevantChunks (chunks jobDoc) query))
      end
  end.

Definition getScoringRubric (documents : list Document) (evaluationType : option string)
    : outcome string :=
  match find_document documents "scoring-rubric" with
  | None => Throw "Scoring rubric not loaded"
  | Some rubricDoc =>
      match evaluationType with
      | None | Some EmptyString => Return (content rubricDoc)
      | Some evaluationType =>
          Return (join (newline +:+ newline)
                       (findRelevantChunks (chunks rubricDoc) evaluationType))
      end
  end.

(** The bullet sign U+2022. *)
Definition bullet : string := String (ascii_of_nat 149) EmptyString.

(** The loop of [extractBulletPoints] from the line after the section
    header. *)
Fixpoint collect_bullets (lines : list string) (bulletPoints : list string) : list string :=
  match lines with
  | [] => bulletPoints
  | l :: rest =>
      let line := trim l in
      if startsWith line "-" || startsWith line bullet then
        collect_bullets rest (bulletPoints ++ [trim (substring1 line)])
      else if negb (String.eqb line "") && negb (startsWith line " ")
              && (0 <? length bulletPoints)%nat
      then bulletPoints
      else collect_bullets rest bulletPoints
  end.

Definition extractBulletPoints (text sectionName : string) : list string :=
  let lines := split_char LF text in
  match findIndex (fun line => includes line sectionName) lines with
  | None => []
  | Some sectionStart => collect_bullets (skipn (S sectionStart) lines) []
  end.

Definition extractScoringDetails (rubric criteriaName : string) : string :=
  let lines := split_char LF rubric in
  match findIndex (fun line => includes line criteriaName) lines with
  | None => "Standard evaluation criteria apply"
  | Some startIndex =>
      join " "
        (List.filter (fun line => startsWith line "SCORE" || includes line "Weight:")
           (map trim (firstn 10 (skipn startIndex lines))))
  end.

Record JobContext := {
  jc_skills : list string;
  jc_experience : list string;
  jc_summary : string
}.

Definition extractJobContext (requirements : string) : JobContext :=
  {| jc_skills := extractBulletPoints requirements "Required Technical Skills";
     jc_experience := extractBulletPoints requirements "Experience Requirements";
     jc_summary := "Backend engineer role focusing on AI-powered systems, LLM integration, and scalable architecture" |}.

Record CVGuidelines := {
  g_technical_skills : string;
  g_experience_level : string;
  g_achievements : string;
  g_cultural_fit : string
}.

Definition extractCVGuidelines (rubric : string) : CVGuidelines :=
  {| g_technical_skills := extractScoringDetails rubric "Technical Skills Match";
     g_experience_level := extractScoringDetails rubric "Experience Level";
     g_achievements := extractScoringDetails rubric "Relevant Achievements";
     g_cultural_fit := extractScoringDetails rubric "Cultural/Collaboration Fit" |}.

(** The criteria object, with its keys in insertion order. *)
Definition extractProjectCriteria (rubric : string) : list (string * string) :=
  [ ("correctness", extractScoringDetails rubric "Correctness - Prompt & Chaining");
    ("code_quality", extractScoringDetails rubric "Code Quality & Structure");
    ("resilience", extractScoringDetails rubric "Resilience & Error Handling");
    ("documentation", extractScoringDetails rubric "Documentation & Explanation");
    ("creativity", extractScoringDetails rubric "Creativity & Bonus Features") ].

Definition extractTechnicalRequirements (requirements : string) : list string :=
  extractBulletPoints requirements "Core Responsibilities".

Record CVContext := {
  jobContext : JobContext;
  evaluationGuidelines : CVGuidelines
}.

Record ProjectContext := {
  scoringCriteria : list (string * string);
  technicalRequirements : list string
}.

Definition getContextForCVEvaluation (documents : list Document) : outcome CVContext :=
  (DO jobRequirements <-
     getJobRequirements documents
       (Some "technical skills experience backend requirements") ;;
   DO cvRubric <-
     getScoringRubric documents (Some "CV evaluation technical skills experience") ;;
   Return {| jobContext := extractJobContext jobRequirements;
             evaluationGuidelines := extractCVGuidelines cvRubric |})%outcome.

Definition getContextForProjectEvaluation (documents : list Document)
    : outcome ProjectContext :=
  (DO projectRubric <-
     getScoringRubric documents
       (Some "project evaluation correctness code quality resilience") ;;
   DO technicalReqs <-
     getJobRequirements documents
       (Some "LLM chaining RAG implementation error handling") ;;
   Return {| scoringCriteria := extractProjectCriteria projectRubric;
             technicalRequirements := extractTechnicalRequirements technicalReqs |})%outcome.

(** *** Chunking *)

(** The regular expression [/\n\s*\n/] of [chunkDocument]: a separator
    starts at a line feed, and the greedy [\s*] gives characters back until
    a line feed follows, so it ends at the last line feed of the white
    space after its first character.  [blank_gap s], for the text [s]
    after a line feed, is the number of characters of [s] the separator
    takes, if there is a separator. *)
Fixpoint blank_gap (s : string) : option nat :=
  match s with
  | String c s' =>
      if is_space c then
        match blank_gap s' with
        | Some k => Some (S k)
        | None => if Ascii.eqb c LF then Some 1%nat else None
        end
      else None
  | EmptyString => None
  end.

(** [content.split(/\n\s*\n/)]: every position is tried from left to
    right, and the search resumes after a separator ([skip] characters
    remain inside the last one). *)
Fixpoint split_blank (skip : nat) (s : string) : list string :=
  match s with
  | EmptyString => [EmptyString]
  | String c s' =>
      match skip with
      | S k => split_blank k s'
      | O =>
          match (if Ascii.eqb c LF then blank_gap s' else None) with
          | Some k => EmptyString :: split_blank k s'
          | None =>
              match split_blank 0 s' with
              | t :: ts => String c t :: ts
              | [] => [String c EmptyString]
              end
          end
      end
  end.

Definition chunkDocument (content : string) : list string :=
  map (fun chunk => trim chunk)
      (List.filter (fun chunk => (50 <? String.length (trim chunk))%nat)
                   (split_blank 0 content)).

(** *** Storing documents *)

(** The regular-expression class [\w]. *)
Definition is_word_char (c : ascii) : bool :=
  let n := code c in
  (((48 <=? n) && (n <=? 57)) || ((65 <=? n) && (n <=? 90))
   || ((97 <=? n) && (n <=? 122)) || (n =? 95))%nat.

(** [text.match(/\b\w{3,}\b/g)]: the maximal runs of word characters that
    are at least three long; [run] is the run being read. *)
Fixpoint match_words (s : string) (run : string) : list string :=
  match s with
  | EmptyString => if (3 <=? String.length run)%nat then [run] else []
  | String c s' =>
      if is_word_char c then match_words s' (run +:+ String c EmptyString)
      else (if (3 <=? String.length run)%nat then [run] else [])
           ++ match_words s' EmptyString
  end.

Definition stopWords : list string :=
  [ "the"; "and"; "for"; "are"; "but"; "not"; "you"; "all"; "can"; "had"; "her"; "was";
    "one"; "our"; "out"; "day"; "get"; "has"; "him"; "his"; "how"; "man"; "new"; "now";
    "old"; "see"; "two"; "way"; "who"; "boy"; "did"; "its"; "let"; "put"; "say"; "she";
    "too"; "use" ].

(** A value of [wordCount]: the count of a word, or, under the key
    [constructor], a text.  That key first reads the function [Object],
    which [wordCount] inherits, and [Object + 1] is the source text of the
    function followed by 1; every further occurrence appends another 1. *)
Inductive tally := Count (n : Z) | SourceText (ones : nat).

(** [wordCount[word] = (wordCount[word] || 0) + 1] on the own keys of
    [wordCount], kept in the order of their creation. *)
Fixpoint count_word (word : string) (wordCount : list (string * tally))
    : list (string * tally) :=
  match wordCount with
  | [] => [(word, if String.eqb word "constructor" then SourceText 1 else Count 1)]
  | (w, v) :: rest =>
      if String.eqb w word
      then (w, match v with
               | Count n => Count (n + 1)
               | SourceText ones => SourceText (S ones)
               end) :: rest
      else (w, v) :: count_word word rest
  end.

(** A key that is an array index: a decimal numeral without a leading
    zero, below 2^32 - 1.  (The keys have three characters or more.) *)
Fixpoint numeral (s : string) (value : Z) : option Z :=
  match s with
  | EmptyString => Some value
  | String c s' =>
      if ((48 <=? code c) && (code c <=? 57))%nat
      then numeral s' (10 * value + Z.of_nat (code c - 48))
      else None
  end.

Definition array_index (word : string) : option Z :=
  match word with
  | String c _ =>
      if Ascii.eqb c "0" then None
      else match numeral word 0 with
           | Some value => if value <? 4294967295 then Some value else None
           | None => None
           end
  | EmptyString => None
  end.

Definition is_array_index (word : string) : bool :=
  match array_index word with Some _ => true | None => false end.

(** [Object.entries(wordCount)]: the array-index keys in ascending
    numeric order, then the other keys in the order of their creation. *)
Definition entries {V : Type} (wordCount : list (string * V)) : list (string * V) :=
  sort (fun a b => match array_index (fst a), array_index (fst b) with
                   | Some x, Some y => x - y
                   | _, _ => 0
                   end)
       (List.filter (fun entry => is_array_index (fst entry)) wordCount)
  ++ List.filter (fun entry => negb (is_array_index (fst entry))) wordCount.

(** The comparator [(a, b) => b[1] - a[1]]: the difference of two counts,
    and NaN when one of the two values is a text. *)
Definition by_count (a b : string * tally) : jsint :=
  match snd b, snd a with
  | Count x, Count y => Int (x - y)
  | _, _ => NaN
  end.

(** Whether [by_count] is a consistent comparator for the entries.  [sort]
    takes NaN for 0, so a text compares equal to every count: the
    comparator is consistent when no value is a text or when all the
    counts are equal. *)
Definition counts (l : list (string * tally)) : list Z :=
  flat_map (fun entry => match snd entry with Count n => [n] | SourceText _ => [] end) l.

Definition consistent (l : list (string * tally)) : bool :=
  (length (counts l) =? length l)%nat
  || match counts l with
     | [] => true
     | n :: rest => forallb (Z.eqb n) rest
     end.

(** [entries.sort((a, b) => b[1] - a[1])]: the stable sort when the
    comparator is consistent.  When it is not, the language leaves the
    order to the engine: [engine_sort] is what the engine makes of the
    entries then. *)
Definition sort_by_count (engine_sort : list (string * tally) -> list (string * tally))
    (l : list (string * tally)) : list (string * tally) :=
  if consistent l
  then sort (fun a b => match by_count a b with Int z => z | NaN => 0 end) l
  else engine_sort l.

(** [extractKeywords(text)].  Two words meet properties that [wordCount]
    inherits from [Object.prototype]: for [__proto__] the assignment is
    ignored, so the word is never counted; for [constructor] see
    [tally]. *)
Definition extractKeywords (engine_sort : list (string * tally) -> list (string * tally))
    (text : string) : list string :=
  let keywords :=
    List.filter (fun word => negb (existsb (String.eqb word) stopWords))
                (match_words (toLowerCase text) EmptyString) in
  let wordCount :=
    fold_left (fun wordCount word =>
                 if String.eqb word "__proto__" then wordCount
                 else count_word word wordCount) keywords [] in
  map fst (slice0 (Int 20) (sort_by_count engine_sort (entries wordCount))).

(** [storeDocument(id, content, category)] pushes the new document. *)
Definition storeDocument (engine_sort : list (string * tally) -> list (string * tally))
    (id content category : string) (documents : list Document) : list Document :=
  (documents ++ [ {| id := id; content := content; category := category;
                     chunks := chunkDocument content;
                     keywords := extractKeywords engine_sort content |} ])%list.

(** The two built-in documents: the template literals of
    [loadJobRequirements] and [loadScoringRubric], line by line. *)
Definition jobDescription : string :=
  join newline
    [ "";
      "    Product Engineer (Backend) 2025 - Rakamin Position Requirements";
      "";
      "    We're seeking a backend engineer to build AI-powered systems and scalable solutions.";
      "    ";
      "    Core Responsibilities:";
      "    - Building robust backend solutions with high performance and throughput";
      "    - Designing and fine-tuning AI prompts aligned with product requirements  ";
      "    - Building LLM chaining flows where model outputs are reliably passed between models";
      "    - Implementing Retrieval-Augmented Generation (RAG) with vector databases";
      "    - Handling long-running AI processes with job orchestration and retry mechanisms";
      "    - Managing failure cases from 3rd party APIs and LLM nondeterminism";
      "    - Writing reusable, testable, and efficient code";
      "    - Strengthening test coverage for robust web applications";
      "    ";
      "    Required Technical Skills:";
      "    - Backend frameworks: Node.js, Django, Rails, Express.js";
      "    - Databases: PostgreSQL, MySQL, MongoDB, Redis";
      "    - APIs: RESTful services, GraphQL, microservices architecture";
      "    - Cloud platforms: AWS, Google Cloud, Azure";
      "    - Programming languages: JavaScript, Python, Java, Ruby";
      "    - AI/ML: LLM APIs, embeddings, vector databases, prompt engineering";
      "    - DevOps: Docker, Kubernetes, CI/CD pipelines";
      "    - Testing: Automated testing, unit tests, integration tests";
      "    - Security: Authentication, authorization, data protection";
      "    ";
      "    Experience Requirements:";
      "    - 2+ years backend development experience";
      "    - Experience with microservices and distributed systems";
      "    - Exposure to AI/LLM development or strong desire to learn";
      "    - Track record of building scalable applications";
      "    - Experience with performance optimization and monitoring";
      "    ";
      "    Desired Qualities:";
      "    - Strong problem-solving and analytical skills";
      "    - Excellent communication and collaboration abilities";
      "    - Self-motivated with ability to work independently";
      "    - Continuous learning mindset";
      "    - Experience mentoring junior developers";
      "    - Contribution to open source projects";
      "    " ].

Definition scoringRubric : string :=
  join newline
    [ "";
      "    Comprehensive Scoring Rubric for CV and Project Evaluation";
      "";
      "    === CV EVALUATION SCORING (1-5 scale) ===";
      "    ";
      "    1. Technical Skills Match (Weight: 40%)";
      "    SCORE 5 (Excellent): ";
      "    - Strong backend expertise (Node.js, Python, databases)";
      "    - Demonstrated AI/LLM integration experience";
      "    - Cloud platform proficiency (AWS/GCP/Azure)";
      "    - Modern development practices (Docker, microservices, testing)";
      "    ";
      "    SCORE 4 (Strong): ";
      "    - Solid backend foundation with 2+ relevant technologies";
      "    - Some AI/LLM exposure or strong interest indicated";
      "    - Basic cloud platform experience";
      "    - Good understanding of software engineering practices";
      "    ";
      "    SCORE 3 (Partial): ";
      "    - Basic backend skills with 1-2 relevant technologies";
      "    - Limited or no AI experience but willingness to learn";
      "    - Minimal cloud exposure";
      "    - Standard development practices";
      "    ";
      "    SCORE 2 (Minimal):";
      "    - Few overlapping technical skills";
      "    - No AI/LLM background";
      "    - Limited modern development experience";
      "    ";
      "    SCORE 1 (Poor):";
      "    - Irrelevant or outdated technical skills";
      "    - No alignment with job requirements";
      "    ";
      "    2. Experience Level (Weight: 25%)";
      "    SCORE 5: 5+ years with high-impact, complex projects";
      "    SCORE 4: 3-4 years with solid track record and meaningful projects  ";
      "    SCORE 3: 2-3 years with mid-scale projects and growth trajectory";
      "    SCORE 2: 1-2 years with basic projects and limited scope";
      "    SCORE 1: <1 year or only trivial projects";
      "    ";
      "    3. Relevant Achievements (Weight: 20%)";
      "    SCORE 5: Multiple quantifiable achievements with major business impact";
      "    SCORE 4: Clear performance improvements and measurable outcomes";
      "    SCORE 3: Some documented achievements with moderate impact";
      "    SCORE 2: Minimal quantifiable improvements shown";
      "    SCORE 1: No clear measurable achievements demonstrated";
      "    ";
      "    4. Cultural/Collaboration Fit (Weight: 15%)";
      "    SCORE 5: Strong leadership, mentoring, excellent communication skills";
      "    SCORE 4: Good teamwork, clear communication, collaboration experience";
      "    SCORE 3: Average communication with some team interaction indicated";
      "    SCORE 2: Basic collaboration skills with minimal demonstration";
      "    SCORE 1: Poor communication or no teamwork evidence";
      "";
      "    === PROJECT EVALUATION SCORING (1-5 scale) ===";
      "    ";
      "    1. Correctness - Prompt & Chaining (Weight: 30%)";
      "    SCORE 5: Excellent prompt design with sophisticated chaining logic";
      "    SCORE 4: Correct LLM integration with good prompt engineering";
      "    SCORE 3: Basic working implementation with adequate prompts";
      "    SCORE 2: Minimal LLM integration with poor prompt design";
      "    SCORE 1: No proper LLM integration or missing prompt functionality";
      "    ";
      "    2. Code Quality & Structure (Weight: 25%)";
      "    SCORE 5: Exceptional code organization, comprehensive testing, best practices";
      "    SCORE 4: Good structure with solid testing and clean architecture";
      "    SCORE 3: Decent organization with basic testing coverage";
      "    SCORE 2: Some structure but limited testing and documentation";
      "    SCORE 1: Poor code organization, no tests, difficult to understand";
      "    ";
      "    3. Resilience & Error Handling (Weight: 20%)";
      "    SCORE 5: Production-ready resilience with comprehensive error handling";
      "    SCORE 4: Solid error handling with retry mechanisms and timeouts";
      "    SCORE 3: Basic error handling for common failure scenarios";
      "    SCORE 2: Minimal error handling with limited failure recovery";
      "    SCORE 1: No error handling or resilience considerations";
      "    ";
      "    4. Documentation & Explanation (Weight: 15%)";
      "    SCORE 5: Outstanding documentation with design insights and trade-offs";
      "    SCORE 4: Clear, comprehensive documentation with good explanations";
      "    SCORE 3: Adequate documentation covering setup and basic usage";
      "    SCORE 2: Minimal documentation with basic setup instructions";
      "    SCORE 1: Poor or missing documentation";
      "    ";
      "    5. Creativity & Bonus Features (Weight: 10%)";
      "    SCORE 5: Outstanding innovative features beyond requirements";
      "    SCORE 4: Strong additional functionality with thoughtful enhancements";
      "    SCORE 3: Some useful extra features or improvements";
      "    SCORE 2: Basic additional features with limited value";
      "    SCORE 1: No additional features beyond minimum requirements";
      "    " ].

Section Loading.
Variable engine_sort : list (string * tally) -> list (string * tally).

Definition loadJobRequirements (documents : list Document) : list Document :=
  storeDocument engine_sort "job-requirements" jobDescription "job-description" documents.

Definition loadScoringRubric (documents : list Document) : list Document :=
  storeDocument engine_sort "scoring-rubric" scoringRubric "evaluation-criteria" documents.

(** [initialize()]: the documents after the two loads; [initialized]
    is set when both have returned. *)
Definition initialize (documents : list Document) : list Document :=
  loadScoringRubric (loadJobRequirements documents).
End Loading.

(** [[...new Set(values)]]: the values in the order of their first
    occurrence. *)
Fixpoint distinct (values : list string) (seen : list string) : list string :=
  match values with
  | [] => []
  | v :: rest =>
      if existsb (String.eqb v) seen then distinct rest seen
      else v :: distinct rest (v :: seen)
  end.

Record Status := {
  initialized : bool;
  documentCount : nat;
  categories : list string;
  totalChunks : nat
}.

Definition getStatus (initialized : bool) (documents : list Document) : Status :=
  {| initialized := initialized;
     documentCount := length documents;
     categories := distinct (map category documents) [];
     totalChunks := fold_left (fun sum doc => (sum + length (chunks doc))%nat) documents 0%nat |}.

End VectorDB.

(** ** services/aiService.js *)

Module AIService.
Import JS Num.

Record Project := { p_name : string; p_description : string }.

Record CVStructured := {
  skills : list string;
  experience_years : number;
  projects : list Project;
  achievements : list string;
  education : string;
  communication_indicators : list string
}.

(** *** Text extraction *)

Definition extractSkills (text : string) : list string :=
  let skillKeywords :=
    [ "node.js"; "nodejs"; "javascript"; "python"; "java"; "express"; "react";
      "postgresql"; "mysql"; "mongodb"; "redis"; "aws"; "docker"; "kubernetes";
      "rest"; "api"; "graphql"; "microservices"; "ai"; "llm"; "machine learning" ] in
  let foundSkills :=
    List.filter (fun skill => includes (toLowerCase text) skill) skillKeywords in
  if (0 <? length foundSkills)%nat then foundSkills else ["General programming"].

(** The regular expression [/(\d+)\s*(?:years?|yrs?)/gi], piece by piece. *)
Definition is_digit (c : ascii) : bool := ((48 <=? code c) && (code c <=? 57))%nat.
Definition digit_value (c : ascii) : Z := Z.of_nat (code c - 48).

(** [\d+], greedy: the integer the digits denote, the number of digits,
    the rest. *)
Fixpoint digits (s : string) (value : Z) (count : nat) : Z * nat * string :=
  match s with
  | String c s' =>
      if is_digit c then digits s' (10 * value + digit_value c) (S count)
      else (value, count, s)
  | EmptyString => (value, count, s)
  end.

(** [\s*], greedy. *)
Fixpoint spaces (s : string) (count : nat) : nat * string :=
  match s with
  | String c s' => if is_space c then spaces s' (S count) else (count, s)
  | EmptyString => (count, s)
  end.

Fixpoint string_drop (n : nat) (s : string) : string :=
  match n, s with
  | S k, String _ s' => string_drop k s'
  | _, _ => s
  end.

Definition optional_s (s : string) : nat :=
  match s with
  | String c _ => if Ascii.eqb (lower_char c) "s" then 1 else 0
  | EmptyString => 0
  end.

(** [(?:years?|yrs?)] without regard to case: the length matched. *)
Definition unit_length (s : string) : option nat :=
  if startsWith (toLowerCase s) "year" then Some (4 + optional_s (string_drop 4 s))%nat
  else if startsWith (toLowerCase s) "yr" then Some (2 + optional_s (string_drop 2 s))%nat
  else None.

(** A match starting at the head of [s]: the integer its digits denote
    and the length of the match.  Giving back digits or white space cannot
    rescue a failed attempt, since the unit would then have to start with
    a digit or a white-space character. *)
Definition match_years_at (s : string) : option (Z * nat) :=
  let '(value, nd, rest) := digits s 0 0 in
  if (nd =? 0)%nat then None
  else
    let '(nw, rest') := spaces rest 0 in
    match unit_length rest' with
    | Some nu => Some (value, (nd + nw + nu)%nat)
    | None => None
    end.

(** The global search: every position is tried from left to right, and
    the search resumes after a match ([skip] code units remain inside the
    last match). *)
Fixpoint scan_years (s : string) (skip : nat) : list Z :=
  match s with
  | EmptyString => []
  | String _ s' =>
      match skip with
      | S k => scan_years s' k
      | O =>
          match match_years_at s with
          | Some (value, len) => value :: scan_years s' (len - 1)
          | None => scan_years s' 0
          end
      end
  end.

(** [parseInt(match.match(/\d+/)[0])]: the double nearest to the integer
    the digits denote, which is Infinity beyond the range of the doubles. *)
Definition parseInt (mathInt : Z) : number := of_Z mathInt.

(** [text.match(...)] is null when nothing matches.  Otherwise every
    match becomes an argument of [Math.max]. *)
Definition extractExperience (max_arguments : nat) (text : string) : outcome number :=
  match scan_years text 0 with
  | [] =>
      Return (if (200 <? String.length text)%nat then of_Z 3
              else if (100 <? String.length text)%nat then of_Z 2 else of_Z 1)
  | yearMatches =>
      let years := map parseInt yearMatches in
      spread max_arguments Math_max years
  end.

Definition extractProjects (text : string) : list Project :=
  let projectKeywords := ["project"; "built"; "developed"; "created"; "implemented"] in
  let hasProjects :=
    existsb (fun keyword => includes (toLowerCase text) keyword) projectKeywords in
  if hasProjects
  then [{| p_name := "Mentioned Project"; p_description := "Project experience indicated" |}]
  else [].

Definition extractAchievements (text : string) : list string :=
  let achievementKeywords :=
    ["improved"; "increased"; "reduced"; "led"; "managed"; "optimized"] in
  map (fun keyword => keyword +:+ " performance/systems")
      (List.filter (fun keyword => includes (toLowerCase text) keyword) achievementKeywords).

Definition extractEducation (text : string) : string :=
  let educationKeywords :=
    ["degree"; "university"; "college"; "bachelor"; "master"; "computer science"] in
  let hasEducation :=
    existsb (fun keyword => includes (toLowerCase text) keyword) educationKeywords in
  if hasEducation then "Formal technical education" else "Self-taught/practical experience".

Definition extractCommunication (text : string) : list string :=
  let commKeywords :=
    ["team"; "collaboration"; "communication"; "presentation"; "documentation"] in
  map (fun keyword => keyword +:+ " skills")
      (List.filter (fun keyword => includes (toLowerCase text) keyword) commKeywords).

Definition extractCVInfo (max_arguments : nat) (cvText : string) : outcome CVStructured :=
  let skills := extractSkills cvText in
  (DO experience <- extractExperience max_arguments cvText ;;
   let projects := extractProjects cvText in
   Return {| skills := skills;
             experience_years := experience;
             projects := projects;
             achievements := extractAchievements cvText;
             education := extractEducation cvText;
             communication_indicators := extractCommunication cvText |})%outcome.

(** *** Scoring.  Scores are integers, and the half points some of them
    add are dyadic, so both are exact as doubles: they are computed in
    [Z] and [Q].  The years of experience are any number. *)

Definition scoreExperience (years : number) : Z :=
  if geb years (of_Z 5) then 5
  else if geb years (of_Z 3) then 4
  else if geb years (of_Z 2) then 3
  else if geb years (of_Z 1) then 2
  else 1.

Definition scoreAchievements (achievements : list string) : Z :=
  if (3 <=? length achievements)%nat then 5
  else if (2 <=? length achievements)%nat then 4
  else if (1 <=? length achievements)%nat then 3
  else 2.

Definition scoreCulturalFit (communication : list string) : Z :=
  if (3 <=? length communication)%nat then 5
  else if (2 <=? length communication)%nat then 4
  else if (1 <=? length communication)%nat then 3
  else 2.

Definition scoreCodeQuality (projectText : string) : Z :=
  let qualityKeywords := ["express"; "node.js"; "structured"; "modular"; "test"] in
  let matches :=
    List.filter (fun keyword => includes (toLowerCase projectText) keyword)
                qualityKeywords in
  Z.min 5 (Z.max 2 (Z.of_nat (length matches) + 1)).

Definition scoreDocumentation (projectText : string) : Z :=
  let docKeywords := ["readme"; "documentation"; "instructions"; "setup"] in
  let matches :=
    List.filter (fun keyword => includes (toLowerCase projectText) keyword) docKeywords in
  Z.min 5 (Z.max 2 (Z.of_nat (length matches) + 2)).

Definition scoreCreativity (projectText : string) : Z :=
  Z.min 5 (Z.max 1 (Z.of_nat (String.length projectText) / 100 + 1)).

Definition count_matching (keywords : list string) (requiredSkills : string)
    (skills : list string) : nat :=
  length
    (List.filter (fun skill =>
       existsb (fun keyword =>
                  includes (toLowerCase skill) keyword && includes requiredSkills keyword)
               keywords) skills).

Definition scoreTechnicalSkillsWithRAG (skills jobRequirements : list string) : Z :=
  let requiredSkills := toLowerCase (join " " jobRequirements) in
  let backendMatch :=
    count_matching
      ["node.js"; "nodejs"; "express"; "postgresql"; "mongodb"; "api"; "javascript"; "python"]
      requiredSkills skills in
  let aiMatch :=
    count_matching ["ai"; "llm"; "machine learning"; "vector"; "embeddings"]
      requiredSkills skills in
  let cloudMatch :=
    count_matching ["aws"; "azure"; "gcp"; "docker"; "kubernetes"]
      requiredSkills skills in
  if ((3 <=? backendMatch) && (1 <=? aiMatch) && (1 <=? cloudMatch))%nat then 5
  else if ((2 <=? backendMatch) && (1 <=? aiMatch))%nat then 4
  else if (2 <=? backendMatch)%nat then 3
  else if (1 <=? backendMatch)%nat then 2
  else 1.

Definition scoreExperienceWithRAG (years : number) (experienceRequirements : list string)
    : Z :=
  let reqText := toLowerCase (join " " experienceRequirements) in
  let hasDistributed := includes reqText "distributed" || includes reqText "microservices" in
  let hasAI := includes reqText "ai" || includes reqText "llm" in
  let baseScore : Q := inject_Z (scoreExperience years) in
  let baseScore :=
    if geb years (of_Z 2) && hasDistributed then Qmin 5 (baseScore + 1)%Q
    else baseScore in
  let baseScore :=
    if geb years (of_Z 1) && hasAI then Qmin 5 (baseScore + (1 # 2))%Q else baseScore in
  Math_round_Q baseScore.

Definition scoreCorrectnessWithRAG (projectText : string)
    (technicalRequirements : list string) : Z :=
  let reqText := toLowerCase (join " " technicalRequirements) in
  let projectLower := toLowerCase projectText in
  let score : Q := 1%Q in
  let score := if includes projectLower "llm" && includes reqText "llm"
               then (score + 1)%Q else score in
  let score := if includes projectLower "chain" && includes reqText "chaining"
               then (score + 1)%Q else score in
  let score := if includes projectLower "rag" && includes reqText "rag"
               then (score + 1)%Q else score in
  let score := if includes projectLower "vector" && includes reqText "vector"
               then (score + 1)%Q else score in
  let score := if includes projectLower "error" && includes reqText "error"
               then (score + (1 # 2))%Q else score in
  Z.min 5 (Math_round_Q score).

Definition scoreResilienceWithRAG (projectText : string)
    (technicalRequirements : list string) : Z :=
  let reqText := toLowerCase (join " " technicalRequirements) in
  let projectLower := toLowerCase projectText in
  let score : Q := 1%Q in
  let score := if includes projectLower "retry" && includes reqText "retry"
               then (score + 1)%Q else score in
  let score := if includes projectLower "timeout" && includes reqText "timeout"
               then (score + 1)%Q else score in
  let score := if includes projectLower "error handling" && includes reqText "failure"
               then (score + 1)%Q else score in
  let score := if includes projectLower "resilience" || includes projectLower "robust"
               then (score + 1)%Q else score in
  let score := if includes projectLower "fallback" || includes projectLower "recovery"
               then (score + (1 # 2))%Q else score in
  Z.min 5 (Math_round_Q score).

(** *** The two evaluations.  The reasoning sentences attached to each
    criterion only format text and are left out of the breakdowns. *)

Record CVBreakdown := {
  technical_skills : Z;
  experience_level : Z;
  cv_achievements : Z;
  cultural_fit : Z
}.

Record MatchResult := {
  breakdown : CVBreakdown;
  score : number;
  rag_context_used : bool;
  matched_requirements : list string
}.

Definition identifyMatchedRequirements (cvStructured : CVStructured)
    (jobContext : VectorDB.JobContext) : list string :=
  let skillMatches :=
    List.filter (fun skill =>
      existsb (fun reqSkill =>
                 includes (toLowerCase reqSkill) (toLowerCase skill)
                 || includes (toLowerCase skill) (toLowerCase reqSkill))
              (VectorDB.jc_skills jobContext))
      (skills cvStructured) in
  (if (0 <? length skillMatches)%nat
   then ["Technical skills: " +:+ join ", " (firstn 3 skillMatches)] else [])
  ++ (if geb (experience_years cvStructured) (of_Z 2)
      then ["Meets minimum experience requirement"] else [])
  ++ (if (0 <? length (projects cvStructured))%nat
      then ["Has relevant project experience"] else []).

(** The weighted average [t * 0.4 + e * 0.25 + a * 0.2 + c * 0.15], with
    the additions associated to the left. *)
Definition cv_weighted (t e a c : Z) : number :=
  add (add (add (mul (of_Z t) (decimal 4 10))
                (mul (of_Z e) (decimal 25 100)))
           (mul (of_Z a) (decimal 2 10)))
      (mul (of_Z c) (decimal 15 100)).

Definition evaluateCVMatch (documents : list VectorDB.Document)
    (cvStructured : CVStructured) : outcome MatchResult :=
  (DO ragContext <- VectorDB.getContextForCVEvaluation documents ;;
   let jobContext := VectorDB.jobContext ragContext in
   let technicalSkills :=
     scoreTechnicalSkillsWithRAG (skills cvStructured) (VectorDB.jc_skills jobContext) in
   let experienceLevel :=
     scoreExperienceWithRAG (experience_years cvStructured)
                            (VectorDB.jc_experience jobContext) in
   let achievements := scoreAchievements (achievements cvStructured) in
   let culturalFit := scoreCulturalFit (communication_indicators cvStructured) in
   let weightedScore := cv_weighted technicalSkills experienceLevel achievements culturalFit in
   Return {| breakdown := {| technical_skills := technicalSkills;
                             experience_level := experienceLevel;
                             cv_achievements := achievements;
                             cultural_fit := culturalFit |};
             score := Math_round (mul weightedScore (of_Z 20));
             rag_context_used := true;
             matched_requirements :=
               identifyMatchedRequirements cvStructured jobContext |})%outcome.

Record ProjectBreakdown := {
  correctness : Z;
  code_quality : Z;
  resilience : Z;
  documentation : Z;
  creativity : Z
}.

Record ProjectScore := {
  p_breakdown : ProjectBreakdown;
  overallScore : number;
  p_rag_context_used : bool;
  matched_criteria : list string
}.

Definition identifyMatchedCriteria (projectText : string)
    (scoringCriteria : list (string * string)) : list string :=
  let projectLower := toLowerCase projectText in
  let matches :=
    flat_map (fun '(criteria, description) =>
      let criteriaKeywords :=
        List.filter (fun word => (4 <? String.length word)%nat)
                    (split_char " " (toLowerCase description)) in
      let matchedKeywords :=
        List.filter (fun keyword => includes projectLower keyword) criteriaKeywords in
      if (0 <? length matchedKeywords)%nat
      then [criteria +:+ ": " +:+ join ", " (firstn 2 matchedKeywords)]
      else []) scoringCriteria in
  firstn 3 matches.

(** [c * 0.3 + q * 0.25 + r * 0.2 + d * 0.15 + k * 0.1] *)
Definition project_weighted (c q r d k : Z) : number :=
  add (add (add (add (mul (of_Z c) (decimal 3 10))
                     (mul (of_Z q) (decimal 25 100)))
                (mul (of_Z r) (decimal 2 10)))
           (mul (of_Z d) (decimal 15 100)))
      (mul (of_Z k) (decimal 1 10)).

Definition evaluateProject (documents : list VectorDB.Document)
    (projectText : string) : outcome ProjectScore :=
  (DO ragContext <- VectorDB.getContextForProjectEvaluation documents ;;
   let technicalRequirements := VectorDB.technicalRequirements ragContext in
   let correctness := scoreCorrectnessWithRAG projectText technicalRequirements in
   let codeQuality := scoreCodeQuality projectText in
   let resilience := scoreResilienceWithRAG projectText technicalRequirements in
   let documentation := scoreDocumentation projectText in
   let creativity := scoreCreativity projectText in
   let overallScore :=
     project_weighted correctness codeQuality resilience documentation creativity in
   Return {| p_breakdown := {| correctness := correctness;
                               code_quality := codeQuality;
                               resilience := resilience;
                               documentation := documentation;
                               creativity := creativity |};
             overallScore := div (Math_round (mul overallScore (of_Z 10))) (of_Z 10);
             p_rag_context_used := true;
             matched_criteria :=
               identifyMatchedCriteria projectText
                 (VectorDB.scoringCriteria ragContext) |})%outcome.

(** *** Feedback and summary *)

(** [Object.entries(breakdown)], keys in insertion order. *)
Definition cv_entries (b : CVBreakdown) : list (string * Z) :=
  [ ("technical_skills", technical_skills b); ("experience_level", experience_level b);
    ("achievements", cv_achievements b); ("cultural_fit", cultural_fit b) ].

Definition project_entries (b : ProjectBreakdown) : list (string * Z) :=
  [ ("correctness", correctness b); ("code_quality", code_quality b);
    ("resilience", resilience b); ("documentation", documentation b);
    ("creativity", creativity b) ].

Definition keys_where (p : Z -> bool) (entries : list (string * Z)) : list string :=
  map (fun '(key, _) => replace_first "_" " " key)
      (List.filter (fun '(_, value) => p value) entries).

Definition identifyStrengths := keys_where (fun s => 4 <=? s).
Definition identifyGaps := keys_where (fun s => s <=? 2).
Definition identifyProjectStrengths := keys_where (fun s => 4 <=? s).
Definition identifyProjectImprovements := keys_where (fun s => s <=? 3).

Definition generateCVFeedback (matchResult : MatchResult) : string :=
  let strengths := identifyStrengths (cv_entries (breakdown matchResult)) in
  let gaps := identifyGaps (cv_entries (breakdown matchResult)) in
  "Strong " +:+ join " and " strengths +:+ " demonstrate good fit for backend role. "
  +:+ (if (0 <? length gaps)%nat
       then "Would benefit from developing " +:+ join " and " gaps
            +:+ " to fully match requirements."
       else "Excellent alignment with all key requirements.").

Definition generateProjectFeedback (projectScore : ProjectScore) : string :=
  let strengths := identifyProjectStrengths (project_entries (p_breakdown projectScore)) in
  let improvements :=
    identifyProjectImprovements (project_entries (p_breakdown projectScore)) in
  (if (0 <? length strengths)%nat
   then "Demonstrates " +:+ join " and " strengths +:+ ". " else "")
  +:+ (if (0 <? length improvements)%nat
       then "Could improve " +:+ join " and " improvements +:+ " for production readiness."
       else "Excellent implementation meeting all requirements.").

(** The [recommendation] variable of [generateOverallSummary]. *)
Definition recommendation (cvScore projScore : number) : string :=
  if geb cvScore (of_Z 80) && geb projScore (of_Z 4) then
    "Strong candidate - highly recommended for hire"
  else if geb cvScore (of_Z 70) && geb projScore (decimal 35 10) then
    "Good candidate fit - recommended for final interview"
  else if geb cvScore (of_Z 60) && geb projScore (of_Z 3) then
    "Potential candidate - needs technical discussion"
  else
    "Requires further development before consideration".

Section Summary.
(** How a number prints inside a template literal. *)
Variable Number_toString : number -> string.

Definition generateOverallSummary (cvMatchRate : MatchResult)
    (projectScore : ProjectScore) : string :=
  let cvScore := score cvMatchRate in
  let projScore := overallScore projectScore in
  "Overall Assessment: " +:+ recommendation cvScore projScore
  +:+ ". CV match of " +:+ Number_toString cvScore +:+ "% shows "
  +:+ (if geb cvScore (of_Z 75) then "strong"
       else if geb cvScore (of_Z 60) then "good" else "moderate")
  +:+ " alignment with requirements. Project score of "
  +:+ Number_toString projScore +:+ "/5 indicates "
  +:+ (if geb projScore (of_Z 4) then "excellent"
       else if geb projScore (decimal 35 10) then "solid" else "developing")
  +:+ " technical execution.".
End Summary.

End AIService.

(** ** services/aiService.js, the OpenAI-backed service *)

Module ProductionAIService.
Import JS Num.

Record RetryConfig := {
  maxRetries : Z;
  baseDelay : Z;
  maxDelay : Z
}.

(** The constructor: [parseInt(process.env.AI_RETRY_MAX_ATTEMPTS) || 3]
    falls back to 3 on NaN and on 0. *)
Definition retryConfig (AI_RETRY_MAX_ATTEMPTS : jsint) : RetryConfig :=
  {| maxRetries := match AI_RETRY_MAX_ATTEMPTS with
                   | Int z => if z =? 0 then 3 else z
                   | NaN => 3
                   end;
     baseDelay := 1000;
     maxDelay := 10000 |}.

Definition defaultConfig : RetryConfig := retryConfig NaN.

(** What one call of [openai.chat.completions.create] leads to: a response
    with or without content, or a rejection. *)
Inductive api_reply :=
| Response (content : option string)
| Rejected (message : string).

(** The [try] block of [callOpenAI]; a missing or empty content is falsy. *)
Definition attempt_outcome (reply : api_reply) : outcome string :=
  match reply with
  | Response (Some content) =>
      if String.eqb content "" then Throw "No content received from OpenAI API"
      else Return content
  | Response None => Throw "No content received from OpenAI API"
  | Rejected message => Throw message
  end.

(** [Math.min(baseDelay * Math.pow(2, attempt - 1), maxDelay)] *)
Definition backoff_delay (config : RetryConfig) (attempt : Z) : Z :=
  Z.min (baseDelay config * 2 ^ (attempt - 1)) (maxDelay config).

(** The non-mock path of [callOpenAI]: the reply to each attempt is given
    by [api]; the result comes with the delays slept, in order. *)
Equations? callOpenAI_live (cfg : RetryConfig) (api : Z -> api_reply) (attempt : Z)
  : outcome string * list Z by wf (Z.to_nat (maxRetries cfg - attempt)) lt :=
callOpenAI_live cfg api attempt with attempt_outcome (api attempt) => {
  | Return content := (Return content, []);
  | Throw message with Z_lt_dec attempt (maxRetries cfg) => {
    | left _ :=
        let delay := backoff_delay cfg attempt in
        let '(result, slept) := callOpenAI_live cfg api (attempt + 1) in
        (result, delay :: slept);
    | right _ :=
        (Throw ("OpenAI API failed after " +:+ Z_toString (maxRetries cfg)
                +:+ " attempts: " +:+ message), []) } }.
Proof. lia. Qed.

(** [generateMockResponse(prompt)]; the first branch is the
    [JSON.stringify] text of the literal object. *)
Definition generateMockResponse (prompt : string) : string :=
  if includes prompt "Extract structured information" then
    "{" +:+ quoted "skills" +:+ ":[" +:+ quoted "Node.js" +:+ "," +:+ quoted "Express.js"
    +:+ "," +:+ quoted "PostgreSQL" +:+ "," +:+ quoted "AWS" +:+ "],"
    +:+ quoted "experience_years" +:+ ":3,"
    +:+ quoted "projects" +:+ ":[{" +:+ quoted "name" +:+ ":" +:+ quoted "Backend API"
    +:+ "," +:+ quoted "description" +:+ ":" +:+ quoted "REST API development"
    +:+ "," +:+ quoted "technologies" +:+ ":[" +:+ quoted "Node.js" +:+ ","
    +:+ quoted "Express" +:+ "]}],"
    +:+ quoted "achievements" +:+ ":[" +:+ quoted "API optimization" +:+ ","
    +:+ quoted "Team leadership" +:+ "],"
    +:+ quoted "education" +:+ ":" +:+ quoted "Computer Science" +:+ ","
    +:+ quoted "communication_indicators" +:+ ":[" +:+ quoted "Team collaboration" +:+ "]}"
  else "Mock response for development".

Record Service := {
  useMockResponses : bool;
  config : RetryConfig
}.

(** [callOpenAI(prompt, options, attempt = 1)].  The mock path sleeps for
    a simulated latency, which is not a retry delay and is not recorded. *)
Definition callOpenAI (service : Service) (api : Z -> api_reply) (prompt : string)
    (attempt : Z) : outcome string * list Z :=
  if useMockResponses service then (Return (generateMockResponse prompt), [])
  else callOpenAI_live (config service) api attempt.

(** *** The fallback generators *)

Definition extractSkillsBasic (text : string) : list string :=
  let skillKeywords :=
    [ "node.js"; "nodejs"; "javascript"; "python"; "express"; "react";
      "postgresql"; "mysql"; "mongodb"; "redis"; "aws"; "docker";
      "rest"; "api"; "microservices"; "ai"; "llm" ] in
  List.filter (fun skill => includes (toLowerCase text) skill) skillKeywords.

(** The same regular expression, [parseInt] and spread call as in the
    heuristic service. *)
Definition extractExperienceBasic (max_arguments : nat) (text : string) : outcome number :=
  match AIService.scan_years text 0 with
  | [] => Return (of_Z 2)
  | yearMatches =>
      let years := map AIService.parseInt yearMatches in
      spread max_arguments Math_max years
  end.

Record FallbackProject := {
  fp_name : string;
  fp_description : string;
  fp_technologies : list string
}.

Record FallbackCVInfo := {
  f_skills : list string;
  f_experience_years : number;
  f_projects : list FallbackProject;
  f_achievements : list string;
  f_education : string;
  f_communication_indicators : list string
}.

Definition fallbackExtractCVInfo (max_arguments : nat) (cvText : string)
    : outcome FallbackCVInfo :=
  let skills := extractSkillsBasic cvText in
  (DO experience <- extractExperienceBasic max_arguments cvText ;;
   Return {| f_skills := skills;
             f_experience_years := experience;
             f_projects := [{| fp_name := "Project Experience";
                               fp_description := "Various projects mentioned";
                               fp_technologies := firstn 3 skills |}];
             f_achievements := ["Performance improvements"; "Team collaboration"];
             f_education := "Technical background indicated";
             f_communication_indicators := ["Team work"; "Documentation"] |})%outcome.

Record ScoredCriterion := { c_score : Z; c_reasoning : string }.

Record FallbackMatch := {
  m_breakdown : list (string * ScoredCriterion);
  m_score : number;
  m_rag_context_used : bool;
  m_matched_requirements : list string
}.

Definition fallbackEvaluateCV : FallbackMatch :=
  {| m_breakdown :=
       [ ("technical_skills",
          {| c_score := 3; c_reasoning := "Adequate technical skills for the role" |});
         ("experience_level",
          {| c_score := 3; c_reasoning := "Reasonable experience level" |});
         ("achievements", {| c_score := 3; c_reasoning := "Some achievements noted" |});
         ("cultural_fit",
          {| c_score := 3; c_reasoning := "Good collaboration indicators" |}) ];
     m_score := of_Z 70;
     m_rag_context_used := true;
     m_matched_requirements := ["Backend skills"; "Technical experience"] |}.

Record FallbackProjectScore := {
  ps_breakdown : list (string * ScoredCriterion);
  ps_overallScore : number;
  ps_rag_context_used : bool;
  ps_matched_criteria : list string
}.

Definition fallbackEvaluateProject : FallbackProjectScore :=
  {| ps_breakdown :=
       [ ("correctness",
          {| c_score := 3; c_reasoning := "Basic implementation meets requirements" |});
         ("code_quality", {| c_score := 3; c_reasoning := "Standard code organization" |});
         ("resilience", {| c_score := 3; c_reasoning := "Basic error handling present" |});
         ("documentation",
          {| c_score := 4; c_reasoning := "Good documentation provided" |});
         ("creativity",
          {| c_score := 3; c_reasoning := "Standard approach with some enhancements" |}) ];
     ps_overallScore := decimal 32 10;
     ps_rag_context_used := true;
     ps_matched_criteria := ["Documentation"; "Basic implementation"] |}.

(** The text fallbacks receive the scores already printed. *)
Definition fallbackCVFeedback (score : string) : string :=
  "Solid technical background with " +:+ score
  +:+ "% alignment to role requirements. Good foundation for backend development. Consider developing additional AI/LLM integration skills.".

Definition fallbackProjectFeedback (score : string) : string :=
  "Project demonstrates " +:+ score
  +:+ "/5 implementation quality. Good documentation and structure. Focus on enhancing error handling and testing coverage for production readiness.".

Definition fallbackOverallSummary (cvScore projectScore : string) : string :=
  "Candidate shows " +:+ cvScore +:+ "% CV alignment and " +:+ projectScore
  +:+ "/5 project execution. Solid technical foundation with growth potential. Recommended for technical interview to assess learning ability and cultural fit.".

(** *** The six stages.  Each wraps its call of [callOpenAI] and the
    decoding of the response in a [try] whose [catch] returns the
    fallback.  The wording of the prompts, the JSON parser, the printing
    of values and the number of arguments a call takes are parameters. *)

Section Stages.
Variable max_arguments : nat.
Variable service : Service.
Variable documents : list VectorDB.Document.
(** The reply of the provider to each attempt of the call for a prompt. *)
Variable api : string -> Z -> api_reply.

Variable JSONValue : Type.
Variable JSON_parse : string -> outcome JSONValue.
(** The two log lines of [extractCVInfo] read properties of the parsed
    value, and the evaluations set [rag_context_used] on it; both throw a
    TypeError on a parsed [null]. *)
Variable log_cv_fields : JSONValue -> outcome unit.
Variable set_rag_context_used : JSONValue -> outcome JSONValue.
(** [`${parsed[field]}`] and the printing of a number. *)
Variable field_text : JSONValue -> string -> string.
Variable Number_toString : number -> string.

(** A stage value is what the model answered or the fallback. *)
Inductive produced (F : Type) : Type :=
| FromModel (parsed : JSONValue)
| FromFallback (fallback : F).
Arguments FromModel {F} parsed.
Arguments FromFallback {F} fallback.

Variable cvInfoPromptRest : string -> string.
Variable cvMatchPrompt : produced FallbackCVInfo -> VectorDB.CVContext -> string.
Variable cvFeedbackPrompt :
  produced FallbackCVInfo -> produced FallbackMatch -> outcome string.
Variable projectPrompt : string -> string.
Variable projectFeedbackPrompt : produced FallbackProjectScore -> outcome string.
Variable summaryPrompt :
  produced FallbackMatch -> string -> produced FallbackProjectScore -> string -> string.

Definition call (prompt : string) : outcome string :=
  fst (callOpenAI service (api prompt) prompt 1).

Definition match_score_text (matchResult : produced FallbackMatch) : string :=
  match matchResult with
  | FromModel parsed => field_text parsed "score"
  | FromFallback fallback => Number_toString (m_score fallback)
  end.

Definition project_score_text (projectScore : produced FallbackProjectScore) : string :=
  match projectScore with
  | FromModel parsed => field_text parsed "overallScore"
  | FromFallback fallback => Number_toString (ps_overallScore fallback)
  end.

(** The first line of the prompt of [extractCVInfo] is fixed; the rest
    embeds the CV text. *)
Definition cvInfoPrompt (cvText : string) : string :=
  "You are an expert HR analyst. Extract structured information from this CV text and return ONLY valid JSON."
  +:+ cvInfoPromptRest cvText.

Definition extractCVInfo (cvText : string) : outcome (produced FallbackCVInfo) :=
  let prompt := cvInfoPrompt cvText in
  try_catch
    (DO response <- call prompt ;;
     DO parsed <- JSON_parse (trim response) ;;
     DO logged <- log_cv_fields parsed ;;
     Return (FromModel parsed))%outcome
    (fun _ =>
       DO fallback <- fallbackExtractCVInfo max_arguments cvText ;;
       Return (FromFallback fallback))%outcome.

Definition evaluateCVMatch (cvStructured : produced FallbackCVInfo)
    : outcome (produced FallbackMatch) :=
  (DO ragContext <- VectorDB.getContextForCVEvaluation documents ;;
   let prompt := cvMatchPrompt cvStructured ragContext in
   try_catch
     (DO response <- call prompt ;;
      DO parsed <- JSON_parse (trim response) ;;
      DO parsed <- set_rag_context_used parsed ;;
      Return (FromModel parsed))
     (fun _ => Return (FromFallback fallbackEvaluateCV)))%outcome.

Definition generateCVFeedback (cvStructured : produced FallbackCVInfo)
    (matchResult : produced FallbackMatch) : outcome string :=
  (DO prompt <- cvFeedbackPrompt cvStructured matchResult ;;
   try_catch
     (DO response <- call prompt ;;
      Return (trim response))
     (fun _ => Return (fallbackCVFeedback (match_score_text matchResult))))%outcome.

Definition evaluateProject (projectText : string)
    : outcome (produced FallbackProjectScore) :=
  (DO ragContext <- VectorDB.getContextForProjectEvaluation documents ;;
   let prompt := projectPrompt projectText in
   try_catch
     (DO response <- call prompt ;;
      DO parsed <- JSON_parse (trim response) ;;
      DO parsed <- set_rag_context_used parsed ;;
      Return (FromModel parsed))
     (fun _ => Return (FromFallback fallbackEvaluateProject)))%outcome.

Definition generateProjectFeedback (projectScore : produced FallbackProjectScore)
    : outcome string :=
  (DO prompt <- projectFeedbackPrompt projectScore ;;
   try_catch
     (DO response <- call prompt ;;
      Return (trim response))
     (fun _ => Return (fallbackProjectFeedback (project_score_text projectScore))))%outcome.

Definition generateOverallSummary (cvMatchRate : produced FallbackMatch)
    (cvFeedback : string) (projectScore : produced FallbackProjectScore)
    (projectFeedback : string) : outcome string :=
  let prompt := summaryPrompt cvMatchRate cvFeedback projectScore projectFeedback in
  try_catch
    (DO response <- call prompt ;;
     Return (trim response))%outcome
    (fun _ => Return (fallbackOverallSummary (match_score_text cvMatchRate)
                                             (project_score_text projectScore))).
End Stages.

Arguments FromModel {JSONValue F} parsed.
Arguments FromFallback {JSONValue F} fallback.
Arguments match_score_text {JSONValue} field_text Number_toString matchResult.
Arguments project_score_text {JSONValue} field_text Number_toString projectScore.
Arguments extractCVInfo max_arguments service api {JSONValue} JSON_parse log_cv_fields
  cvInfoPromptRest cvText.
Arguments evaluateCVMatch service documents api {JSONValue} JSON_parse
  set_rag_context_used cvMatchPrompt cvStructured.
Arguments generateCVFeedback service api {JSONValue} field_text Number_toString
  cvFeedbackPrompt cvStructured matchResult.
Arguments evaluateProject service documents api {JSONValue} JSON_parse
  set_rag_context_used projectPrompt projectText.
Arguments generateProjectFeedback service api {JSONValue} field_text Number_toString
  projectFeedbackPrompt projectScore.
Arguments generateOverallSummary service api {JSONValue} field_text Number_toString
  summaryPrompt cvMatchRate cvFeedback projectScore projectFeedback.

End ProductionAIService.

(** ** server.js *)

Module Server.
Import JS Num.

Record FileInfo := {
  filename : string;
  originalName : string;
  path : string;
  mimetype : string;
  size : Z
}.

Record Upload := {
  upload_id : string;
  cv : FileInfo;
  project : FileInfo;
  uploadedAt : nat
}.

(** The result object compiled at the end of the pipeline; the constant
    list of stage names and the formatted processing time are left out. *)
Record EvaluationResult := {
  cv_match_rate : number;
  cv_feedback : string;
  project_score : number;
  project_feedback : string;
  overall_summary : string;
  cv_breakdown : AIService.CVBreakdown;
  project_breakdown : AIService.ProjectBreakdown;
  cv_structured : AIService.CVStructured;
  matched_requirements : list string;
  matched_criteria : list string;
  evaluation_id : string;
  upload_id_used : string;
  file_cv : string;
  file_project : string;
  processed_at : nat
}.

(** A job record; a property that has not been assigned is [None]. *)
Record Job := {
  id : string;
  uploadId : string;
  status : string;
  createdAt : nat;
  message : string;
  startedAt : option nat;
  result : option EvaluationResult;
  completedAt : option nat;
  error : option string;
  failedAt : option nat
}.

Definition set_status (v : string) (j : Job) : Job :=
  {| id := id j; uploadId := uploadId j; status := v; createdAt := createdAt j;
     message := message j; startedAt := startedAt j; result := result j;
     completedAt := completedAt j; error := error j; failedAt := failedAt j |}.
Definition set_message (v : string) (j : Job) : Job :=
  {| id := id j; uploadId := uploadId j; status := status j; createdAt := createdAt j;
     message := v; startedAt := startedAt j; result := result j;
     completedAt := completedAt j; error := error j; failedAt := failedAt j |}.
Definition set_startedAt (v : nat) (j : Job) : Job :=
  {| id := id j; uploadId := uploadId j; status := status j; createdAt := createdAt j;
     message := message j; startedAt := Some v; result := result j;
     completedAt := completedAt j; error := error j; failedAt := failedAt j |}.
Definition set_result (v : EvaluationResult) (j : Job) : Job :=
  {| id := id j; uploadId := uploadId j; status := status j; createdAt := createdAt j;
     message := message j; startedAt := startedAt j; result := Some v;
     completedAt := completedAt j; error := error j; failedAt := failedAt j |}.
Definition set_completedAt (v : nat) (j : Job) : Job :=
  {| id := id j; uploadId := uploadId j; status := status j; createdAt := createdAt j;
     message := message j; startedAt := startedAt j; result := result j;
     completedAt := Some v; error := error j; failedAt := failedAt j |}.
Definition set_error (v : string) (j : Job) : Job :=
  {| id := id j; uploadId := uploadId j; status := status j; createdAt := createdAt j;
     message := message j; startedAt := startedAt j; result := result j;
     completedAt := completedAt j; error := Some v; failedAt := failedAt j |}.
Definition set_failedAt (v : nat) (j : Job) : Job :=
  {| id := id j; uploadId := uploadId j; status := status j; createdAt := createdAt j;
     message := message j; startedAt := startedAt j; result := result j;
     completedAt := completedAt j; error := error j; failedAt := Some v |}.

(** The state of the process: the two in-memory maps, the documents of the
    vector store, the clock read by [new Date()], and the successive
    contents of the job store seen whenever the pipeline is suspended at an
    [await], which is when another request handler can read it. *)
Record World := {
  uploadedFiles : gmap string Upload;
  evaluationJobs : gmap string Job;
  documents : list VectorDB.Document;
  now : nat;
  observed : list (gmap string Job)
}.

Definition with_jobs (jobs : gmap string Job) (w : World) : World :=
  {| uploadedFiles := uploadedFiles w; evaluationJobs := jobs;
     documents := documents w; now := now w; observed := observed w |}.

(** Code acting on the state, with exceptions. *)
Definition M (A : Type) : Type := World -> outcome A * World.

Definition ret {A} (a : A) : M A := fun w => (Return a, w).
Definition lift {A} (o : outcome A) : M A := fun w => (o, w).
Definition bind {A B} (m : M A) (k : A -> M B) : M B :=
  fun w => match m w with
           | (Return a, w') => k a w'
           | (Throw e, w') => (Throw e, w')
           end.
Definition catch {A} (body : M A) (handler : string -> M A) : M A :=
  fun w => match body w with
           | (Return a, w') => (Return a, w')
           | (Throw e, w') => handler e w'
           end.

Declare Scope M_scope.
Delimit Scope M_scope with M.
Notation "'DO' x <- m ;; k" := (bind m (fun x => k))
  (at level 10, x name, m at level 99, k at level 200,
   format "'[v' 'DO'  x  <-  m  ;;  '/' k ']'") : M_scope.
Notation "m ;;; k" := (bind m (fun _ => k))
  (at level 100, k at level 200, right associativity) : M_scope.

Definition new_Date : M nat := fun w => (Return (now w), w).
Definition get_documents : M (list VectorDB.Document) := fun w => (Return (documents w), w).

(** The pipeline is suspended: the job store can be read by other
    handlers, and time passes. *)
Definition yield : M unit :=
  fun w => (Return tt,
            {| uploadedFiles := uploadedFiles w; evaluationJobs := evaluationJobs w;
               documents := documents w; now := S (now w);
               observed := observed w ++ [evaluationJobs w] |}).

(** [await f(...)] for a call whose body does not touch the job store. *)
Definition await {A} (o : outcome A) : M A := bind yield (fun _ => lift o).

(** [const job = evaluationJobs.get(id)] followed by assignments to
    properties of [job] and [evaluationJobs.set(id, job)]: the object in
    the map is the one mutated.  An assignment to a property of [undefined]
    throws. *)
Definition update_job (evaluationId : string) (assign : Job -> Job) : M unit :=
  fun w => match evaluationJobs w !! evaluationId with
           | Some job => (Return tt, with_jobs (<[evaluationId := assign job]> (evaluationJobs w)) w)
           | None => (Throw "Cannot set properties of undefined", w)
           end.

(** [uploadedFiles.get(uploadId)], and the later read of a property of it. *)
Definition get_upload (uploadId : string) : M (option Upload) :=
  fun w => (Return (uploadedFiles w !! uploadId), w).

Definition property {A} (uploadData : option Upload) (field : Upload -> A) : M A :=
  match uploadData with
  | Some u => ret (field u)
  | None => lift (Throw "Cannot read properties of undefined")
  end.

Section Pipeline.
(** [fs.readFileSync(path, 'utf8')]: the contents, or the message of the
    error thrown. *)
Variable readFileSync : string -> outcome string.
Variable Number_toString : number -> string.
(** The number of arguments a call takes, see [spread]. *)
Variable max_arguments : nat.

Definition mockContent (fileInfo : FileInfo) : string :=
  newline +:+ "    Mock extracted content from " +:+ originalName fileInfo
  +:+ newline +:+ "    File size: " +:+ Z_toString (size fileInfo) +:+ " bytes"
  +:+ newline +:+ "    File type: " +:+ mimetype fileInfo
  +:+ newline +:+ "    "
  +:+ newline +:+ "    [In production, this would contain the actual extracted text from PDF/DOCX files]"
  +:+ newline +:+ "    This mock demonstrates text extraction functionality for non-text files."
  +:+ newline +:+ "    ".

Definition extractFileContent (fileInfo : FileInfo) : outcome string :=
  try_catch
    (if String.eqb (mimetype fileInfo) "text/plain" then
       (DO content <- readFileSync (path fileInfo) ;;
        Return content)%outcome
     else Return (mockContent fileInfo))
    (fun message =>
       Return ("Unable to extract content from " +:+ originalName fileInfo
               +:+ ": " +:+ message)).

(** The statements of the [try] block of [processEvaluation], cut at the
    comments that number its steps. *)
Definition step_start (evaluationId : string) : M unit :=
  (DO startedAt <- new_Date ;;
   update_job evaluationId
     (fun job => set_startedAt startedAt
                   (set_message "Running AI analysis pipeline..."
                      (set_status "processing" job))))%M.

Definition step_extract (evaluationId uploadId : string) : M (option Upload * string * string) :=
  (DO uploadData <- get_upload uploadId ;;
   update_job evaluationId (set_message "Extracting text from uploaded files...") ;;;
   DO cvFile <- property uploadData cv ;;
   DO cvText <- await (extractFileContent cvFile) ;;
   DO projectFile <- property uploadData project ;;
   DO projectText <- await (extractFileContent projectFile) ;;
   ret (uploadData, cvText, projectText))%M.

Definition step_cv (evaluationId cvText : string)
    : M (AIService.CVStructured * AIService.MatchResult * string) :=
  (update_job evaluationId
     (set_message "Analyzing CV with AI and retrieving job context...") ;;;
   DO cvStructured <- await (AIService.extractCVInfo max_arguments cvText) ;;
   DO docs <- get_documents ;;
   DO cvMatchRate <- await (AIService.evaluateCVMatch docs cvStructured) ;;
   DO cvFeedback <- await (Return (AIService.generateCVFeedback cvMatchRate)) ;;
   ret (cvStructured, cvMatchRate, cvFeedback))%M.

Definition step_project (evaluationId projectText : string)
    : M (AIService.ProjectScore * string) :=
  (update_job evaluationId
     (set_message "Evaluating project deliverable with enhanced scoring...") ;;;
   DO docs <- get_documents ;;
   DO projectScore <- await (AIService.evaluateProject docs projectText) ;;
   DO projectFeedback <- await (Return (AIService.generateProjectFeedback projectScore)) ;;
   ret (projectScore, projectFeedback))%M.

Definition step_summary (evaluationId : string) (cvMatchRate : AIService.MatchResult)
    (projectScore : AIService.ProjectScore) : M string :=
  (update_job evaluationId (set_message "Compiling final evaluation results...") ;;;
   await (Return (AIService.generateOverallSummary Number_toString cvMatchRate projectScore)))%M.

Definition compile_result (evaluationId uploadId : string)
    (cvStructured : AIService.CVStructured) (cvMatchRate : AIService.MatchResult)
    (cvFeedback : string) (projectScore : AIService.ProjectScore)
    (projectFeedback overallSummary : string) (cvFile projectFile : FileInfo)
    (processed_at : nat) : EvaluationResult :=
  {| cv_match_rate := div (AIService.score cvMatchRate) (of_Z 100);
     cv_feedback := cvFeedback;
     project_score := AIService.overallScore projectScore;
     project_feedback := projectFeedback;
     overall_summary := overallSummary;
     cv_breakdown := AIService.breakdown cvMatchRate;
     project_breakdown := AIService.p_breakdown projectScore;
     cv_structured := cvStructured;
     matched_requirements := AIService.matched_requirements cvMatchRate;
     matched_criteria := AIService.matched_criteria projectScore;
     evaluation_id := evaluationId;
     upload_id_used := uploadId;
     file_cv := originalName cvFile;
     file_project := originalName projectFile;
     processed_at := processed_at |}.

Definition step_complete (evaluationId : string) (result : EvaluationResult) : M unit :=
  (DO completedAt <- new_Date ;;
   update_job evaluationId
     (fun job => set_message "AI evaluation completed successfully"
                   (set_completedAt completedAt
                      (set_result result
                         (set_status "completed" job)))))%M.

(** The [catch] block. *)
Definition step_failed (evaluationId : string) (error_message : string) : M unit :=
  (DO failedAt <- new_Date ;;
   update_job evaluationId
     (fun job => set_failedAt failedAt
                   (set_message "AI evaluation failed - please try again"
                      (set_error error_message
                         (set_status "failed" job)))))%M.

Definition processEvaluation (evaluationId uploadId : string) : M unit :=
  catch
    (step_start evaluationId ;;;
     DO extracted <- step_extract evaluationId uploadId ;;
     let '(uploadData, cvText, projectText) := extracted in
     DO cvStage <- step_cv evaluationId cvText ;;
     let '(cvStructured, cvMatchRate, cvFeedback) := cvStage in
     DO projectStage <- step_project evaluationId projectText ;;
     let '(projectScore, projectFeedback) := projectStage in
     DO overallSummary <- step_summary evaluationId cvMatchRate projectScore ;;
     DO cvFile <- property uploadData cv ;;
     DO projectFile <- property uploadData project ;;
     DO processed_at <- new_Date ;;
     step_complete evaluationId
       (compile_result evaluationId uploadId cvStructured cvMatchRate cvFeedback
          projectScore projectFeedback overallSummary cvFile projectFile processed_at))%M
    (step_failed evaluationId).

(** [POST /evaluate] *)
Inductive EvaluateResponse :=
| InvalidUploadId
| Queued (evaluationId : string).

Definition new_job (evaluationId uploadId : string) (createdAt : nat) : Job :=
  {| id := evaluationId; uploadId := uploadId; status := "queued";
     createdAt := createdAt; message := "Evaluation queued for processing";
     startedAt := None; result := None; completedAt := None;
     error := None; failedAt := None |}.

(** The handler validates the upload id, stores the queued job under the
    fresh [evaluationId] and starts [processEvaluation] without awaiting
    it.  The run is followed here to its end; the contents of the job store
    right after the insertion and at the end are recorded as well. *)
Definition record_jobs : M unit :=
  fun w => (Return tt,
            {| uploadedFiles := uploadedFiles w; evaluationJobs := evaluationJobs w;
               documents := documents w; now := now w;
               observed := observed w ++ [evaluationJobs w] |}).

Definition post_evaluate (uploadId : option string) (evaluationId : string)
    : M EvaluateResponse :=
  fun w =>
    match uploadId with
    | None | Some EmptyString => (Return InvalidUploadId, w)
    | Some uploadId =>
        match uploadedFiles w !! uploadId with
        | None => (Return InvalidUploadId, w)
        | Some _ =>
            (DO createdAt <- new_Date ;;
             (fun w => (Return tt,
                        with_jobs (<[evaluationId := new_job evaluationId uploadId createdAt]>
                                     (evaluationJobs w)) w)) ;;;
             record_jobs ;;;
             processEvaluation evaluationId uploadId ;;;
             record_jobs ;;;
             ret (Queued evaluationId))%M w
        end
    end.

End Pipeline.

(** [GET /result/:id]: a view of the stored job; the store is only read.
    The formatted processing and elapsed times are left out. *)
Inductive ResultResponse :=
| NotFound
| CompletedView (result : option EvaluationResult) (processedAt : option nat)
| FailedView (error : option string) (message : string) (failedAt : option nat)
| PendingView (status message : string) (createdAt : nat).

Definition get_result (evaluationId : string) (w : World) : ResultResponse :=
  match evaluationJobs w !! evaluationId with
  | None => NotFound
  | Some job =>
      if String.eqb (status job) "completed" then
        CompletedView (result job) (completedAt job)
      else if String.eqb (status job) "failed" then
        FailedView (error job) (message job) (failedAt job)
      else PendingView (status job) (message job) (createdAt job)
  end.

(** [GET /vectordb/search] *)
Inductive SearchResponse :=
| MissingQuery (error : string)
| Found (results : list VectorDB.SearchResult).

(** [q] is the query parameter when present; [limit] is [parseInt] of the
    limit parameter when present, and 3 otherwise. *)
Definition get_vectordb_search (docs : list VectorDB.Document) (q : option string)
    (limit : option jsint) : SearchResponse :=
  match q with
  | None | Some EmptyString =>
      MissingQuery ("Query parameter " +:+ quoted "q" +:+ " is required")
  | Some query =>
      Found (VectorDB.searchDocuments docs query
               (match limit with Some n => n | None => Int 3 end))
  end.

(** *** Uploads *)

(** The [fileFilter] of the multer upload. *)
Definition allowedTypes : list string :=
  [ "text/plain"; "application/pdf";
    "application/vnd.openxmlformats-officedocument.wordprocessingml.document" ].

Definition fileFilter (file_mimetype : string) : outcome bool :=
  if existsb (String.eqb file_mimetype) allowedTypes then Return true
  else Throw "Invalid file type. Only PDF, DOCX, and TXT files are allowed.".

(** [POST /upload].  [cvFile] and [projectFile] are the files multer
    stored for the two form fields, when they were sent; the fresh
    [uploadId] is given.  The sizes formatted in KB are left out of the
    response. *)
Inductive UploadResponse :=
| MissingFiles (cv_received project_received : string)
| Uploaded (uploadId cv_name project_name : string).

Definition post_upload (cvFile projectFile : option FileInfo) (uploadId : string)
    : M UploadResponse :=
  fun w =>
    match cvFile, projectFile with
    | Some cvFile, Some projectFile =>
        (DO uploadedAt <- new_Date ;;
         (fun w => (Return tt,
                    {| uploadedFiles :=
                         <[uploadId := {| upload_id := uploadId; cv := cvFile;
                                          project := projectFile;
                                          uploadedAt := uploadedAt |}]>
                           (uploadedFiles w);
                       evaluationJobs := evaluationJobs w; documents := documents w;
                       now := now w; observed := observed w |})) ;;;
         ret (Uploaded uploadId (originalName cvFile) (originalName projectFile)))%M w
    | _, _ =>
        (Return (MissingFiles (match cvFile with Some _ => "yes" | None => "no" end)
                              (match projectFile with Some _ => "yes" | None => "no" end)),
         w)
    end.

(** [GET /upload/:id] *)
Inductive UploadInfoResponse :=
| UploadNotFound
| UploadInfo (uploadId cv_name cv_type project_name project_type : string)
             (uploadedAt : nat).

Definition get_upload_info (uploadId : string) (w : World) : UploadInfoResponse :=
  match uploadedFiles w !! uploadId with
  | None => UploadNotFound
  | Some uploadData =>
      UploadInfo uploadId
        (originalName (cv uploadData)) (mimetype (cv uploadData))
        (originalName (project uploadData)) (mimetype (project uploadData))
        (uploadedAt uploadData)
  end.

End Server.

(* ====================================================================== *)
(** * Notions used in the statements *)

Section Notions.
Import JS VectorDB.

Definition pair_points (queryWord chunkWord : string) : Z :=
  if includes chunkWord queryWord || includes queryWord chunkWord
  then (if (3 <? String.length queryWord)%nat then 2 else 1)
  else 0.

Definition sumZ (l : list Z) : Z := fold_right Z.add 0 l.

(** The sum over every (query token, chunk token) pair. *)
Definition pair_score (chunk query : string) : Z :=
  sumZ (map (fun queryWord =>
               sumZ (map (pair_points queryWord) (split_ws (toLowerCase chunk))))
            (split_ws (toLowerCase query))).

(** The score as the specification words it: the bonus is granted when
    the raw query occurs in the chunk. *)
Definition spec_relevance (chunk query : string) : Z :=
  pair_score chunk query + (if includes chunk query then 3 else 0).

(** The score with the bonus the code grants: some query token occurs in
    the lower-cased chunk. *)
Definition token_bonus_relevance (chunk query : string) : Z :=
  pair_score chunk query
  + (if existsb (fun word => includes (toLowerCase chunk) word)
                (split_ws (toLowerCase query))
     then 3 else 0).

(** The comparator [(a, b) => key(b) - key(a)] and the order it sorts into. *)
Definition by_key_desc {A : Type} (key : A -> Z) (a b : A) : Z := key b - key a.
Definition desc {A : Type} (key : A -> Z) (a b : A) : Prop := key b <= key a.

Definition doc_result (query : string) (doc : Document) : SearchResult :=
  {| res_id := id doc;
     res_category := category doc;
     relevantChunks := findRelevantChunks (chunks doc) query;
     totalRelevance := Z.of_nat (length (findRelevantChunks (chunks doc) query)) |}.

(** What holds of every result returned for [query] over [docs]. *)
Definition result_of (docs : list Document) (query : string) (r : SearchResult) : Prop :=
  0 < totalRelevance r
  /\ relevantChunks r <> []
  /\ exists doc, In doc docs /\ r = doc_result query doc.

(** A store of two documents of one chunk each, taken from the job
    description and the scoring rubric, to run the code on. *)
Definition two_docs : list Document :=
  [ {| id := "job-requirements";
       content := "We're seeking a backend engineer to build AI-powered systems and scalable solutions.";
       category := "job-description";
       chunks := ["We're seeking a backend engineer to build AI-powered systems and scalable solutions."];
       keywords := [] |};
    {| id := "scoring-rubric";
       content := "SCORE 4 (Strong): Solid backend foundation with 2+ relevant technologies";
       category := "evaluation-criteria";
       chunks := ["SCORE 4 (Strong): Solid backend foundation with 2+ relevant technologies"];
       keywords := [] |} ].

(** Structural equality of numbers. *)
Definition number_eqb (x y : Num.number) : bool :=
  match x, y with
  | S754_zero a, S754_zero b => Bool.eqb a b
  | S754_infinity a, S754_infinity b => Bool.eqb a b
  | S754_nan, S754_nan => true
  | S754_finite s m e, S754_finite s' m' e' => Bool.eqb s s' && Pos.eqb m m' && Z.eqb e e'
  | _, _ => false
  end.

(** [lo <= x <= hi] on numbers. *)
Definition number_between (lo hi : Z) (x : Num.number) : bool :=
  Num.geb x (Num.of_Z lo) && Num.geb (Num.of_Z hi) x.

Definition scores_1_5 : list Z := [1; 2; 3; 4; 5].
Definition tenths_10_50 : list Z := map Z.of_nat (seq 10 41).
Definition percents_0_100 : list Z := map Z.of_nat (seq 0 101).

(** The weighted averages of the specification, as exact rationals. *)
Definition cv_weighted_exact (t e a c : Z) : Q :=
  ((40 # 100) * inject_Z t + (25 # 100) * inject_Z e
   + (20 # 100) * inject_Z a + (15 # 100) * inject_Z c)%Q.

Definition project_weighted_exact (c q r d k : Z) : Q :=
  ((30 # 100) * inject_Z c + (25 # 100) * inject_Z q + (20 # 100) * inject_Z r
   + (15 # 100) * inject_Z d + (10 # 100) * inject_Z k)%Q.

(** For four criterion scores: the rounded double is the integer
    [8t + 5e + 4a + 3c], which is 20 times the exact weighted average and
    lies in 0..100, and its hundredth lies in [0, 1]. *)
Definition cv_score_check (t e a c : Z) : bool :=
  let s := 8 * t + 5 * e + 4 * a + 3 * c in
  number_eqb (Num.Math_round (Num.mul (AIService.cv_weighted t e a c) (Num.of_Z 20)))
             (Num.of_Z s)
  && Qeq_bool (inject_Z s) (20 * cv_weighted_exact t e a c)
  && (0 <=? s) && (s <=? 100)
  && number_between 0 1 (Num.div (Num.of_Z s) (Num.of_Z 100)).

(** For five criterion scores: the rounded double is an integer [n] of
    10..50 within one half of 10 times the exact weighted average (so one
    of the two integers around it), and the double [n / 10] lies in [1, 5]. *)
Definition project_score_check (c q r d k : Z) : bool :=
  let rounded :=
    Num.Math_round (Num.mul (AIService.project_weighted c q r d k) (Num.of_Z 10)) in
  let below := Qfloor (10 * project_weighted_exact c q r d k) in
  existsb (fun n =>
             number_eqb rounded (Num.of_Z n)
             && (10 <=? n) && (n <=? 50)
             && Qle_bool (Qabs (inject_Z n / 10 - project_weighted_exact c q r d k)) (1 # 20)
             && number_between 1 5 (Num.div (Num.of_Z n) (Num.of_Z 10)))
          [below; below + 1].

(** For five criterion scores: the rounded double is the tenth that
    rounding the exact average half up selects, or the tenth below it when
    the average lies exactly halfway between the two; in both cases an
    integer [n] of 10..50 within one half of 10 times the average. *)
Definition project_round_check (c q r d k : Z) : bool :=
  let rounded :=
    Num.Math_round (Num.mul (AIService.project_weighted c q r d k) (Num.of_Z 10)) in
  let average := project_weighted_exact c q r d k in
  let up := Num.Math_round_Q (10 * average) in
  existsb (fun n =>
             number_eqb rounded (Num.of_Z n)
             && (10 <=? n) && (n <=? 50)
             && Qle_bool (Qabs (inject_Z n / 10 - average)) (1 # 20)
             && ((n =? up) || Qeq_bool (inject_Z n / 10 + (1 # 20)) average))
          [up; up - 1].

(** The exact weighted average of the criterion scores of a breakdown. *)
Definition breakdown_average (b : AIService.ProjectBreakdown) : Q :=
  project_weighted_exact (AIService.correctness b) (AIService.code_quality b)
                         (AIService.resilience b) (AIService.documentation b)
                         (AIService.creativity b).

(** Two reports whose criterion scores, 1, 5, 1, 2, 3 and 1, 2, 3, 5, 2
    over [two_docs], have the same exact average 2.35. *)
Definition report_2_35_down : string :=
  "An Express service on Node.js, structured in modular layers: the routes receive the two uploads, a queue runs the evaluation in the background, and the job store keeps the state of every run until the client polls for it.".
Definition report_2_35_up : string :=
  "A robust pipeline with a fallback for every stage; the README gives the instructions for the setup and a walk through the code.".

(** The comparisons of the summary agree with the comparisons of the
    percentage [z] and of the number of tenths [n]. *)
Definition summary_check_cv (z : Z) : bool :=
  Bool.eqb (Num.geb (Num.of_Z z) (Num.of_Z 75)) (75 <=? z)
  && Bool.eqb (Num.geb (Num.of_Z z) (Num.of_Z 60)) (60 <=? z).

Definition summary_check_project (n : Z) : bool :=
  Bool.eqb (Num.geb (Num.div (Num.of_Z n) (Num.of_Z 10)) (Num.of_Z 4)) (40 <=? n)
  && Bool.eqb (Num.geb (Num.div (Num.of_Z n) (Num.of_Z 10)) (Num.decimal 35 10)) (35 <=? n).

(** A match result of 75 percent and a project score of 3.6 to run the
    summary on. *)
Definition sample_match : AIService.MatchResult :=
  {| AIService.breakdown :=
       {| AIService.technical_skills := 4; AIService.experience_level := 3;
          AIService.cv_achievements := 4; AIService.cultural_fit := 4 |};
     AIService.score := Num.of_Z 75;
     AIService.rag_context_used := true;
     AIService.matched_requirements := [] |}.

Definition sample_project_score : AIService.ProjectScore :=
  {| AIService.p_breakdown :=
       {| AIService.correctness := 4; AIService.code_quality := 3;
          AIService.resilience := 4; AIService.documentation := 3;
          AIService.creativity := 4 |};
     AIService.overallScore := Num.div (Num.of_Z 36) (Num.of_Z 10);
     AIService.p_rag_context_used := true;
     AIService.matched_criteria := [] |}.

(** The printing of the scores the pipeline reports: an integer of 0..100
    prints its digits, and a number of tenths of 10..50 that is not an
    integer prints with one decimal. *)
Definition print_score (x : Num.number) : string :=
  match find (fun z => number_eqb x (Num.of_Z z)) percents_0_100 with
  | Some z => Num.Z_toString z
  | None =>
      match find (fun n => number_eqb x (Num.div (Num.of_Z n) (Num.of_Z 10)))
                 tenths_10_50 with
      | Some n => Num.Z_toString (n / 10) +:+ "." +:+ Num.Z_toString (n mod 10)
      | None => "NaN"
      end
  end.

(** The recommendation the thresholds select, on a percentage [z] and a
    number of tenths [n]. *)
Definition threshold_recommendation (z n : Z) : string :=
  if (80 <=? z) && (40 <=? n) then "Strong candidate - highly recommended for hire"
  else if (70 <=? z) && (35 <=? n) then "Good candidate fit - recommended for final interview"
  else if (60 <=? z) && (30 <=? n) then "Potential candidate - needs technical discussion"
  else "Requires further development before consideration".

(** A number of arguments to run the code with. *)
Definition sample_max_arguments : nat := 100.

Definition sample_cv : AIService.CVStructured :=
  match AIService.extractCVInfo sample_max_arguments
          "5 years of Node.js and PostgreSQL on AWS; led a team" with
  | Return cvStructured => cvStructured
  | Throw _ =>
      {| AIService.skills := []; AIService.experience_years := Num.of_Z 0;
         AIService.projects := []; AIService.achievements := [];
         AIService.education := ""; AIService.communication_indicators := [] |}
  end.

(** The attempts [a, a+1, ..., a+n-1]. *)
Definition attempts_from (a : Z) (n : nat) : list Z :=
  map (fun i => a + Z.of_nat i) (seq 0 n).

(** A provider that rejects every call, and a live service with the
    default configuration. *)
Definition always_rejecting : Z -> ProductionAIService.api_reply :=
  fun _ => ProductionAIService.Rejected "timeout".

Definition live_service : ProductionAIService.Service :=
  {| ProductionAIService.useMockResponses := false;
     ProductionAIService.config := ProductionAIService.defaultConfig |}.



(** The number of matches of the pattern of [extractExperience]. *)
Definition year_mentions (text : string) : nat := length (AIService.scan_years text 0).

(** Stage parameters to run the production stages on: a provider that
    rejects every call, one that answers every call with a sentence, and
    a parser that takes a text that starts with a brace for an object and
    rejects every other text. *)
Definition sample_api : string -> Z -> ProductionAIService.api_reply :=
  fun _ => always_rejecting.
Definition sample_parse : string -> outcome string :=
  fun text => if startsWith text "{" then Return text else Throw "Unexpected token".
Definition sample_log : string -> outcome unit := fun _ => Return tt.
Definition sample_set : string -> outcome string := fun parsed => Return parsed.
Definition sample_field_text : string -> string -> string := fun _ _ => "undefined".
Definition sample_toString : Num.number -> string := fun _ => "70".
Definition sample_rest : string -> string := fun cvText => cvText.
Definition sample_cvMatchPrompt
    : ProductionAIService.produced string ProductionAIService.FallbackCVInfo
      -> VectorDB.CVContext -> string := fun _ _ => "evaluate".
Definition sample_cvFeedbackPrompt
    : ProductionAIService.produced string ProductionAIService.FallbackCVInfo
      -> ProductionAIService.produced string ProductionAIService.FallbackMatch
      -> outcome string := fun _ _ => Return "feedback".
Definition sample_projectPrompt : string -> string := fun projectText => projectText.
Definition sample_projectFeedbackPrompt
    : ProductionAIService.produced string ProductionAIService.FallbackProjectScore
      -> outcome string := fun _ => Return "feedback".
Definition sample_summaryPrompt
    : ProductionAIService.produced string ProductionAIService.FallbackMatch
      -> string
      -> ProductionAIService.produced string ProductionAIService.FallbackProjectScore
      -> string -> string := fun _ _ _ _ => "summary".

(** The states a job record went through, read off successive contents
    of the job store. *)
Fixpoint job_history (evaluationId : string)
    (snapshots : list (gmap string Server.Job)) : list Server.Job :=
  match snapshots with
  | [] => []
  | jobs :: rest =>
      match jobs !! evaluationId with
      | Some j => j :: job_history evaluationId rest
      | None => job_history evaluationId rest
      end
  end.

Definition terminal (status : string) : Prop :=
  status = "completed" \/ status = "failed".

(** The three transitions of the job state machine. *)
Definition status_step (a b : string) : Prop :=
  (a = "queued" /\ b = "processing")
  \/ (a = "processing" /\ b = "completed")
  \/ (a = "processing" /\ b = "failed").

(** In a terminal state exactly one of result and error is set, with the
    matching time stamp; before, none of the four is set. *)
Definition fields_consistent (j : Server.Job) : Prop :=
  (Server.status j = "completed"
   /\ Server.result j <> None /\ Server.error j = None
   /\ Server.completedAt j <> None /\ Server.failedAt j = None)
  \/ (Server.status j = "failed"
      /\ Server.error j <> None /\ Server.result j = None
      /\ Server.failedAt j <> None /\ Server.completedAt j = None)
  \/ ((Server.status j = "queued" \/ Server.status j = "processing")
      /\ Server.result j = None /\ Server.error j = None
      /\ Server.completedAt j = None /\ Server.failedAt j = None).

(** Between two successive states the record stays in the same
    non-terminal status or takes one of the three transitions; so a
    terminal state is never followed by another state. *)
Fixpoint transitions_ok (history : list Server.Job) : Prop :=
  match history with
  | a :: (b :: _) as rest =>
      ((Server.status a = Server.status b /\ ~ terminal (Server.status a)
        /\ Server.completedAt a = Server.completedAt b
        /\ Server.failedAt a = Server.failedAt b)
       \/ status_step (Server.status a) (Server.status b))
      /\ transitions_ok rest
  | _ => True
  end.

Definition lawful_history (history : list Server.Job) : Prop :=
  Forall fields_consistent history
  /\ transitions_ok history
  /\ exists first middle final,
       history = first :: middle ++ [final]
       /\ Server.status first = "queued"
       /\ terminal (Server.status final).

(** The text [extractFileContent] returns for a file. *)
Definition extracted_text (readFileSync : string -> outcome string)
    (fileInfo : Server.FileInfo) : string :=
  if String.eqb (Server.mimetype fileInfo) "text/plain" then
    match readFileSync (Server.path fileInfo) with
    | Return content => content
    | Throw message =>
        "Unable to extract content from " +:+ Server.originalName fileInfo
        +:+ ": " +:+ message
    end
  else Server.mockContent fileInfo.

(** A job store [jobs0] in which the job [evaluationId] is [j], and the
    state of the process around it. *)
Definition job_snapshot (jobs0 : gmap string Server.Job) (evaluationId : string)
    (j : Server.Job) : gmap string Server.Job :=
  <[evaluationId := j]> jobs0.

Definition world_with_job (uploads : gmap string Server.Upload)
    (jobs0 : gmap string Server.Job) (docs : list VectorDB.Document)
    (evaluationId : string) (j : Server.Job) (t : nat)
    (obs : list (gmap string Server.Job)) : Server.World :=
  {| Server.uploadedFiles := uploads;
     Server.evaluationJobs := job_snapshot jobs0 evaluationId j;
     Server.documents := docs; Server.now := t; Server.observed := obs |}.

(** How a state [j'] of the running, completed or failed job relates to
    the state [j] the run started from. *)
Definition processing_from (j j' : Server.Job) : Prop :=
  Server.status j' = "processing"
  /\ Server.result j' = Server.result j /\ Server.error j' = Server.error j
  /\ Server.completedAt j' = Server.completedAt j
  /\ Server.failedAt j' = Server.failedAt j.

(** The three stages of the pipeline that can throw, in the order
    [processEvaluation] awaits them; the first that throws ends the run. *)
Definition stage_outcomes (max_arguments : nat) (docs : list VectorDB.Document)
    (cvText projectText : string)
    : outcome (AIService.CVStructured * AIService.MatchResult * AIService.ProjectScore) :=
  (DO cvStructured <- AIService.extractCVInfo max_arguments cvText ;;
   DO cvMatchRate <- AIService.evaluateCVMatch docs cvStructured ;;
   DO projectScore <- AIService.evaluateProject docs projectText ;;
   Return (cvStructured, cvMatchRate, projectScore))%outcome.

(** The two scores of a result come from evaluations that returned. *)
Definition reported (max_arguments : nat) (docs : list VectorDB.Document)
    (res : Server.EvaluationResult) : Prop :=
  exists cvText projectText cvStructured cvMatchRate projectScore,
    AIService.extractCVInfo max_arguments cvText = Return cvStructured
    /\ AIService.evaluateCVMatch docs cvStructured = Return cvMatchRate
    /\ AIService.evaluateProject docs projectText = Return projectScore
    /\ Server.cv_match_rate res
       = Num.div (AIService.score cvMatchRate) (Num.of_Z 100)
    /\ Server.project_score res = AIService.overallScore projectScore.

Definition completed_from (max_arguments : nat) (docs : list VectorDB.Document)
    (j final : Server.Job) : Prop :=
  Server.status final = "completed"
  /\ (exists res, Server.result final = Some res /\ reported max_arguments docs res)
  /\ Server.error final = Server.error j
  /\ (exists t, Server.completedAt final = Some t)
  /\ Server.failedAt final = Server.failedAt j.

Definition failed_from (j final : Server.Job) : Prop :=
  Server.status final = "failed"
  /\ (exists e, Server.error final = Some e)
  /\ Server.result final = Server.result j
  /\ (exists t, Server.failedAt final = Some t)
  /\ Server.completedAt final = Server.completedAt j.

(** A file system without the file, a world holding one upload, and the
    run of [POST /evaluate] on it. *)
Definition no_such_file : string -> outcome string :=
  fun _ => Throw "ENOENT: no such file or directory".

Definition sample_upload : Server.Upload :=
  {| Server.upload_id := "u1";
     Server.cv := {| Server.filename := "a1"; Server.originalName := "cv.txt";
                     Server.path := "uploads/a1"; Server.mimetype := "text/plain";
                     Server.size := 120 |};
     Server.project := {| Server.filename := "a2"; Server.originalName := "report.pdf";
                          Server.path := "uploads/a2";
                          Server.mimetype := "application/pdf"; Server.size := 2048 |};
     Server.uploadedAt := 0 |}.

Definition sample_world : Server.World :=
  {| Server.uploadedFiles := {[ "u1" := sample_upload ]};
     Server.evaluationJobs := ∅;
     Server.documents := two_docs;
     Server.now := 1;
     Server.observed := [] |}.

Definition sample_run : outcome Server.EvaluateResponse * Server.World :=
  Server.post_evaluate no_such_file sample_toString sample_max_arguments
    (Some "u1") "e1" sample_world.

Definition sample_job : Server.Job :=
  match Server.evaluationJobs (snd sample_run) !! "e1" with
  | Some j => j
  | None => Server.new_job "" "" 0
  end.

Definition no_space (s : string) : Prop := Forall (fun c => is_space c = false) (list_ascii_of_string s).

Definition token_match (chunk query : string) : Prop :=
  exists queryWord chunkWord,
    In queryWord (split_ws (toLowerCase query))
    /\ In chunkWord (split_ws (toLowerCase chunk))
    /\ (includes chunkWord queryWord = true \/ includes queryWord chunkWord = true).

Definition blank_edged (query : string) : Prop :=
  query = ""
  \/ (exists c rest, query = String c rest /\ is_space c = true)
  \/ (exists front c, query = front +:+ String c "" /\ is_space c = true).

(** What [storeDocument] establishes for the documents it pushes. *)
Definition stored (doc : VectorDB.Document) : Prop :=
  VectorDB.chunks doc = chunkDocument (VectorDB.content doc).

Definition sample_rubric : string :=
  "Technical Skills Match (Weight: 40%)" +:+ newline
  +:+ "SCORE 5 (Excellent): Strong backend with cloud and AI/LLM exposure" +:+ newline
  +:+ "   " +:+ newline
  +:+ "Experience Level (Weight: 25%)" +:+ newline
  +:+ "short" +:+ newline +:+ newline
  +:+ "SCORE 1 (Poor): Less than 1 year of experience or only trivial projects".

(** The store after [initialize()] on a fresh instance.  The built-in
    texts do not hold the word [constructor], so the sort of the engine is
    not consulted. *)
Definition built_in : list Document := initialize (fun entries => entries) [].










(** A string of word characters. *)
Definition word (w : string) : Prop :=
  Forall (fun c => is_word_char c = true) (list_ascii_of_string w).

(** The four recommendations, from the weakest to the strongest. *)
Definition recommendation_rank (text : string) : Z :=
  if String.eqb text "Strong candidate - highly recommended for hire" then 3
  else if String.eqb text "Good candidate fit - recommended for final interview" then 2
  else if String.eqb text "Potential candidate - needs technical discussion" then 1
  else 0.

(** 1 when the lower-cased text contains the keyword, else 0. *)
Definition mentions (text keyword : string) : Z :=
  if includes (toLowerCase text) keyword then 1 else 0.

(** A number that is zero, positive or +Infinity: neither negative nor
    NaN. *)
Definition positive_or_zero (x : Num.number) : Prop :=
  match x with
  | S754_zero _ => True
  | S754_infinity s | S754_finite s _ _ => s = false
  | S754_nan => False
  end.

Definition no_digit (text : string) : Prop :=
  Forall (fun c => AIService.is_digit c = false) (list_ascii_of_string text).

(** Two project scores given in tenths compare as the tenths do. *)
Definition tenths_order_check (n : Z) : bool :=
  forallb (fun n' => implb (n <=? n')
                           (Num.geb (Num.div (Num.of_Z n') (Num.of_Z 10))
                                    (Num.div (Num.of_Z n) (Num.of_Z 10))))
          tenths_10_50.

(** A provider that fails [failures] times and then answers [content]. *)
Definition failing_then (failures : Z) (content : string)
    : Z -> ProductionAIService.api_reply :=
  fun attempt =>
    if attempt <=? failures then ProductionAIService.Rejected "rate limit"
    else ProductionAIService.Response (Some content).

Definition mock_service : ProductionAIService.Service :=
  {| ProductionAIService.useMockResponses := true;
     ProductionAIService.config := ProductionAIService.defaultConfig |}.

(** The two texts [generateMockResponse] can return. *)
Definition mock_cv_json : string :=
  ProductionAIService.generateMockResponse "Extract structured information".
Definition mock_text : string := "Mock response for development".

(** A poll of [GET /result/:id] that shows a job still queued or
    processing. *)
Definition pending (response : Server.ResultResponse) : Prop :=
  exists status message createdAt,
    response = Server.PendingView status message createdAt
    /\ (status = "queued" \/ status = "processing").

Definition pdf_upload : Server.Upload :=
  {| Server.upload_id := "u2";
     Server.cv := {| Server.filename := "b1"; Server.originalName := "cv.pdf";
                     Server.path := "uploads/b1"; Server.mimetype := "application/pdf";
                     Server.size := 4096 |};
     Server.project := Server.project sample_upload;
     Server.uploadedAt := 0 |}.

Definition pdf_world : Server.World :=
  {| Server.uploadedFiles := {[ "u2" := pdf_upload ]};
     Server.evaluationJobs := ∅;
     Server.documents := two_docs;
     Server.now := 1;
     Server.observed := [] |}.

Definition empty_file : string -> outcome string := fun _ => Return "".

(** A file system whose files hold three year figures. *)
Definition years_file : string -> outcome string :=
  fun _ => Return "Node.js 3 years, Docker 2 yrs, AWS 1 year".

(** An upload id that [POST /evaluate] accepts. *)
Definition valid_upload_id (w : Server.World) (uploadId : option string) : Prop :=
  exists u, uploadId = Some u /\ u <> "" /\ Server.uploadedFiles w !! u <> None.

(** The number of keywords of a list that the lower-cased text contains. *)
Definition mentioned (text : string) (keywords : list string) : nat :=
  length (List.filter (fun keyword => includes (toLowerCase text) keyword) keywords).

(** Whether a skill counts for a group of keywords of
    [scoreTechnicalSkillsWithRAG], given the lower-cased requirements. *)
Definition skill_counts (keywords : list string) (requiredSkills skill : string) : bool :=
  existsb (fun keyword => includes (toLowerCase skill) keyword
                          && includes requiredSkills keyword) keywords.

Definition skillKeywords : list string :=
  [ "node.js"; "nodejs"; "javascript"; "python"; "java"; "express"; "react";
    "postgresql"; "mysql"; "mongodb"; "redis"; "aws"; "docker"; "kubernetes";
    "rest"; "api"; "graphql"; "microservices"; "ai"; "llm"; "machine learning" ].

(** The lines the loop of [extractBulletPoints] tells apart. *)
Definition bullet_line (l : string) : bool :=
  startsWith (trim l) "-" || startsWith (trim l) VectorDB.bullet.
Definition blank_line (l : string) : bool := String.eqb (trim l) "".
Definition bullet_text (l : string) : string := trim (substring1 (trim l)).

(** A section with a hyphen bullet and a line that starts with U+2022. *)
Definition sign_line : string := "  " +:+ VectorDB.bullet +:+ " Docker  ".
Definition sample_section : string :=
  join newline ["Skills:"; "Notes:"; "- Node.js"; ""; sign_line; "Next:"; "- other"].

End Notions.

(* ====================================================================== *)
(** * Properties *)

Import JS.

(** ** Retrieval engine *)


Section RetrievalScoreFacts.
Import VectorDB.

Lemma fold_left_points (f : string -> Z) (l : list string) (acc : Z) :
  fold_left (fun score w => score + f w) l acc = acc + sumZ (map f l).
Proof.
  revert acc; induction l as [|w l IH]; intros acc; simpl.
  - lia.
  - rewrite IH. lia.
Qed.

Lemma inner_loop_points (queryWord : string) (chunkWords : list string) (acc : Z) :
  fold_left (fun score chunkWord =>
               if includes chunkWord queryWord || includes queryWord chunkWord
               then score + (if (3 <? String.length queryWord)%nat then 2 else 1)
               else score) chunkWords acc
  = acc + sumZ (map (pair_points queryWord) chunkWords).
Proof.
  rewrite <- fold_left_points. revert acc.
  induction chunkWords as [|w l IH]; intros acc; simpl; [reflexivity|].
  rewrite <- IH. f_equal. unfold pair_points.
  destruct (includes w queryWord || includes queryWord w); lia.
Qed.

Lemma outer_loop_points (queryWords chunkWords : list string) (acc : Z) :
  fold_left (fun score queryWord =>
               fold_left (fun score chunkWord =>
                 if includes chunkWord queryWord || includes queryWord chunkWord
                 then score + (if (3 <? String.length queryWord)%nat then 2 else 1)
                 else score) chunkWords score) queryWords acc
  = acc + sumZ (map (fun queryWord => sumZ (map (pair_points queryWord) chunkWords))
                    queryWords).
Proof.
  revert acc; induction queryWords as [|q l IH]; intros acc; simpl.
  - lia.
  - rewrite IH, inner_loop_points. lia.
Qed.

(** C2 (as the code has it): the relevance score is the sum of the pair
    points (2 for a query token longer than 3, else 1, for every pair of
    tokens where one contains the other) plus 3 exactly when some
    case-folded query token occurs in the case-folded chunk. *)
Theorem relevance_pairs_plus_token_bonus (chunk query : string) :
  relevance chunk query = token_bonus_relevance chunk query.
Proof.
  unfold relevance, calculateRelevanceScore, token_bonus_relevance, pair_score.
  rewrite outer_loop_points.
  destruct (existsb _ _); lia.
Qed.

(** C2 (as the specification words it) fails: for the chunk
    "backend developer" and the query "backend skills" the raw query is
    not a substring of the chunk, yet the code grants the bonus because
    the token "backend" is, giving 5 where the claimed formula gives 2. *)
Lemma relevance_raw_query_bonus_counterexample :
  relevance "backend developer" "backend skills" = 5
  /\ spec_relevance "backend developer" "backend skills" = 2
  /\ ~ (forall chunk query, relevance chunk query = spec_relevance chunk query).
Proof.
  assert (H1 : relevance "backend developer" "backend skills" = 5) by reflexivity.
  assert (H2 : spec_relevance "backend developer" "backend skills" = 2) by reflexivity.
  repeat split; trivial.
  intros H. specialize (H "backend developer" "backend skills").
  rewrite H1, H2 in H. discriminate.
Qed.
End RetrievalScoreFacts.

(** *** The stable descending sort *)

Section StableSort.
Context {A : Type} (key : A -> Z).
Local Abbreviation by_key_desc := (by_key_desc key).
Local Abbreviation desc := (desc key).

Lemma sort_insert_perm (x : A) (l : list A) :
  Permutation (sort_insert by_key_desc x l) (x :: l).
Proof.
  induction l as [|y l IH]; simpl; [reflexivity|].
  destruct (by_key_desc x y <=? 0); [reflexivity|].
  rewrite IH. apply perm_swap.
Qed.

Lemma sort_perm (l : list A) : Permutation (sort by_key_desc l) l.
Proof.
  induction l as [|x l IH]; simpl; [reflexivity|].
  rewrite sort_insert_perm. now rewrite IH.
Qed.

Lemma sort_insert_sorted (x : A) (l : list A) :
  StronglySorted desc l -> StronglySorted desc (sort_insert by_key_desc x l).
Proof.
  induction 1 as [|y l Hl IH Hy]; simpl.
  - repeat constructor.
  - destruct (by_key_desc x y <=? 0) eqn:E; unfold by_key_desc in E.
    + apply Z.leb_le in E. constructor; [now constructor|].
      constructor; [unfold desc; lia|].
      eapply List.Forall_impl; [|exact Hy]. unfold desc; simpl; intros; lia.
    + apply Z.leb_gt in E. constructor; [exact IH|].
      eapply Permutation_Forall; [symmetry; apply sort_insert_perm|].
      constructor; [unfold desc; lia|exact Hy].
Qed.

Lemma sort_sorted (l : list A) : StronglySorted desc (sort by_key_desc l).
Proof.
  induction l as [|x l IH]; simpl; [constructor|].
  now apply sort_insert_sorted.
Qed.

Lemma sort_insert_stable (s : Z) (x : A) (l : list A) :
  List.filter (fun a => key a =? s) (sort_insert by_key_desc x l)
  = List.filter (fun a => key a =? s) (x :: l).
Proof.
  induction l as [|y l IH]; [reflexivity|].
  simpl sort_insert.
  destruct (by_key_desc x y <=? 0) eqn:E; [reflexivity|].
  unfold by_key_desc in E. apply Z.leb_gt in E.
  simpl in *. rewrite IH.
  destruct (key x =? s) eqn:Ex, (key y =? s) eqn:Ey; try reflexivity.
  apply Z.eqb_eq in Ex, Ey. lia.
Qed.

Lemma sort_stable (s : Z) (l : list A) :
  List.filter (fun a => key a =? s) (sort by_key_desc l)
  = List.filter (fun a => key a =? s) l.
Proof.
  induction l as [|x l IH]; [reflexivity|].
  simpl sort. rewrite sort_insert_stable. simpl. now rewrite IH.
Qed.

Lemma sorted_prefix_dominates (n : nat) (l : list A) :
  StronglySorted desc l ->
  forall a b, In a (firstn n l) -> In b (skipn n l) -> key b <= key a.
Proof.
  intros Hs a b Ha Hb.
  rewrite <- (firstn_skipn n l) in Hs.
  revert Hs Ha. generalize (firstn n l) as p.
  induction p as [|y p IH]; simpl; [tauto|].
  intros Hs [->|Ha].
  - apply StronglySorted_inv in Hs as [_ Hall].
    rewrite List.Forall_forall in Hall. apply Hall, in_or_app. now right.
  - apply StronglySorted_inv in Hs as [Hs _]. now apply IH.
Qed.
End StableSort.

(** *** Ranking *)

Section Ranking.
Import VectorDB.

Lemma sort_insert_map {A B : Type} (f : B -> A) (key : A -> Z) (x : B) (l : list B) :
  sort_insert (by_key_desc key) (f x) (map f l)
  = map f (sort_insert (by_key_desc (fun b => key (f b))) x l).
Proof.
  induction l as [|y l IH]; simpl; [reflexivity|].
  unfold by_key_desc at 1 3.
  destruct (key (f y) - key (f x) <=? 0); simpl; [reflexivity|].
  now rewrite IH.
Qed.

Lemma sort_map {A B : Type} (f : B -> A) (key : A -> Z) (l : list B) :
  sort (by_key_desc key) (map f l) = map f (sort (by_key_desc (fun b => key (f b))) l).
Proof.
  induction l as [|x l IH]; simpl; [reflexivity|].
  now rewrite IH, sort_insert_map.
Qed.

Lemma filter_map_comm {A B : Type} (f : B -> A) (p : A -> bool) (l : list B) :
  List.filter p (map f l) = map f (List.filter (fun b => p (f b)) l).
Proof.
  induction l as [|x l IH]; simpl; [reflexivity|].
  destruct (p (f x)); simpl; now rewrite IH.
Qed.

Lemma slice0_nonneg {A : Type} (n : Z) (l : list A) :
  0 <= n -> slice0 (Int n) l = firstn (Z.to_nat n) l.
Proof.
  intros Hn. unfold slice0. destruct (n <? 0) eqn:E; [|reflexivity].
  apply Z.ltb_lt in E. lia.
Qed.

(** [findRelevantChunks] is the first three of the stable descending
    sort of the chunks that score above 0. *)
Lemma findRelevantChunks_sorted_prefix (chunks : list string) (query : string) :
  findRelevantChunks chunks query
  = firstn 3 (sort (by_key_desc (fun c => relevance c query))
                   (List.filter (fun c => 0 <? relevance c query) chunks)).
Proof.
  unfold findRelevantChunks.
  rewrite slice0_nonneg by lia.
  rewrite filter_map_comm.
  change (fun a b : ScoredChunk => score b - score a) with (by_key_desc score).
  rewrite sort_map. simpl.
  rewrite firstn_map, map_map. simpl.
  change (Z.to_nat 3) with 3%nat.
  rewrite map_id. reflexivity.
Qed.

(** C3: [findRelevantChunks] returns the first three entries of a ranking
    of the chunks scoring above 0 in which scores descend and chunks with
    equal scores keep their order of the input; so every chunk left out
    scores at most as much as every chunk returned. *)
Theorem findRelevantChunks_top3_stable (chunks : list string) (query : string) :
  let sc := fun c => relevance c query in
  let candidates := List.filter (fun c => 0 <? sc c) chunks in
  exists ranked : list string,
    findRelevantChunks chunks query = firstn 3 ranked
    /\ Permutation ranked candidates
    /\ StronglySorted (fun a b => sc b <= sc a) ranked
    /\ (forall s, List.filter (fun c => sc c =? s) ranked
                  = List.filter (fun c => sc c =? s) candidates)
    /\ (forall a b, In a (firstn 3 ranked) -> In b (skipn 3 ranked) -> sc b <= sc a).
Proof.
  intros sc candidates.
  exists (sort (by_key_desc sc) candidates).
  split; [apply findRelevantChunks_sorted_prefix|].
  split; [apply sort_perm|].
  split; [apply (sort_sorted sc)|].
  split; [intros s; apply sort_stable|].
  apply (sorted_prefix_dominates sc), sort_sorted.
Qed.

Lemma findRelevantChunks_length (chunks : list string) (query : string) :
  (length (findRelevantChunks chunks query) <= 3)%nat.
Proof. rewrite findRelevantChunks_sorted_prefix. apply firstn_le_length. Qed.
End Ranking.

(** *** Document search *)

Section Search.
Import VectorDB.


Lemma Forall_firstn {A} (P : A -> Prop) (n : nat) (l : list A) :
  Forall P l -> Forall P (firstn n l).
Proof.
  intros H. rewrite List.Forall_forall in *. intros x Hx.
  apply H. rewrite <- (firstn_skipn n l). apply in_or_app. now left.
Qed.

Lemma StronglySorted_firstn {A} (R : A -> A -> Prop) (n : nat) (l : list A) :
  StronglySorted R l -> StronglySorted R (firstn n l).
Proof.
  intros H. revert n. induction H as [|x l Hl IH Hx]; intros [|n]; simpl; try constructor.
  - apply IH.
  - now apply Forall_firstn.
Qed.

Lemma searchDocuments_all (docs : list Document) (query : string) :
  let ranked :=
    sort (by_key_desc totalRelevance)
         (List.filter (fun r => 0 <? totalRelevance r) (map (doc_result query) docs)) in
  Forall (result_of docs query) ranked
  /\ StronglySorted (fun a b => totalRelevance b <= totalRelevance a) ranked.
Proof.
  intros ranked. split; [|apply (sort_sorted totalRelevance)].
  eapply Permutation_Forall; [symmetry; apply sort_perm|].
  rewrite List.Forall_forall. intros r Hr.
  apply filter_In in Hr as [Hin Hpos]. apply Z.ltb_lt in Hpos.
  apply in_map_iff in Hin as [doc [<- Hdoc]].
  repeat split; [exact Hpos| |exists doc; auto].
  simpl in *. destruct (findRelevantChunks (chunks doc) query); [simpl in Hpos; lia|discriminate].
Qed.

(** C9 (as the code has it): without a query, or with an empty one, the
    search handler answers MissingQuery; for a non-empty query and a limit
    [n >= 0] it answers at most [n] results, each of them a document with at
    least one matching chunk (relevance above 0), in descending order of
    match count. *)
Theorem search_handler_limit_nonneg (docs : list Document) (query : string) (n : Z)
    (Hquery : query <> "") (Hlimit : 0 <= n) :
  (forall limit, exists e, Server.get_vectordb_search docs None limit = Server.MissingQuery e)
  /\ (forall limit, exists e, Server.get_vectordb_search docs (Some "") limit = Server.MissingQuery e)
  /\ exists results,
       Server.get_vectordb_search docs (Some query) (Some (Int n)) = Server.Found results
       /\ Z.of_nat (length results) <= n
       /\ Forall (result_of docs query) results
       /\ StronglySorted (fun a b => totalRelevance b <= totalRelevance a) results.
Proof.
  split; [intros; eexists; reflexivity|].
  split; [intros; eexists; reflexivity|].
  destruct (searchDocuments_all docs query) as [Hall Hsorted].
  exists (searchDocuments docs query (Int n)).
  split; [destruct query; [contradiction|reflexivity]|].
  unfold searchDocuments. rewrite slice0_nonneg by exact Hlimit.
  split; [|split].
  - pose proof (firstn_le_length (Z.to_nat n)
      (sort (fun a b => totalRelevance b - totalRelevance a)
         (List.filter (fun result => 0 <? totalRelevance result)
            (map (fun doc => doc_result query doc) docs)))) as Hlen.
    unfold doc_result in Hlen. lia.
  - apply Forall_firstn, Hall.
  - apply StronglySorted_firstn, Hsorted.
Qed.


Lemma search_handler_limit_nonneg_witness :
  "backend" <> "" /\ 0 <= 1
  /\ exists results,
       Server.get_vectordb_search two_docs (Some "backend") (Some (Int 1)) = Server.Found results
       /\ Z.of_nat (length results) <= 1
       /\ Forall (result_of two_docs "backend") results
       /\ StronglySorted (fun a b => totalRelevance b <= totalRelevance a) results.
Proof.
  split; [discriminate|]. split; [lia|].
  apply (search_handler_limit_nonneg two_docs "backend" 1); [discriminate|lia].
Defined.

(** C9 (as the specification words it) fails for a negative limit: with
    two matching documents and the limit -1, [slice(0, -1)] drops the last
    result and one result is returned, which is more than -1. *)
Lemma search_limit_negative_counterexample :
  exists results,
    Server.get_vectordb_search two_docs (Some "backend") (Some (Int (-1))) = Server.Found results
    /\ length results = 1%nat
    /\ ~ (Z.of_nat (length results) <= -1).
Proof.
  exists (searchDocuments two_docs "backend" (Int (-1))).
  assert (Hlength : length (searchDocuments two_docs "backend" (Int (-1))) = 1%nat)
    by (vm_compute; reflexivity).
  split; [reflexivity|]. rewrite Hlength. split; [reflexivity|]. lia.
Qed.
End Search.

(** ** Scoring stages *)

Section ScoreRanges.
Import Num AIService.

Ltac split_ifs :=
  repeat match goal with
         | |- context [if ?b then _ else _] => destruct b
         end.

Lemma scoreTechnicalSkillsWithRAG_range (skills jobRequirements : list string) :
  1 <= scoreTechnicalSkillsWithRAG skills jobRequirements <= 5.
Proof. unfold scoreTechnicalSkillsWithRAG. cbv zeta. split_ifs; lia. Qed.

Lemma scoreExperienceWithRAG_range (years : number) (experienceRequirements : list string) :
  1 <= scoreExperienceWithRAG years experienceRequirements <= 5.
Proof.
  unfold scoreExperienceWithRAG, scoreExperience. cbv zeta.
  generalize (includes (toLowerCase (join " " experienceRequirements)) "distributed"
              || includes (toLowerCase (join " " experienceRequirements)) "microservices").
  generalize (includes (toLowerCase (join " " experienceRequirements)) "ai"
              || includes (toLowerCase (join " " experienceRequirements)) "llm").
  intros hasAI hasDistributed.
  destruct (geb years (of_Z 5)), (geb years (of_Z 3)), (geb years (of_Z 2)),
    (geb years (of_Z 1)), hasAI, hasDistributed; vm_compute; split; discriminate.
Qed.

Lemma scoreAchievements_range (l : list string) : 2 <= scoreAchievements l <= 5.
Proof. unfold scoreAchievements. split_ifs; lia. Qed.

Lemma scoreCulturalFit_range (l : list string) : 2 <= scoreCulturalFit l <= 5.
Proof. unfold scoreCulturalFit. split_ifs; lia. Qed.

Lemma scoreCodeQuality_range (projectText : string) : 2 <= scoreCodeQuality projectText <= 5.
Proof. unfold scoreCodeQuality. cbv zeta. lia. Qed.

Lemma scoreDocumentation_range (projectText : string) :
  2 <= scoreDocumentation projectText <= 5.
Proof. unfold scoreDocumentation. cbv zeta. lia. Qed.

Lemma scoreCreativity_range (projectText : string) : 1 <= scoreCreativity projectText <= 5.
Proof. unfold scoreCreativity. lia. Qed.

Lemma scoreCorrectnessWithRAG_range (projectText : string) (reqs : list string) :
  1 <= scoreCorrectnessWithRAG projectText reqs <= 5.
Proof.
  unfold scoreCorrectnessWithRAG. cbv zeta.
  split_ifs; vm_compute; split; discriminate.
Qed.

Lemma scoreResilienceWithRAG_range (projectText : string) (reqs : list string) :
  1 <= scoreResilienceWithRAG projectText reqs <= 5.
Proof.
  unfold scoreResilienceWithRAG. cbv zeta.
  split_ifs; vm_compute; split; discriminate.
Qed.
End ScoreRanges.

Section WeightedScores.
Import Num AIService.

Lemma number_eqb_eq (x y : number) : number_eqb x y = true -> x = y.
Proof.
  destruct x as [a|a| |s m e], y as [b|b| |s' m' e']; simpl; try discriminate.
  - intros H. apply Bool.eqb_prop in H. now subst.
  - intros H. apply Bool.eqb_prop in H. now subst.
  - reflexivity.
  - intros H. apply andb_prop in H as [H He]. apply andb_prop in H as [Hs Hm].
    apply Bool.eqb_prop in Hs. apply Pos.eqb_eq in Hm. apply Z.eqb_eq in He. now subst.
Qed.

Lemma forall_scores_1_5 (P : Z -> bool) :
  forallb P scores_1_5 = true -> forall z, 1 <= z <= 5 -> P z = true.
Proof.
  intros H z Hz. rewrite List.forallb_forall in H. apply H.
  unfold scores_1_5. simpl. lia.
Qed.

Lemma cv_score_check_all :
  forallb (fun t => forallb (fun e => forallb (fun a => forallb (fun c =>
    cv_score_check t e a c) scores_1_5) scores_1_5) scores_1_5) scores_1_5 = true.
Proof. vm_compute. reflexivity. Qed.

Lemma cv_score_check_ok (t e a c : Z) :
  1 <= t <= 5 -> 1 <= e <= 5 -> 1 <= a <= 5 -> 1 <= c <= 5 ->
  cv_score_check t e a c = true.
Proof.
  intros Ht He Ha Hc.
  pose proof (forall_scores_1_5 _ cv_score_check_all t Ht) as H. cbv beta in H.
  pose proof (forall_scores_1_5 _ H e He) as H1. cbv beta in H1.
  pose proof (forall_scores_1_5 _ H1 a Ha) as H2. cbv beta in H2.
  exact (forall_scores_1_5 _ H2 c Hc).
Qed.

Lemma project_score_check_all :
  forallb (fun c => forallb (fun q => forallb (fun r => forallb (fun d => forallb (fun k =>
    project_score_check c q r d k)
    scores_1_5) scores_1_5) scores_1_5) scores_1_5) scores_1_5 = true.
Proof. vm_compute. reflexivity. Qed.

Lemma project_score_check_ok (c q r d k : Z) :
  1 <= c <= 5 -> 1 <= q <= 5 -> 1 <= r <= 5 -> 1 <= d <= 5 -> 1 <= k <= 5 ->
  project_score_check c q r d k = true.
Proof.
  intros Hc Hq Hr Hd Hk.
  pose proof (forall_scores_1_5 _ project_score_check_all c Hc) as H. cbv beta in H.
  pose proof (forall_scores_1_5 _ H q Hq) as H1. cbv beta in H1.
  pose proof (forall_scores_1_5 _ H1 r Hr) as H2. cbv beta in H2.
  pose proof (forall_scores_1_5 _ H2 d Hd) as H3. cbv beta in H3.
  exact (forall_scores_1_5 _ H3 k Hk).
Qed.

Lemma evaluateCVMatch_inv (docs : list VectorDB.Document) (cv : CVStructured)
    (r : MatchResult) :
  evaluateCVMatch docs cv = Return r ->
  exists ctx,
    VectorDB.getContextForCVEvaluation docs = Return ctx
    /\ technical_skills (breakdown r)
       = scoreTechnicalSkillsWithRAG (skills cv) (VectorDB.jc_skills (VectorDB.jobContext ctx))
    /\ experience_level (breakdown r)
       = scoreExperienceWithRAG (experience_years cv)
                                (VectorDB.jc_experience (VectorDB.jobContext ctx))
    /\ cv_achievements (breakdown r) = scoreAchievements (achievements cv)
    /\ cultural_fit (breakdown r) = scoreCulturalFit (communication_indicators cv)
    /\ score r = Math_round (mul (cv_weighted (technical_skills (breakdown r))
                                              (experience_level (breakdown r))
                                              (cv_achievements (breakdown r))
                                              (cultural_fit (breakdown r))) (of_Z 20)).
Proof.
  unfold evaluateCVMatch. destruct (VectorDB.getContextForCVEvaluation docs) as [ctx|e];
    cbv beta iota delta [obind]; [|discriminate].
  intros H. injection H as <-. exists ctx.
  cbn [breakdown score technical_skills experience_level cv_achievements cultural_fit].
  repeat split; reflexivity.
Qed.

Lemma cv_breakdown_range (docs : list VectorDB.Document) (cv : CVStructured)
    (r : MatchResult) :
  evaluateCVMatch docs cv = Return r ->
  1 <= technical_skills (breakdown r) <= 5
  /\ 1 <= experience_level (breakdown r) <= 5
  /\ 1 <= cv_achievements (breakdown r) <= 5
  /\ 1 <= cultural_fit (breakdown r) <= 5.
Proof.
  intros H. apply evaluateCVMatch_inv in H as (ctx & _ & -> & -> & -> & -> & _).
  pose proof (scoreTechnicalSkillsWithRAG_range (skills cv)
                (VectorDB.jc_skills (VectorDB.jobContext ctx))).
  pose proof (scoreExperienceWithRAG_range (experience_years cv)
                (VectorDB.jc_experience (VectorDB.jobContext ctx))).
  pose proof (scoreAchievements_range (achievements cv)).
  pose proof (scoreCulturalFit_range (communication_indicators cv)).
  lia.
Qed.

(** C4: when [evaluateCVMatch] returns, each of the four criterion scores
    lies in 1..5 and the final score is the integer equal to 20 times the
    weighted average with weights 0.40, 0.25, 0.20 and 0.15, an integer of
    0..100. *)
Theorem evaluateCVMatch_weighted_score (docs : list VectorDB.Document)
    (cv : CVStructured) (r : MatchResult)
    (Hreturn : evaluateCVMatch docs cv = Return r) :
  let b := breakdown r in
  (1 <= technical_skills b <= 5 /\ 1 <= experience_level b <= 5
   /\ 1 <= cv_achievements b <= 5 /\ 1 <= cultural_fit b <= 5)
  /\ exists s : Z,
       score r = of_Z s
       /\ (inject_Z s == 20 * cv_weighted_exact (technical_skills b) (experience_level b)
                                               (cv_achievements b) (cultural_fit b))%Q
       /\ 0 <= s <= 100.
Proof.
  intros b. subst b. pose proof (cv_breakdown_range _ _ _ Hreturn) as (Ht & He & Ha & Hc).
  split; [auto|].
  pose proof (cv_score_check_ok _ _ _ _ Ht He Ha Hc) as Hcheck.
  apply evaluateCVMatch_inv in Hreturn as (ctx & _ & _ & _ & _ & _ & Hscore).
  unfold cv_score_check in Hcheck. cbv zeta in Hcheck.
  apply andb_prop in Hcheck as [Hcheck _].
  apply andb_prop in Hcheck as [Hcheck Hhi]. apply Z.leb_le in Hhi.
  apply andb_prop in Hcheck as [Hcheck Hlo]. apply Z.leb_le in Hlo.
  apply andb_prop in Hcheck as [Hround Hexact].
  exists (8 * technical_skills (breakdown r) + 5 * experience_level (breakdown r)
          + 4 * cv_achievements (breakdown r) + 3 * cultural_fit (breakdown r)).
  split; [rewrite Hscore; now apply number_eqb_eq|].
  split; [now apply Qeq_bool_iff|]. lia.
Qed.

Lemma evaluateCVMatch_weighted_score_witness :
  exists r, evaluateCVMatch two_docs sample_cv = Return r
  /\ let b := breakdown r in
     (1 <= technical_skills b <= 5 /\ 1 <= experience_level b <= 5
      /\ 1 <= cv_achievements b <= 5 /\ 1 <= cultural_fit b <= 5)
     /\ exists s : Z,
          score r = of_Z s
          /\ (inject_Z s == 20 * cv_weighted_exact (technical_skills b) (experience_level b)
                                                  (cv_achievements b) (cultural_fit b))%Q
          /\ 0 <= s <= 100.
Proof.
  eexists. split; [reflexivity|].
  apply (evaluateCVMatch_weighted_score two_docs sample_cv). reflexivity.
Defined.
End WeightedScores.

Section ProjectScores.
Import Num AIService.

Lemma evaluateProject_inv (docs : list VectorDB.Document) (projectText : string)
    (r : ProjectScore) :
  evaluateProject docs projectText = Return r ->
  exists ctx,
    VectorDB.getContextForProjectEvaluation docs = Return ctx
    /\ correctness (p_breakdown r)
       = scoreCorrectnessWithRAG projectText (VectorDB.technicalRequirements ctx)
    /\ code_quality (p_breakdown r) = scoreCodeQuality projectText
    /\ resilience (p_breakdown r)
       = scoreResilienceWithRAG projectText (VectorDB.technicalRequirements ctx)
    /\ documentation (p_breakdown r) = scoreDocumentation projectText
    /\ creativity (p_breakdown r) = scoreCreativity projectText
    /\ overallScore r
       = div (Math_round (mul (project_weighted (correctness (p_breakdown r))
                                                (code_quality (p_breakdown r))
                                                (resilience (p_breakdown r))
                                                (documentation (p_breakdown r))
                                                (creativity (p_breakdown r))) (of_Z 10)))
             (of_Z 10).
Proof.
  unfold evaluateProject.
  destruct (VectorDB.getContextForProjectEvaluation docs) as [ctx|e];
    cbv beta iota delta [obind]; [|discriminate].
  intros H. injection H as <-. exists ctx.
  cbn [p_breakdown overallScore correctness code_quality resilience documentation
       creativity].
  repeat split; reflexivity.
Qed.

Lemma project_breakdown_range (docs : list VectorDB.Document) (projectText : string)
    (r : ProjectScore) :
  evaluateProject docs projectText = Return r ->
  1 <= correctness (p_breakdown r) <= 5
  /\ 1 <= code_quality (p_breakdown r) <= 5
  /\ 1 <= resilience (p_breakdown r) <= 5
  /\ 1 <= documentation (p_breakdown r) <= 5
  /\ 1 <= creativity (p_breakdown r) <= 5.
Proof.
  intros H. apply evaluateProject_inv in H as (ctx & _ & -> & -> & -> & -> & -> & _).
  pose proof (scoreCorrectnessWithRAG_range projectText (VectorDB.technicalRequirements ctx)).
  pose proof (scoreCodeQuality_range projectText).
  pose proof (scoreResilienceWithRAG_range projectText (VectorDB.technicalRequirements ctx)).
  pose proof (scoreDocumentation_range projectText).
  pose proof (scoreCreativity_range projectText).
  lia.
Qed.

(** What [project_score_check] establishes, unpacked. *)
Lemma project_score_rounded (c q r d k : Z) :
  1 <= c <= 5 -> 1 <= q <= 5 -> 1 <= r <= 5 -> 1 <= d <= 5 -> 1 <= k <= 5 ->
  exists n : Z,
    Math_round (mul (project_weighted c q r d k) (of_Z 10)) = of_Z n
    /\ 10 <= n <= 50
    /\ (Qabs (inject_Z n / 10 - project_weighted_exact c q r d k) <= 1 # 20)%Q
    /\ number_between 1 5 (div (of_Z n) (of_Z 10)) = true.
Proof.
  intros Hc Hq Hr Hd Hk.
  pose proof (project_score_check_ok c q r d k Hc Hq Hr Hd Hk) as Hcheck.
  unfold project_score_check in Hcheck. cbv zeta in Hcheck.
  apply existsb_exists in Hcheck as (n & _ & Hn).
  apply andb_prop in Hn as [Hn Hbetween].
  apply andb_prop in Hn as [Hn Hnear]. apply Qle_bool_iff in Hnear.
  apply andb_prop in Hn as [Hn Hhi]. apply Z.leb_le in Hhi.
  apply andb_prop in Hn as [Hround Hlo]. apply Z.leb_le in Hlo.
  apply number_eqb_eq in Hround.
  exists n. auto.
Qed.

Lemma project_round_check_all :
  forallb (fun c => forallb (fun q => forallb (fun r => forallb (fun d => forallb (fun k =>
    project_round_check c q r d k)
    scores_1_5) scores_1_5) scores_1_5) scores_1_5) scores_1_5 = true.
Proof. vm_compute. reflexivity. Qed.

Lemma project_round_check_ok (c q r d k : Z) :
  1 <= c <= 5 -> 1 <= q <= 5 -> 1 <= r <= 5 -> 1 <= d <= 5 -> 1 <= k <= 5 ->
  project_round_check c q r d k = true.
Proof.
  intros Hc Hq Hr Hd Hk.
  pose proof (forall_scores_1_5 _ project_round_check_all c Hc) as H. cbv beta in H.
  pose proof (forall_scores_1_5 _ H q Hq) as H1. cbv beta in H1.
  pose proof (forall_scores_1_5 _ H1 r Hr) as H2. cbv beta in H2.
  pose proof (forall_scores_1_5 _ H2 d Hd) as H3. cbv beta in H3.
  exact (forall_scores_1_5 _ H3 k Hk).
Qed.

(** C5 (as the code has it): when [evaluateProject] returns, each of the
    five criterion scores lies in 1..5 and the overall score is the double
    [n / 10] for an integer [n] of 10..50 whose tenth is within 0.05 of the
    weighted average with weights 0.30, 0.25, 0.20, 0.15 and 0.10: [n] is
    the tenth that rounding the average half up selects, or, for an
    average exactly halfway between two tenths, the tenth below it. *)
Theorem evaluateProject_overall_score (docs : list VectorDB.Document)
    (projectText : string) (r : ProjectScore)
    (Hreturn : evaluateProject docs projectText = Return r) :
  let b := p_breakdown r in
  (1 <= correctness b <= 5 /\ 1 <= code_quality b <= 5 /\ 1 <= resilience b <= 5
   /\ 1 <= documentation b <= 5 /\ 1 <= creativity b <= 5)
  /\ exists n : Z,
       overallScore r = div (of_Z n) (of_Z 10)
       /\ 10 <= n <= 50
       /\ (Qabs (inject_Z n / 10
                 - project_weighted_exact (correctness b) (code_quality b) (resilience b)
                                          (documentation b) (creativity b))
           <= 1 # 20)%Q
       /\ (n = Math_round_Q
                 (10 * project_weighted_exact (correctness b) (code_quality b)
                                              (resilience b) (documentation b)
                                              (creativity b))
           \/ (inject_Z n / 10 + (1 # 20)
               == project_weighted_exact (correctness b) (code_quality b) (resilience b)
                                         (documentation b) (creativity b))%Q).
Proof.
  intros b. subst b.
  pose proof (project_breakdown_range _ _ _ Hreturn) as (Hc & Hq & Hr & Hd & Hk).
  split; [auto 6|].
  pose proof (project_round_check_ok _ _ _ _ _ Hc Hq Hr Hd Hk) as Hcheck.
  unfold project_round_check in Hcheck. cbv zeta in Hcheck.
  apply existsb_exists in Hcheck as (n & _ & Hn).
  apply andb_prop in Hn as [Hn Hside].
  apply andb_prop in Hn as [Hn Hnear]. apply Qle_bool_iff in Hnear.
  apply andb_prop in Hn as [Hn Hhi]. apply Z.leb_le in Hhi.
  apply andb_prop in Hn as [Hround Hlo]. apply Z.leb_le in Hlo.
  apply number_eqb_eq in Hround.
  apply evaluateProject_inv in Hreturn as (ctx & _ & _ & _ & _ & _ & _ & Hscore).
  exists n. split; [rewrite Hscore, Hround; reflexivity|].
  split; [auto|]. split; [exact Hnear|].
  apply orb_prop in Hside as [Hup|Htie].
  - left. now apply Z.eqb_eq.
  - right. now apply Qeq_bool_iff.
Qed.

Lemma evaluateProject_overall_score_witness :
  exists r, evaluateProject two_docs "An LLM chain with retry, RAG and a README" = Return r
  /\ let b := p_breakdown r in
     (1 <= correctness b <= 5 /\ 1 <= code_quality b <= 5 /\ 1 <= resilience b <= 5
      /\ 1 <= documentation b <= 5 /\ 1 <= creativity b <= 5)
     /\ exists n : Z,
          overallScore r = div (of_Z n) (of_Z 10)
          /\ 10 <= n <= 50
          /\ (Qabs (inject_Z n / 10
                    - project_weighted_exact (correctness b) (code_quality b) (resilience b)
                                             (documentation b) (creativity b))
              <= 1 # 20)%Q
          /\ (n = Math_round_Q
                    (10 * project_weighted_exact (correctness b) (code_quality b)
                                                 (resilience b) (documentation b)
                                                 (creativity b))
              \/ (inject_Z n / 10 + (1 # 20)
                  == project_weighted_exact (correctness b) (code_quality b) (resilience b)
                                            (documentation b) (creativity b))%Q).
Proof.
  eexists. split; [reflexivity|].
  apply (evaluateProject_overall_score two_docs "An LLM chain with retry, RAG and a README").
  reflexivity.
Defined.

(** C5 (as the specification words it) fails: the overall score is no
    function of the weighted average.  The two reports have the criterion
    scores 1, 5, 1, 2, 3 and 1, 2, 3, 5, 2, both of exact average 2.35;
    the first is scored 2.3 and the second 2.4, so whatever tenth rounding
    2.35 to one decimal place selects, one of the two scores differs from
    it. *)
Lemma evaluateProject_tie_counterexample :
  exists down up,
    evaluateProject two_docs report_2_35_down = Return down
    /\ evaluateProject two_docs report_2_35_up = Return up
    /\ (breakdown_average (p_breakdown down) == 235 # 100)%Q
    /\ (breakdown_average (p_breakdown up) == 235 # 100)%Q
    /\ overallScore down = div (of_Z 23) (of_Z 10)
    /\ overallScore up = div (of_Z 24) (of_Z 10)
    /\ forall rounded : number,
         ~ (overallScore down = rounded /\ overallScore up = rounded).
Proof.
  eexists _, _. split; [vm_compute; reflexivity|]. split; [vm_compute; reflexivity|].
  split; [vm_compute; reflexivity|]. split; [vm_compute; reflexivity|].
  split; [vm_compute; reflexivity|]. split; [vm_compute; reflexivity|].
  intros rounded [Hdown Hup]. rewrite <- Hup in Hdown. vm_compute in Hdown. discriminate.
Qed.

(** The bounds of the two reported scores for any pair of evaluations that
    returned. *)
Lemma reported_scores_bounded (docs : list VectorDB.Document) (cv : CVStructured)
    (projectText : string) (cvMatchRate : MatchResult) (projectScore : ProjectScore) :
  evaluateCVMatch docs cv = Return cvMatchRate ->
  evaluateProject docs projectText = Return projectScore ->
  number_between 0 1 (div (score cvMatchRate) (of_Z 100)) = true
  /\ number_between 1 5 (overallScore projectScore) = true.
Proof.
  intros Hcv Hproject. split.
  - pose proof (cv_breakdown_range _ _ _ Hcv) as (Ht & He & Ha & Hc).
    pose proof (cv_score_check_ok _ _ _ _ Ht He Ha Hc) as Hcheck.
    apply evaluateCVMatch_inv in Hcv as (ctx & _ & _ & _ & _ & _ & Hscore).
    unfold cv_score_check in Hcheck. cbv zeta in Hcheck.
    apply andb_prop in Hcheck as [Hcheck Hbetween].
    repeat (apply andb_prop in Hcheck as [Hcheck _]).
    apply number_eqb_eq in Hcheck. rewrite Hscore, Hcheck. exact Hbetween.
  - pose proof (project_breakdown_range _ _ _ Hproject) as (Hc & Hq & Hr & Hd & Hk).
    destruct (project_score_rounded _ _ _ _ _ Hc Hq Hr Hd Hk) as (n & Hround & _ & _ & Hb).
    apply evaluateProject_inv in Hproject as (ctx & _ & _ & _ & _ & _ & _ & Hscore).
    rewrite Hscore, Hround. exact Hb.
Qed.
End ProjectScores.

Section Recommendation.
Import Num AIService.

(** The branches of [recommendation] in the order they are tested. *)
Lemma recommendation_order (cvScore projScore : number) :
  (geb cvScore (of_Z 80) && geb projScore (of_Z 4) = true ->
   recommendation cvScore projScore = "Strong candidate - highly recommended for hire")
  /\ (geb cvScore (of_Z 80) && geb projScore (of_Z 4) = false ->
      geb cvScore (of_Z 70) && geb projScore (decimal 35 10) = true ->
      recommendation cvScore projScore
      = "Good candidate fit - recommended for final interview")
  /\ (geb cvScore (of_Z 80) && geb projScore (of_Z 4) = false ->
      geb cvScore (of_Z 70) && geb projScore (decimal 35 10) = false ->
      geb cvScore (of_Z 60) && geb projScore (of_Z 3) = true ->
      recommendation cvScore projScore = "Potential candidate - needs technical discussion")
  /\ (geb cvScore (of_Z 80) && geb projScore (of_Z 4) = false ->
      geb cvScore (of_Z 70) && geb projScore (decimal 35 10) = false ->
      geb cvScore (of_Z 60) && geb projScore (of_Z 3) = false ->
      recommendation cvScore projScore
      = "Requires further development before consideration").
Proof.
  unfold recommendation.
  repeat split; intros; repeat match goal with H : _ = _ |- _ => rewrite H; clear H end;
    reflexivity.
Qed.

Lemma recommendation_check_all :
  forallb (fun z => forallb (fun n =>
    String.eqb (recommendation (of_Z z) (div (of_Z n) (of_Z 10)))
               (threshold_recommendation z n)) tenths_10_50) percents_0_100 = true.
Proof. vm_compute. reflexivity. Qed.

Lemma in_percents (z : Z) : 0 <= z <= 100 -> In z percents_0_100.
Proof.
  intros H. unfold percents_0_100. apply in_map_iff. exists (Z.to_nat z).
  split; [lia|]. apply in_seq. lia.
Qed.

Lemma in_tenths (n : Z) : 10 <= n <= 50 -> In n tenths_10_50.
Proof.
  intros H. unfold tenths_10_50. apply in_map_iff. exists (Z.to_nat n).
  split; [lia|]. apply in_seq. lia.
Qed.

Lemma recommendation_selected (z n : Z) :
  0 <= z <= 100 -> 10 <= n <= 50 ->
  recommendation (of_Z z) (div (of_Z n) (of_Z 10)) = threshold_recommendation z n.
Proof.
  intros Hz Hn. pose proof recommendation_check_all as H.
  rewrite List.forallb_forall in H. specialize (H z (in_percents z Hz)).
  rewrite List.forallb_forall in H. specialize (H n (in_tenths n Hn)).
  apply String.eqb_eq in H. exact H.
Qed.

Lemma summary_check_cv_all : forallb summary_check_cv percents_0_100 = true.
Proof. vm_compute. reflexivity. Qed.

Lemma summary_check_project_all : forallb summary_check_project tenths_10_50 = true.
Proof. vm_compute. reflexivity. Qed.

(** C6: for a match result whose score is the integer [z] of 0..100 and a
    project score of [n] tenths between 1.0 and 5.0, the recommendation is
    the one the thresholds select when tested in order: z >= 80 and
    n >= 40 (4.0), else z >= 70 and n >= 35 (3.5), else z >= 60 and n >= 30
    (3.0), else the last; and the overall summary is the sentence
    'Overall Assessment: ' followed by that recommendation, then the two
    scores as printed, each with its qualifier. *)
Theorem recommendation_thresholds (Number_toString : number -> string)
    (cvMatchRate : MatchResult) (projectScore : ProjectScore) (z n : Z)
    (Hz : 0 <= z <= 100) (Hn : 10 <= n <= 50)
    (Hcv : score cvMatchRate = of_Z z)
    (Hproject : overallScore projectScore = div (of_Z n) (of_Z 10)) :
  let selected :=
    if (80 <=? z) && (40 <=? n) then "Strong candidate - highly recommended for hire"
    else if (70 <=? z) && (35 <=? n)
         then "Good candidate fit - recommended for final interview"
    else if (60 <=? z) && (30 <=? n)
         then "Potential candidate - needs technical discussion"
    else "Requires further development before consideration" in
  recommendation (score cvMatchRate) (overallScore projectScore) = selected
  /\ generateOverallSummary Number_toString cvMatchRate projectScore
     = "Overall Assessment: " +:+ selected
       +:+ ". CV match of " +:+ Number_toString (of_Z z) +:+ "% shows "
       +:+ (if 75 <=? z then "strong" else if 60 <=? z then "good" else "moderate")
       +:+ " alignment with requirements. Project score of "
       +:+ Number_toString (div (of_Z n) (of_Z 10)) +:+ "/5 indicates "
       +:+ (if 40 <=? n then "excellent" else if 35 <=? n then "solid" else "developing")
       +:+ " technical execution.".
Proof.
  intros selected.
  assert (Hselected : recommendation (of_Z z) (div (of_Z n) (of_Z 10)) = selected)
    by exact (recommendation_selected z n Hz Hn).
  pose proof summary_check_cv_all as Hc.
  rewrite List.forallb_forall in Hc. specialize (Hc z (in_percents z Hz)).
  apply andb_prop in Hc as [Hc75 Hc60].
  apply Bool.eqb_prop in Hc75. apply Bool.eqb_prop in Hc60.
  pose proof summary_check_project_all as Hp.
  rewrite List.forallb_forall in Hp. specialize (Hp n (in_tenths n Hn)).
  apply andb_prop in Hp as [Hp40 Hp35].
  apply Bool.eqb_prop in Hp40. apply Bool.eqb_prop in Hp35.
  unfold generateOverallSummary. cbv zeta.
  rewrite Hcv, Hproject, Hselected, Hc75, Hc60, Hp40, Hp35.
  split; reflexivity.
Qed.

Lemma recommendation_thresholds_witness :
  0 <= 75 <= 100 /\ 10 <= 36 <= 50
  /\ score sample_match = of_Z 75
  /\ overallScore sample_project_score = div (of_Z 36) (of_Z 10)
  /\ recommendation (score sample_match) (overallScore sample_project_score)
     = "Good candidate fit - recommended for final interview"
  /\ generateOverallSummary print_score sample_match sample_project_score
     = "Overall Assessment: Good candidate fit - recommended for final interview. CV match of 75% shows strong alignment with requirements. Project score of 3.6/5 indicates solid technical execution.".
Proof.
  split; [lia|]. split; [lia|]. split; [reflexivity|]. split; [reflexivity|].
  apply (recommendation_thresholds print_score sample_match sample_project_score 75 36);
    [lia | lia | reflexivity | reflexivity].
Defined.
End Recommendation.

(** ** The retrying call and the fallbacks *)

Section Retry.
Import Num ProductionAIService.
Local Arguments attempts_from : simpl never.

Lemma attempts_from_cons (a : Z) (n : nat) :
  attempts_from a (S n) = a :: attempts_from (a + 1) n.
Proof.
  unfold attempts_from. simpl. f_equal; [f_equal; lia|].
  rewrite <- seq_shift, map_map. apply map_ext. intros i. lia.
Qed.

(** Every delay slept is the backoff of the failed attempt it follows, and
    a delay only follows an attempt below [maxRetries]. *)
Lemma callOpenAI_live_slept (cfg : RetryConfig) (api : Z -> api_reply) (attempt : Z) :
  let slept := snd (callOpenAI_live cfg api attempt) in
  slept = map (backoff_delay cfg) (attempts_from attempt (length slept))
  /\ Forall (fun k => k < maxRetries cfg) (attempts_from attempt (length slept)).
Proof.
  funelim (callOpenAI_live cfg api attempt); cbv zeta.
  - split; [reflexivity|constructor].
  - destruct (callOpenAI_live cfg api (attempt + 1)) as [result slept] eqn:E.
    cbn [snd length] in *. destruct H as [Hslept Hbelow].
    rewrite attempts_from_cons. cbn [map]. split.
    + f_equal. exact Hslept.
    + constructor; assumption.
  - split; [reflexivity|constructor].
Qed.

End Retry.

Section StageFallbacks.
Import Num ProductionAIService.

Variable max_arguments : nat.
Variable service : Service.
Variable documents : list VectorDB.Document.
Variable api : string -> Z -> api_reply.
Variable JSONValue : Type.
Variable JSON_parse : string -> outcome JSONValue.
Variable log_cv_fields : JSONValue -> outcome unit.
Variable set_rag_context_used : JSONValue -> outcome JSONValue.
Variable field_text : JSONValue -> string -> string.
Variable Number_toString : number -> string.
Variable cvInfoPromptRest : string -> string.
Variable cvMatchPrompt : produced JSONValue FallbackCVInfo -> VectorDB.CVContext -> string.
Variable cvFeedbackPrompt :
  produced JSONValue FallbackCVInfo -> produced JSONValue FallbackMatch -> outcome string.
Variable projectPrompt : string -> string.
Variable projectFeedbackPrompt : produced JSONValue FallbackProjectScore -> outcome string.
Variable summaryPrompt :
  produced JSONValue FallbackMatch -> string -> produced JSONValue FallbackProjectScore
  -> string -> string.

Local Abbreviation call := (call service api).





End StageFallbacks.

Section RetryExamples.
Import Num ProductionAIService.


End RetryExamples.

(** ** The job orchestrator *)

Section Orchestrator.
Import Num Server.

Variable readFileSync : string -> outcome string.
Variable Number_toString : number -> string.
Variable max_arguments : nat.

Local Abbreviation text_of := (extracted_text readFileSync).

(** [extractFileContent] always returns. *)
Lemma extractFileContent_returns (fileInfo : FileInfo) :
  extractFileContent readFileSync fileInfo = Return (text_of fileInfo).
Proof.
  unfold extractFileContent, extracted_text.
  destruct (String.eqb (mimetype fileInfo) "text/plain"); [|reflexivity].
  destruct (readFileSync (path fileInfo)); reflexivity.
Qed.

(** *** Running the pipeline on a store whose job [evaluationId] is [j] *)

Variable uploads : gmap string Upload.
Variable jobs0 : gmap string Job.
Variable docs : list VectorDB.Document.
Variable evaluationId : string.

Local Abbreviation snap := (job_snapshot jobs0 evaluationId).
Local Abbreviation St := (world_with_job uploads jobs0 docs evaluationId).

Lemma update_job_St (f : Job -> Job) j t obs :
  update_job evaluationId f (St j t obs) = (Return tt, St (f j) t obs).
Proof.
  unfold update_job, world_with_job, job_snapshot, with_jobs. simpl.
  rewrite lookup_insert_eq, insert_insert_eq. reflexivity.
Qed.

Lemma new_Date_St j t obs : new_Date (St j t obs) = (Return t, St j t obs).
Proof. reflexivity. Qed.

Lemma get_documents_St j t obs : get_documents (St j t obs) = (Return docs, St j t obs).
Proof. reflexivity. Qed.

Lemma get_upload_St uploadId j t obs :
  get_upload uploadId (St j t obs) = (Return (uploads !! uploadId), St j t obs).
Proof. reflexivity. Qed.

Lemma await_St {A} (o : outcome A) j t obs :
  await o (St j t obs) = (o, St j (S t) (obs ++ [snap j])).
Proof. reflexivity. Qed.

Lemma record_jobs_St j t obs :
  record_jobs (St j t obs) = (Return tt, St j t (obs ++ [snap j])).
Proof. reflexivity. Qed.

Local Opaque world_with_job update_job new_Date get_documents get_upload await record_jobs.

Ltac run :=
  repeat (first [ rewrite update_job_St | rewrite new_Date_St | rewrite get_documents_St
                | rewrite get_upload_St | rewrite await_St | rewrite record_jobs_St ];
          cbv beta iota).

Lemma step_start_St j t obs :
  step_start evaluationId (St j t obs)
  = (Return tt,
     St (set_startedAt t (set_message "Running AI analysis pipeline..."
                            (set_status "processing" j))) t obs).
Proof. unfold step_start, bind. run. reflexivity. Qed.

Lemma step_extract_St uploadId u j t obs :
  uploads !! uploadId = Some u ->
  step_extract readFileSync evaluationId uploadId (St j t obs)
  = (Return (Some u, text_of (cv u), text_of (project u)),
     let j' := set_message "Extracting text from uploaded files..." j in
     St j' (S (S t)) ((obs ++ [snap j']) ++ [snap j'])).
Proof.
  intros Hu. unfold step_extract, bind, property, ret, lift. run. rewrite Hu.
  cbv beta iota. run. rewrite !extractFileContent_returns. reflexivity.
Qed.

Lemma step_extract_missing uploadId j t obs :
  uploads !! uploadId = None ->
  step_extract readFileSync evaluationId uploadId (St j t obs)
  = (Throw "Cannot read properties of undefined",
     St (set_message "Extracting text from uploaded files..." j) t obs).
Proof.
  intros Hu. unfold step_extract, bind, property, ret, lift. run. rewrite Hu.
  reflexivity.
Qed.

Lemma step_cv_St cvText j t obs :
  let j' := set_message "Analyzing CV with AI and retrieving job context..." j in
  step_cv max_arguments evaluationId cvText (St j t obs)
  = match AIService.extractCVInfo max_arguments cvText with
    | Return cvStructured =>
        match AIService.evaluateCVMatch docs cvStructured with
        | Return cvMatchRate =>
            (Return (cvStructured, cvMatchRate, AIService.generateCVFeedback cvMatchRate),
             St j' (S (S (S t))) (((obs ++ [snap j']) ++ [snap j']) ++ [snap j']))
        | Throw e => (Throw e, St j' (S (S t)) ((obs ++ [snap j']) ++ [snap j']))
        end
    | Throw e => (Throw e, St j' (S t) (obs ++ [snap j']))
    end.
Proof.
  unfold step_cv, bind, ret. run.
  destruct (AIService.extractCVInfo max_arguments cvText) as [cvStructured|e];
    cbv beta iota; run; [|reflexivity].
  destruct (AIService.evaluateCVMatch docs cvStructured);
    cbv beta iota; run; reflexivity.
Qed.

Lemma step_project_St projectText j t obs :
  let j' := set_message "Evaluating project deliverable with enhanced scoring..." j in
  step_project evaluationId projectText (St j t obs)
  = match AIService.evaluateProject docs projectText with
    | Return projectScore =>
        (Return (projectScore, AIService.generateProjectFeedback projectScore),
         St j' (S (S t)) ((obs ++ [snap j']) ++ [snap j']))
    | Throw e => (Throw e, St j' (S t) (obs ++ [snap j']))
    end.
Proof.
  unfold step_project, bind, ret. run.
  destruct (AIService.evaluateProject docs projectText); cbv beta iota; run; reflexivity.
Qed.

Lemma step_summary_St cvMatchRate projectScore j t obs :
  let j' := set_message "Compiling final evaluation results..." j in
  step_summary Number_toString evaluationId cvMatchRate projectScore (St j t obs)
  = (Return (AIService.generateOverallSummary Number_toString cvMatchRate projectScore),
     St j' (S t) (obs ++ [snap j'])).
Proof. unfold step_summary, bind. run. reflexivity. Qed.

Lemma step_complete_St result j t obs :
  step_complete evaluationId result (St j t obs)
  = (Return tt,
     St (set_message "AI evaluation completed successfully"
           (set_completedAt t (set_result result (set_status "completed" j)))) t obs).
Proof. unfold step_complete, bind. run. reflexivity. Qed.

Lemma step_failed_St e j t obs :
  step_failed evaluationId e (St j t obs)
  = (Return tt,
     St (set_failedAt t (set_message "AI evaluation failed - please try again"
                           (set_error e (set_status "failed" j)))) t obs).
Proof. unfold step_failed, bind. run. reflexivity. Qed.

(** The whole run, whatever the stages do: the job goes through states in
    processing and ends completed or failed. *)
Lemma processEvaluation_St uploadId j t obs :
  exists final t' trace,
    processEvaluation readFileSync Number_toString max_arguments evaluationId uploadId (St j t obs)
    = (Return tt, St final t' (obs ++ map snap trace))
    /\ Forall (processing_from j) trace
    /\ (is_Some (uploads !! uploadId) -> trace <> [])
    /\ (completed_from max_arguments docs j final \/ failed_from j final).
Proof.
  unfold processEvaluation, catch, bind. rewrite step_start_St. cbv beta iota.
  destruct (uploads !! uploadId) as [u|] eqn:Hu.
  2:{ rewrite (step_extract_missing _ _ _ _ Hu). rewrite step_failed_St.
      eexists _, _, []. rewrite app_nil_r. split; [reflexivity|].
      split; [constructor|]. split; [intros [? ?]; discriminate|]. right. unfold failed_from. simpl. eauto 10. }
  rewrite (step_extract_St _ _ _ _ _ Hu). cbv beta iota zeta.
  rewrite step_cv_St. cbv zeta.
  destruct (AIService.extractCVInfo max_arguments (text_of (cv u)))
    as [cvStructured|e] eqn:Hinfo.
  2:{ rewrite step_failed_St.
      eexists _, _, [_; _; _]. rewrite <- !app_assoc. split; [reflexivity|].
      split; [repeat constructor|]. split; [discriminate|]. right. unfold failed_from. simpl. eauto 10. }
  destruct (AIService.evaluateCVMatch docs cvStructured) as [cvMatchRate|e] eqn:Hcv.
  2:{ rewrite step_failed_St.
      eexists _, _, [_; _; _; _]. rewrite <- !app_assoc. split; [reflexivity|].
      split; [repeat constructor|]. split; [discriminate|]. right. unfold failed_from. simpl. eauto 10. }
  cbv beta iota. rewrite step_project_St. cbv zeta.
  destruct (AIService.evaluateProject docs (text_of (project u)))
    as [projectScore|e] eqn:Hproject.
  2:{ rewrite step_failed_St.
      eexists _, _, [_; _; _; _; _; _]. rewrite <- !app_assoc. split; [reflexivity|].
      split; [repeat constructor|]. split; [discriminate|]. right. unfold failed_from. simpl. eauto 10. }
  cbv beta iota. rewrite step_summary_St. cbv zeta beta iota.
  unfold property, ret. run. rewrite step_complete_St.
  eexists _, _, [_; _; _; _; _; _; _; _]. rewrite <- !app_assoc. split; [reflexivity|].
  split; [repeat constructor|]. split; [discriminate|].
  left. unfold completed_from. simpl.
  split; [reflexivity|]. split; [|eauto].
  eexists. split; [reflexivity|].
  exists (text_of (cv u)), (text_of (project u)), cvStructured, cvMatchRate, projectScore.
  simpl. auto.
Qed.

Lemma job_history_snaps (l : list Job) : job_history evaluationId (map snap l) = l.
Proof.
  induction l as [|j l IH]; [reflexivity|].
  cbn [map job_history]. unfold job_snapshot at 1.
  rewrite lookup_insert_eq. now rewrite IH.
Qed.
End Orchestrator.

Section Lifecycle.
Import Num Server.

Lemma transitions_processing (j0 final : Job) (trace : list Job) :
  Forall (processing_from j0) trace ->
  trace <> [] ->
  terminal (status final) ->
  transitions_ok (trace ++ [final]).
Proof.
  intros Hall Hne Hfinal. induction Hall as [|a l Ha Hl IH]; [contradiction|].
  destruct Ha as (Hsa & _ & _ & Hca & Hfa).
  destruct l as [|b l].
  - simpl. split; [|exact I]. right. rewrite Hsa. unfold status_step.
    destruct Hfinal as [-> | ->]; auto.
  - split; [|apply IH; discriminate].
    inversion Hl as [|? ? (Hsb & _ & _ & Hcb & Hfb) _]; subst.
    left. rewrite Hsa, Hsb, Hca, Hcb, Hfa, Hfb. repeat split.
    intros [H|H]; discriminate.
Qed.

Lemma lawful_run (max_arguments : nat) (docs : list VectorDB.Document) (j0 final : Job)
    (trace : list Job) :
  status j0 = "queued" ->
  result j0 = None -> error j0 = None -> completedAt j0 = None -> failedAt j0 = None ->
  Forall (processing_from j0) trace ->
  trace <> [] ->
  completed_from max_arguments docs j0 final \/ failed_from j0 final ->
  lawful_history (j0 :: trace ++ [final]).
Proof.
  intros Hq Hr He Hc Hf Hall Hne Hfinal.
  assert (Hterminal : terminal (status final)).
  { destruct Hfinal as [(H & _)|(H & _)]; rewrite H; [left|right]; reflexivity. }
  split; [|split].
  - constructor.
    + right. right. rewrite Hq, Hr, He, Hc, Hf. auto.
    + apply Forall_app. split.
      * eapply List.Forall_impl; [|exact Hall].
        intros j (Hs & Hr' & He' & Hc' & Hf'). right. right.
        rewrite Hs, Hr', He', Hc', Hf', Hr, He, Hc, Hf. auto.
      * constructor; [|constructor].
        destruct Hfinal as [(Hs & (res & Hres & _) & He' & (t & Ht) & Hf')
                           |(Hs & (e & He') & Hr' & (t & Ht) & Hc')].
        -- left. rewrite Hs, Hres, He', Ht, Hf', He, Hf. repeat split; discriminate.
        -- right. left. rewrite Hs, He', Hr', Ht, Hc', Hr, Hc. repeat split; discriminate.
  - pose proof (transitions_processing j0 final trace Hall Hne Hterminal) as Htr.
    destruct trace as [|a l]; [contradiction|].
    split; [|exact Htr].
    right. left. inversion Hall as [|? ? (Hs & _) _]; subst. auto.
  - exists j0, trace, final. auto.
Qed.

Variable readFileSync : string -> outcome string.
Variable Number_toString : number -> string.
Variable max_arguments : nat.

(** [POST /evaluate] with a known upload: the new job is stored as queued,
    goes through the states of [trace] and ends in [final]. *)
Lemma post_evaluate_run (w : World) (uploadId evaluationId : string) :
  fst (post_evaluate readFileSync Number_toString max_arguments (Some uploadId) evaluationId w)
  = Return (Queued evaluationId) ->
  let j0 := new_job evaluationId uploadId (now w) in
  let snap := job_snapshot (evaluationJobs w) evaluationId in
  exists final trace,
    evaluationJobs
      (snd (post_evaluate readFileSync Number_toString max_arguments (Some uploadId) evaluationId w))
    = snap final
    /\ observed
         (snd (post_evaluate readFileSync Number_toString max_arguments (Some uploadId) evaluationId w))
       = (observed w ++ map snap (j0 :: trace ++ [final]))%list
    /\ Forall (processing_from j0) trace
    /\ trace <> []
    /\ (completed_from max_arguments (documents w) j0 final \/ failed_from j0 final).
Proof.
  unfold post_evaluate.
  destruct uploadId as [|c uploadId']; [discriminate|].
  set (uploadId := String c uploadId').
  destruct (uploadedFiles w !! uploadId) as [u|] eqn:Hu; [|discriminate].
  intros _.
  set (j0 := new_job evaluationId uploadId (now w)).
  set (snap := job_snapshot (evaluationJobs w) evaluationId).
  destruct (processEvaluation_St readFileSync Number_toString max_arguments (uploadedFiles w)
              (evaluationJobs w) (documents w) evaluationId uploadId j0 (now w)
              (observed w ++ [snap j0]))
    as (final & t' & trace & Hrun & Hall & Hne & Hfinal).
  exists final, trace.
  unfold bind, ret, new_Date, record_jobs, with_jobs. cbn beta iota.
  change (processEvaluation readFileSync Number_toString max_arguments evaluationId uploadId _)
    with (processEvaluation readFileSync Number_toString max_arguments evaluationId uploadId
            (world_with_job (uploadedFiles w) (evaluationJobs w) (documents w)
               evaluationId j0 (now w) (observed w ++ [snap j0]))).
  rewrite Hrun. cbn.
  split; [reflexivity|]. split.
  - rewrite map_app, <- !app_assoc. reflexivity.
  - split; [exact Hall|]. split; [apply Hne; eauto|exact Hfinal].
Qed.

(** C1: from its creation by [POST /evaluate] to the end of
    [processEvaluation], a job record starts queued, is seen processing, and
    ends completed or failed; its status only takes these four values and
    only moves queued -> processing -> completed or failed; none of result,
    error, completedAt and failedAt is set before the terminal state, which
    sets result and completedAt (completed) or error and failedAt (failed)
    and is followed by no other state. *)
Theorem job_lifecycle (w : World) (uploadId evaluationId : string)
    (Hvalid : fst (post_evaluate readFileSync Number_toString max_arguments (Some uploadId)
                                 evaluationId w)
              = Return (Queued evaluationId)) :
  lawful_history
    (job_history evaluationId
       (skipn (length (observed w))
          (observed (snd (post_evaluate readFileSync Number_toString max_arguments (Some uploadId)
                                        evaluationId w))))).
Proof.
  destruct (post_evaluate_run w uploadId evaluationId Hvalid)
    as (final & trace & _ & Hobs & Hall & Hne & Hfinal).
  rewrite Hobs, drop_app_length, job_history_snaps.
  now apply (lawful_run max_arguments (documents w)).
Qed.

(** C8: the result of a completed evaluation reports a cv_match_rate in
    [0, 1] and a project_score in [1, 5]. *)
Theorem completed_scores_in_range (w : World) (uploadId evaluationId : string)
    (job : Job) (res : EvaluationResult)
    (Hvalid : fst (post_evaluate readFileSync Number_toString max_arguments (Some uploadId)
                                 evaluationId w)
              = Return (Queued evaluationId))
    (Hjob : evaluationJobs (snd (post_evaluate readFileSync Number_toString max_arguments
                                               (Some uploadId) evaluationId w))
            !! evaluationId = Some job)
    (Hcompleted : status job = "completed")
    (Hresult : result job = Some res) :
  number_between 0 1 (cv_match_rate res) = true
  /\ number_between 1 5 (project_score res) = true.
Proof.
  destruct (post_evaluate_run w uploadId evaluationId Hvalid)
    as (final & trace & Hjobs & _ & _ & _ & Hfinal).
  rewrite Hjobs in Hjob. unfold job_snapshot in Hjob.
  rewrite lookup_insert_eq in Hjob. injection Hjob as ->.
  destruct Hfinal as [(_ & (res' & Hres' & Hreported) & _)|(Hs & _)].
  - rewrite Hresult in Hres'. injection Hres' as <-.
    destruct Hreported as (cvText & projectText & cvStructured & cvMatchRate & projectScore
                           & _ & Hcv & Hproject & -> & ->).
    exact (reported_scores_bounded _ _ _ _ _ Hcv Hproject).
  - rewrite Hs in Hcompleted. discriminate.
Qed.
End Lifecycle.

Section LifecycleExamples.
Import Num Server.

Lemma job_lifecycle_witness :
  fst (post_evaluate no_such_file sample_toString sample_max_arguments (Some "u1") "e1" sample_world)
  = Return (Queued "e1")
  /\ lawful_history
       (job_history "e1"
          (skipn (length (observed sample_world))
             (observed (snd (post_evaluate no_such_file sample_toString sample_max_arguments (Some "u1") "e1"
                                           sample_world))))).
Proof.
  split; [vm_compute; reflexivity|].
  apply (job_lifecycle no_such_file sample_toString sample_max_arguments sample_world "u1" "e1").
  vm_compute. reflexivity.
Defined.

Lemma completed_scores_in_range_witness :
  exists res,
    fst (post_evaluate no_such_file sample_toString sample_max_arguments (Some "u1") "e1" sample_world)
    = Return (Queued "e1")
    /\ evaluationJobs (snd (post_evaluate no_such_file sample_toString sample_max_arguments (Some "u1") "e1"
                                          sample_world)) !! "e1" = Some sample_job
    /\ status sample_job = "completed"
    /\ result sample_job = Some res
    /\ number_between 0 1 (cv_match_rate res) = true
    /\ number_between 1 5 (project_score res) = true.
Proof.
  destruct (result sample_job) as [res|] eqn:Hres; [|vm_compute in Hres; discriminate].
  exists res.
  assert (Hvalid : fst (post_evaluate no_such_file sample_toString sample_max_arguments (Some "u1") "e1"
                                      sample_world) = Return (Queued "e1"))
    by (vm_compute; reflexivity).
  assert (Hjob : evaluationJobs (snd (post_evaluate no_such_file sample_toString sample_max_arguments
                                                    (Some "u1") "e1" sample_world))
                 !! "e1" = Some sample_job)
    by (vm_compute; reflexivity).
  assert (Hcompleted : status sample_job = "completed") by (vm_compute; reflexivity).
  split; [exact Hvalid|]. split; [exact Hjob|]. split; [exact Hcompleted|].
  split; [reflexivity|].
  exact (completed_scores_in_range no_such_file sample_toString sample_max_arguments sample_world "u1" "e1"
           sample_job res Hvalid Hjob Hcompleted Hres).
Defined.
End LifecycleExamples.

Section Extraction.
Import Num Server.

Variable readFileSync : string -> outcome string.

(** C10: [extractFileContent] returns a string for every file record: the
    contents of a text/plain file that can be read, the error sentence when
    reading it fails, and the fixed mock content for any other mimetype.  So
    the extraction step of the pipeline, run on a store that holds the job
    and the upload, returns and leaves the status of the job as it was. *)
Theorem extractFileContent_total (fileInfo : FileInfo) (w : World)
    (evaluationId uploadId : string) (job : Job) (u : Upload)
    (Hjob : evaluationJobs w !! evaluationId = Some job)
    (Hupload : uploadedFiles w !! uploadId = Some u) :
  (exists text,
     extractFileContent readFileSync fileInfo = Return text
     /\ (mimetype fileInfo = "text/plain" ->
         forall content, readFileSync (path fileInfo) = Return content -> text = content)
     /\ (mimetype fileInfo = "text/plain" ->
         forall message, readFileSync (path fileInfo) = Throw message ->
         text = "Unable to extract content from " +:+ originalName fileInfo
                +:+ ": " +:+ message)
     /\ (mimetype fileInfo <> "text/plain" -> text = mockContent fileInfo))
  /\ exists extracted w' job',
       step_extract readFileSync evaluationId uploadId w = (Return extracted, w')
       /\ evaluationJobs w' !! evaluationId = Some job'
       /\ status job' = status job.
Proof.
  split.
  - exists (extracted_text readFileSync fileInfo).
    split; [apply extractFileContent_returns|].
    unfold extracted_text.
    destruct (String.eqb (mimetype fileInfo) "text/plain") eqn:E.
    + apply String.eqb_eq in E.
      split; [intros _ content ->; reflexivity|].
      split; [intros _ message ->; reflexivity|]. intros H. contradiction.
    + apply String.eqb_neq in E.
      split; [intros H; contradiction|]. split; [intros H; contradiction|].
      intros _. reflexivity.
  - destruct w as [uploads jobs docs t obs]. simpl in Hjob, Hupload.
    rewrite <- (insert_id jobs evaluationId job Hjob).
    change {| uploadedFiles := uploads; evaluationJobs := <[evaluationId:=job]> jobs;
              documents := docs; now := t; observed := obs |}
      with (world_with_job uploads jobs docs evaluationId job t obs).
    rewrite (step_extract_St readFileSync uploads jobs docs evaluationId uploadId u
               job t obs Hupload).
    eexists _, _, _. split; [reflexivity|].
    split; [apply lookup_insert_eq|reflexivity].
Qed.

End Extraction.

Section ExtractionExamples.
Import Num Server.

Lemma extractFileContent_total_witness :
  evaluationJobs (snd sample_run) !! "e1" = Some sample_job
  /\ uploadedFiles (snd sample_run) !! "u1" = Some sample_upload
  /\ (exists text,
        extractFileContent no_such_file (cv sample_upload) = Return text
        /\ (mimetype (cv sample_upload) = "text/plain" ->
            forall content,
              no_such_file (path (cv sample_upload)) = Return content -> text = content)
        /\ (mimetype (cv sample_upload) = "text/plain" ->
            forall message,
              no_such_file (path (cv sample_upload)) = Throw message ->
              text = "Unable to extract content from " +:+ originalName (cv sample_upload)
                     +:+ ": " +:+ message)
        /\ (mimetype (cv sample_upload) <> "text/plain" ->
            text = mockContent (cv sample_upload)))
  /\ exists extracted w' job',
       step_extract no_such_file "e1" "u1" (snd sample_run) = (Return extracted, w')
       /\ evaluationJobs w' !! "e1" = Some job'
       /\ status job' = status sample_job.
Proof.
  assert (Hjob : evaluationJobs (snd sample_run) !! "e1" = Some sample_job)
    by (vm_compute; reflexivity).
  assert (Hupload : uploadedFiles (snd sample_run) !! "u1" = Some sample_upload)
    by (vm_compute; reflexivity).
  split; [exact Hjob|]. split; [exact Hupload|].
  exact (extractFileContent_total no_such_file (cv sample_upload) (snd sample_run)
           "e1" "u1" sample_job sample_upload Hjob Hupload).
Defined.
End ExtractionExamples.

(** ** Further facts and evaluations on concrete inputs *)

Section Checks.
Import Num VectorDB.

(** [processEvaluation] only writes the entry of its own job. *)
Lemma processEvaluation_frame (readFileSync : string -> outcome string)
    (Number_toString : number -> string) (max_arguments : nat) (uploads : gmap string Server.Upload)
    (jobs0 : gmap string Server.Job) (docs : list Document)
    (evaluationId uploadId other : string) (j : Server.Job) (t : nat)
    (obs : list (gmap string Server.Job)) :
  other <> evaluationId ->
  Server.evaluationJobs
    (snd (Server.processEvaluation readFileSync Number_toString max_arguments evaluationId uploadId
            (world_with_job uploads jobs0 docs evaluationId j t obs))) !! other
  = jobs0 !! other.
Proof.
  intros Hother.
  destruct (processEvaluation_St readFileSync Number_toString max_arguments uploads jobs0 docs
              evaluationId uploadId j t obs) as (final & t' & trace & -> & _).
  simpl. unfold job_snapshot. now apply lookup_insert_ne.
Qed.

(** A request for the result does not find a job that was never created,
    and shows the result of the sample run. *)
Example get_result_unknown : Server.get_result "does-not-exist" sample_world = Server.NotFound.
Proof. reflexivity. Qed.

Example get_result_sample :
  exists res t, Server.get_result "e1" (snd sample_run) = Server.CompletedView (Some res) (Some t).
Proof. vm_compute. eauto. Qed.

(** Splitting on white space keeps the empty pieces at both ends. *)
Example split_ws_pieces :
  split_ws " a  b " = [""; "a"; "b"; ""] /\ split_ws "" = [""] /\ split_ws "ab" = ["ab"].
Proof. repeat split; reflexivity. Qed.

Example trim_both_ends : trim "  a b  " = "a b".
Proof. reflexivity. Qed.

(** The years of experience are read off every match of the pattern. *)
Example extractExperience_matches :
  AIService.scan_years "12 years, then 3yr and 44  YEARS; 5 y" 0 = [12; 3; 44]
  /\ AIService.extractExperience 100 "Experience: 5 years of Node.js development"
     = Return (of_Z 5)
  /\ AIService.extractExperience 100 "no figure" = Return (of_Z 1).
Proof. repeat split; reflexivity. Qed.

(** [parseInt] rounds to the nearest double, and the spread call throws
    when the matches outnumber the arguments a call takes. *)
Example extractExperience_double :
  AIService.extractExperience 100 "9007199254740993 years" = Return (of_Z 9007199254740992)
  /\ AIService.extractExperience 2 "1yr, 2yrs and 3 years"
     = Throw "Maximum call stack size exceeded".
Proof. split; vm_compute; reflexivity. Qed.

(** A half point is rounded up before the cap. *)
Example scoreCorrectness_half_point :
  AIService.scoreCorrectnessWithRAG "llm chain error" ["llm chaining and error handling"] = 4.
Proof. reflexivity. Qed.

(** The exact average 2.35 of the scores 1, 2, 4, 3, 3 is computed in
    binary64 slightly below it, and rounds to 23 tenths. *)
Example project_tie_rounds_down :
  Math_round (mul (AIService.project_weighted 1 2 4 3 3) (of_Z 10)) = of_Z 23
  /\ (project_weighted_exact 1 2 4 3 3 == 235 # 100)%Q.
Proof. split; reflexivity. Qed.

(** Both documents match the query, the first ranked chunk is returned. *)
Example searchDocuments_two_docs :
  map res_id (searchDocuments two_docs "backend" (JS.Int 5))
  = ["job-requirements"; "scoring-rubric"].
Proof. reflexivity. Qed.
End Checks.

(** * Further properties *)

(** ** Strings *)

Section StringFacts.

Lemma startsWith_spec (s p : string) :
  startsWith s p = true <-> exists r, s = p +:+ r.
Proof.
  revert s; induction p as [|a p IH]; intros s; simpl.
  - split; [intros _; exists s; reflexivity | destruct s; reflexivity].
  - destruct s as [|b s].
    + split; [discriminate | intros [r H]; discriminate].
    + simpl. destruct (Ascii.eqb a b) eqn:E.
      * apply Ascii.eqb_eq in E; subst b. rewrite IH. split.
        -- intros [r ->]. exists r. reflexivity.
        -- intros [r H]. injection H as ->. exists r. reflexivity.
      * apply Ascii.eqb_neq in E. split; [discriminate|].
        intros [r H]. injection H as H1 H2. congruence.
Qed.

Lemma startsWith_empty (s : string) : startsWith s "" = true.
Proof. destruct s; reflexivity. Qed.

Lemma includes_unfold (s sub : string) :
  includes s sub =
  startsWith s sub || match s with EmptyString => false | String _ s' => includes s' sub end.
Proof.
  destruct s; cbn [includes];
    match goal with |- (if ?b then _ else _) = _ => destruct b end; reflexivity.
Qed.

Lemma append_cons (x : ascii) (a b : string) : String x a +:+ b = String x (a +:+ b).
Proof. reflexivity. Qed.

Lemma append_assoc (a b c : string) : (a +:+ b) +:+ c = a +:+ (b +:+ c).
Proof. induction a as [|x a IH]; [reflexivity | now rewrite !append_cons, IH]. Qed.


Lemma includes_spec (s sub : string) :
  includes s sub = true <-> exists front back, s = front +:+ sub +:+ back.
Proof.
  induction s as [|c s IH]; rewrite includes_unfold, orb_true_iff.
  - split.
    + intros [H|H]; [|discriminate]. apply startsWith_spec in H as [r ->].
      exists "", r. reflexivity.
    + intros [front [back H]]. left. apply startsWith_spec.
      destruct front; [exists back; exact H | discriminate].
  - split.
    + intros [H|H].
      * apply startsWith_spec in H as [r ->]. exists "", r. reflexivity.
      * apply IH in H as [front [back ->]]. exists (String c front), back. reflexivity.
    + intros [front [back H]]. destruct front as [|x front].
      * left. apply startsWith_spec. exists back. exact H.
      * right. apply IH. injection H as _ ->. eauto.
Qed.

Lemma includes_empty (s : string) : includes s "" = true.
Proof. destruct s; reflexivity. Qed.


Lemma includes_within (front s back sub : string) :
  includes s sub = true -> includes (front +:+ s +:+ back) sub = true.
Proof.
  rewrite !includes_spec. intros [f [b ->]].
  exists (front +:+ f), (b +:+ back). now rewrite !append_assoc.
Qed.

Lemma includes_trans (s t u : string) :
  includes s t = true -> includes t u = true -> includes s u = true.
Proof.
  intros H1 H2. apply includes_spec in H1 as [f [b ->]].
  now apply includes_within.
Qed.

Lemma includes_cons (c : ascii) (s sub : string) :
  includes s sub = true -> includes (String c s) sub = true.
Proof. intros H. rewrite includes_unfold, H. apply orb_true_r. Qed.

Lemma toLowerCase_app (a b : string) :
  toLowerCase (a +:+ b) = toLowerCase a +:+ toLowerCase b.
Proof.
  induction a as [|x a IH]; [reflexivity|].
  rewrite append_cons. simpl. now rewrite IH.
Qed.

Lemma toLowerCase_length (s : string) : String.length (toLowerCase s) = String.length s.
Proof. induction s as [|x a IH]; simpl; [reflexivity | now rewrite IH]. Qed.

Lemma is_space_lower_char (c : ascii) : is_space (lower_char c) = is_space c.
Proof. destruct c as [[] [] [] [] [] [] [] []]; reflexivity. Qed.

(** *** Tokens *)

Lemma split_ws_nonempty (s : string) : split_ws s <> [].
Proof.
  induction s as [|c s IH]; simpl; [discriminate|].
  destruct (is_space c).
  - destruct s as [|c' s']; [discriminate|]. destruct (is_space c'); [exact IH | discriminate].
  - destruct (split_ws s); discriminate.
Qed.

Lemma split_ws_no_space (s : string) : Forall no_space (split_ws s).
Proof.
  induction s as [|c s IH]; simpl.
  - repeat constructor.
  - destruct (is_space c) eqn:E.
    + destruct s as [|c' s']; [repeat constructor|].
      destruct (is_space c'); [exact IH | constructor; [constructor | exact IH]].
    + destruct (split_ws s) as [|t ts].
      * repeat constructor; exact E.
      * inversion IH; subst. constructor; [|assumption].
        constructor; assumption.
Qed.

(** A white-space-free prefix of a text is a prefix of its first token. *)
Lemma first_token_prefix (s w : string) :
  no_space w -> w <> "" -> startsWith s w = true ->
  exists t ts, split_ws s = t :: ts /\ startsWith t w = true.
Proof.
  revert w; induction s as [|c s IH]; intros w Hw Hne H.
  - destruct w; [congruence | discriminate].
  - destruct w as [|a w]; [congruence|]. simpl in H.
    destruct (Ascii.eqb a c) eqn:E; [|discriminate].
    apply Ascii.eqb_eq in E; subst a.
    inversion Hw as [|? ? Hc Hw']; subst. simpl. rewrite Hc.
    destruct w as [|b w].
    + destruct (split_ws s) as [|t ts]; eexists _, _; split; try reflexivity;
        simpl; rewrite Ascii.eqb_refl; try reflexivity; apply startsWith_empty.
    + destruct (IH (String b w) Hw' ltac:(discriminate) H) as [t [ts [-> Ht]]].
      exists (String c t), ts. split; [reflexivity|].
      simpl. simpl in Ht. now rewrite Ascii.eqb_refl.
Qed.

Lemma startsWith_includes (s p : string) : startsWith s p = true -> includes s p = true.
Proof. intros H. rewrite includes_unfold, H. reflexivity. Qed.

(** A white-space-free word that occurs in a text occurs inside one of
    its tokens. *)
Lemma occurrence_within_token (s w : string) :
  no_space w -> includes s w = true ->
  exists t, In t (split_ws s) /\ includes t w = true.
Proof.
  intros Hw. destruct w as [|a w].
  { intros _. destruct (split_ws s) as [|t ts] eqn:E; [now apply split_ws_nonempty in E|].
    exists t. split; [now left | apply includes_empty]. }
  induction s as [|c s IH]; rewrite includes_unfold, orb_true_iff; intros [H|H];
    try discriminate.
  - destruct (first_token_prefix _ _ Hw ltac:(discriminate) H) as [t [ts [E Ht]]].
    exists t. rewrite E. split; [now left | now apply startsWith_includes].
  - destruct (IH H) as [t [Hin Ht]]. simpl.
    destruct (is_space c).
    + destruct s as [|c' s']; [exists t; split; [now right | assumption]|].
      destruct (is_space c'); exists t; (split; [|assumption]); [assumption | now right].
    + destruct (split_ws _) as [|t0 ts]; [destruct Hin|].
      destruct Hin as [->|Hin].
      * exists (String c t). split; [now left | now apply includes_cons].
      * exists t. split; [now right | assumption].
Qed.

Lemma split_ws_blank_front (c : ascii) (s : string) :
  is_space c = true -> In "" (split_ws (String c s)).
Proof.
  intros Hc. revert c Hc. induction s as [|c' s IH]; intros c Hc.
  - simpl. rewrite Hc. now left.
  - change (split_ws (String c (String c' s)))
      with (if is_space c
            then if is_space c' then split_ws (String c' s) else "" :: split_ws (String c' s)
            else match split_ws (String c' s) with
                 | t :: ts => String c t :: ts | [] => [String c ""] end).
    rewrite Hc. destruct (is_space c') eqn:E; [now apply IH | now left].
Qed.

Lemma split_ws_blank_back (front : string) (c : ascii) :
  is_space c = true ->
  exists ts, ts <> [] /\ split_ws (front +:+ String c "") = (ts ++ [""])%list.
Proof.
  intros Hc. induction front as [|a front IH].
  - exists [""]. split; [discriminate|]. simpl. now rewrite Hc.
  - destruct IH as [ts [Hne E]].
    change (String a front +:+ String c "") with (String a (front +:+ String c "")).
    cbn [split_ws]. rewrite E.
    destruct (is_space a).
    + destruct (front +:+ String c "") as [|c' s'].
      * exists ("" :: ts). split; [discriminate | reflexivity].
      * destruct (is_space c'); [exists ts; now split|].
        exists ("" :: ts). split; [discriminate | reflexivity].
    + destruct ts as [|t ts]; [congruence|].
      exists (String a t :: ts). split; [discriminate | reflexivity].
Qed.

Lemma blank_edged_token (query : string) :
  blank_edged query -> In "" (split_ws (toLowerCase query)).
Proof.
  intros [->|[[c [rest [-> Hc]]]|[front [c [-> Hc]]]]].
  - now left.
  - simpl toLowerCase. apply split_ws_blank_front. now rewrite is_space_lower_char.
  - rewrite toLowerCase_app. simpl toLowerCase.
    destruct (split_ws_blank_back (toLowerCase front) (lower_char c)) as [ts [_ ->]].
    + now rewrite is_space_lower_char.
    + apply in_or_app. right. now left.
Qed.

End StringFacts.

(** ** Matching and search *)

Section Matching.
Import VectorDB.

Lemma sumZ_nonneg (l : list Z) : Forall (fun z => 0 <= z) l -> 0 <= sumZ l.
Proof. induction 1; simpl; lia. Qed.

Lemma sumZ_positive (l : list Z) :
  Forall (fun z => 0 <= z) l -> (0 < sumZ l <-> Exists (fun z => 0 < z) l).
Proof.
  induction 1 as [|z l Hz Hl IH]; simpl.
  - split; [lia | intros H; inversion H].
  - pose proof (sumZ_nonneg l Hl). split.
    + intros Hs. destruct (Z.ltb_spec 0 z); [now left|].
      right. apply IH. lia.
    + intros Hs. inversion Hs; subst; [lia|].
      assert (0 < sumZ l) by now apply IH. lia.
Qed.

Lemma pair_points_nonneg (queryWord chunkWord : string) : 0 <= pair_points queryWord chunkWord.
Proof.
  unfold pair_points.
  destruct (_ || _); [destruct (_ <? _)%nat|]; lia.
Qed.

Lemma pair_points_positive (queryWord chunkWord : string) :
  0 < pair_points queryWord chunkWord
  <-> includes chunkWord queryWord = true \/ includes queryWord chunkWord = true.
Proof.
  unfold pair_points. rewrite <- orb_true_iff.
  destruct (_ || _); [destruct (_ <? _)%nat|]; split; intros; try lia; try reflexivity;
    discriminate.
Qed.

Lemma pair_score_nonneg (chunk query : string) : 0 <= pair_score chunk query.
Proof.
  unfold pair_score. apply sumZ_nonneg, List.Forall_forall.
  intros z Hz. apply in_map_iff in Hz as [q [<- _]].
  apply sumZ_nonneg, List.Forall_forall.
  intros z Hz. apply in_map_iff in Hz as [c [<- _]]. apply pair_points_nonneg.
Qed.

Lemma pair_score_positive (chunk query : string) :
  0 < pair_score chunk query <-> token_match chunk query.
Proof.
  unfold pair_score, token_match.
  rewrite sumZ_positive.
  2:{ apply List.Forall_forall. intros z Hz. apply in_map_iff in Hz as [q [<- _]].
      apply sumZ_nonneg, List.Forall_forall.
      intros z Hz. apply in_map_iff in Hz as [c [<- _]]. apply pair_points_nonneg. }
  rewrite List.Exists_exists. split.
  - intros [z [Hz Hpos]]. apply in_map_iff in Hz as [q [<- Hq]].
    apply sumZ_positive in Hpos.
    2:{ apply List.Forall_forall. intros z Hz. apply in_map_iff in Hz as [c [<- _]].
        apply pair_points_nonneg. }
    apply List.Exists_exists in Hpos as [z [Hz Hpos]].
    apply in_map_iff in Hz as [c [<- Hc]].
    exists q, c. repeat split; trivial. now apply pair_points_positive.
  - intros [q [c [Hq [Hc Hm]]]].
    exists (sumZ (map (pair_points q) (split_ws (toLowerCase chunk)))). split.
    + apply in_map_iff. now exists q.
    + apply sumZ_positive.
      * apply List.Forall_forall. intros z Hz. apply in_map_iff in Hz as [c' [<- _]].
        apply pair_points_nonneg.
      * apply List.Exists_exists. exists (pair_points q c). split.
        -- apply in_map_iff. now exists c.
        -- now apply pair_points_positive.
Qed.

(** The score is the pair sum plus the bonus. *)
Lemma relevance_sum (chunk query : string) :
  relevance chunk query
  = pair_score chunk query
    + (if existsb (fun word => includes (toLowerCase chunk) word)
                  (split_ws (toLowerCase query))
       then 3 else 0).
Proof.
  unfold relevance, calculateRelevanceScore, pair_score.
  rewrite outer_loop_points. destruct (existsb _ _); lia.
Qed.

(** A query token that occurs in the chunk occurs inside a chunk token. *)
Lemma bonus_token_match (chunk query : string) :
  existsb (fun word => includes (toLowerCase chunk) word) (split_ws (toLowerCase query)) = true
  -> token_match chunk query.
Proof.
  intros H. apply existsb_exists in H as [w [Hw Hin]].
  pose proof (split_ws_no_space (toLowerCase query)) as Hns.
  rewrite List.Forall_forall in Hns.
  destruct (occurrence_within_token _ _ (Hns w Hw) Hin) as [t [Ht Hi]].
  exists w, t. auto.
Qed.

(** X6: the relevance score is never negative, and it is positive exactly
    when some query token and some chunk token contain one another; the
    bonus alone never makes a chunk relevant, since a query token that
    occurs in the chunk occurs inside one of its tokens, so a chunk that
    gets the bonus scores at least 4. *)
Theorem relevance_positive_iff_token_match (chunk query : string) :
  0 <= relevance chunk query
  /\ (0 < relevance chunk query <-> token_match chunk query)
  /\ (existsb (fun word => includes (toLowerCase chunk) word)
              (split_ws (toLowerCase query)) = true
      -> 4 <= relevance chunk query).
Proof.
  rewrite relevance_sum.
  pose proof (pair_score_nonneg chunk query) as Hn.
  pose proof (pair_score_positive chunk query) as Hp.
  pose proof (bonus_token_match chunk query) as Hb.
  destruct (existsb _ _).
  - specialize (Hb eq_refl). apply Hp in Hb as Hpos.
    split; [lia|]. split; [|intros; lia]. split; [auto | intros; lia].
  - split; [lia|]. split; [|discriminate].
    rewrite Z.add_0_r. exact Hp.
Qed.

Lemma relevance_positive (chunk query : string) :
  0 < relevance chunk query <-> token_match chunk query.
Proof.
  rewrite relevance_sum.
  pose proof (pair_score_nonneg chunk query) as Hn.
  pose proof (pair_score_positive chunk query) as Hp.
  pose proof (bonus_token_match chunk query) as Hb.
  destruct (existsb _ _).
  - specialize (Hb eq_refl). apply Hp in Hb as Hpos. split; [auto | intros; lia].
  - rewrite Z.add_0_r. exact Hp.
Qed.

(** X7: every chunk [findRelevantChunks] returns is one of the given chunks
    and shares a token with the query (one containing the other); the
    result is empty exactly when no given chunk does. *)
Theorem findRelevantChunks_returns_matched (chunks : list string) (query : string) :
  (forall c, In c (findRelevantChunks chunks query) -> In c chunks /\ token_match c query)
  /\ (findRelevantChunks chunks query = []
      <-> forall c, In c chunks -> ~ token_match c query).
Proof.
  rewrite findRelevantChunks_sorted_prefix.
  set (key := fun c => relevance c query).
  set (cands := List.filter (fun c => 0 <? relevance c query) chunks).
  assert (Hc : forall c, In c cands <-> In c chunks /\ token_match c query).
  { intros c. unfold cands. rewrite filter_In, Z.ltb_lt, relevance_positive. tauto. }
  pose proof (sort_perm key cands) as Hperm.
  split.
  - intros c Hin. apply Hc. eapply Permutation_in; [exact Hperm|].
    rewrite <- (firstn_skipn 3 (sort _ cands)). apply in_or_app. now left.
  - split.
    + intros E c Hin Hm.
      assert (Hin' : In c (sort (by_key_desc key) cands)).
      { eapply Permutation_in; [symmetry; exact Hperm | now apply Hc]. }
      destruct (sort (by_key_desc key) cands); [destruct Hin' | discriminate].
    + intros Hnone. destruct (sort (by_key_desc key) cands) as [|x l] eqn:E; [reflexivity|].
      exfalso. assert (Hx : In x cands).
      { eapply Permutation_in; [exact Hperm | now left]. }
      apply Hc in Hx as [Hx Hm]. exact (Hnone x Hx Hm).
Qed.

(** X8: a query that is empty, or starts or ends with a white-space
    character, splits into an empty token, which every token contains: every
    chunk then scores at least 4 and [findRelevantChunks] returns three
    chunks, or all of them when there are fewer. *)
Theorem blank_edged_query_matches_every_chunk (chunks : list string) (query : string)
    (Hquery : blank_edged query) :
  (forall chunk, 4 <= relevance chunk query)
  /\ length (findRelevantChunks chunks query) = Nat.min 3 (length chunks).
Proof.
  apply blank_edged_token in Hquery.
  assert (Hall : forall chunk, 4 <= relevance chunk query).
  { intros chunk. rewrite relevance_sum.
    assert (Hb : existsb (fun word => includes (toLowerCase chunk) word)
                         (split_ws (toLowerCase query)) = true).
    { apply existsb_exists. exists "". split; [exact Hquery | apply includes_empty]. }
    rewrite Hb.
    assert (0 < pair_score chunk query); [|lia].
    apply pair_score_positive.
    destruct (split_ws (toLowerCase chunk)) as [|t ts] eqn:E;
      [now apply split_ws_nonempty in E|].
    exists "", t. rewrite E. repeat split; [exact Hquery | now left|].
    left. apply includes_empty. }
  split; [exact Hall|].
  rewrite findRelevantChunks_sorted_prefix, length_firstn.
  rewrite (Permutation_length (sort_perm _ _)).
  f_equal. f_equal. apply forallb_filter_id, List.forallb_forall.
  intros c _. apply Z.ltb_lt. specialize (Hall c). lia.
Qed.

Lemma blank_edged_query_matches_every_chunk_witness :
  blank_edged " "
  /\ (forall chunk, 4 <= relevance chunk " ")
  /\ length (findRelevantChunks ["Node.js"; "Docker"; "Redis"; "Kafka"] " ") = Nat.min 3 4.
Proof.
  assert (H : blank_edged " ").
  { right. left. exists " "%char, "". split; reflexivity. }
  split; [exact H|].
  exact (blank_edged_query_matches_every_chunk ["Node.js"; "Docker"; "Redis"; "Kafka"] " " H).
Defined.

Lemma slice0_prefix {A : Type} (limit : jsint) (l : list A) :
  exists n, slice0 limit l = firstn n l.
Proof.
  destruct limit as [|e]; simpl.
  - exists 0%nat. reflexivity.
  - destruct (e <? 0); eexists; reflexivity.
Qed.

Lemma NoDup_firstn {A : Type} (n : nat) (l : list A) : List.NoDup l -> List.NoDup (firstn n l).
Proof.
  intros H. rewrite <- (firstn_skipn n l) in H. now apply NoDup_app_remove_r in H.
Qed.

Lemma NoDup_map_filter {A B : Type} (f : A -> B) (p : A -> bool) (l : list A) :
  List.NoDup (map f l) -> List.NoDup (map f (List.filter p l)).
Proof.
  induction l as [|x l IH]; simpl; [auto|].
  intros H. inversion H as [|? ? Hx Hl]; subst.
  destruct (p x); simpl; [|auto].
  constructor; [|auto].
  intros Hin. apply Hx. apply in_map_iff in Hin as [y [E Hy]].
  apply filter_In in Hy as [Hy _]. apply in_map_iff. eauto.
Qed.

(** X9: for every limit, also a negative one or NaN, each result of
    [searchDocuments] is built from a document of the store, its
    totalRelevance is the number of its relevant chunks and lies in 1..3;
    there are at most as many results as documents, and no id is reported
    twice when the ids of the store are distinct. *)
Theorem searchDocuments_results (docs : list Document) (query : string) (limit : jsint) :
  let results := searchDocuments docs query limit in
  Forall (fun r => 1 <= totalRelevance r <= 3
                   /\ totalRelevance r = Z.of_nat (length (relevantChunks r))
                   /\ exists doc, In doc docs /\ res_id r = id doc
                                  /\ res_category r = category doc
                                  /\ relevantChunks r = findRelevantChunks (chunks doc) query)
         results
  /\ (length results <= length docs)%nat
  /\ (List.NoDup (map id docs) -> List.NoDup (map res_id results)).
Proof.
  intros results. subst results. unfold searchDocuments.
  change (fun a b : SearchResult => totalRelevance b - totalRelevance a)
    with (by_key_desc totalRelevance).
  change (map (fun doc : Document => _) docs) with (map (doc_result query) docs).
  set (kept := List.filter (fun r => 0 <? totalRelevance r) (map (doc_result query) docs)).
  destruct (slice0_prefix limit (sort (by_key_desc totalRelevance) kept)) as [n ->].
  pose proof (sort_perm totalRelevance kept) as Hperm.
  split; [|split].
  - apply Forall_firstn. eapply Permutation_Forall; [symmetry; exact Hperm|].
    apply List.Forall_forall. intros r Hr.
    apply filter_In in Hr as [Hin Hpos]. apply Z.ltb_lt in Hpos.
    apply in_map_iff in Hin as [doc [<- Hdoc]]. simpl in *.
    pose proof (findRelevantChunks_length (chunks doc) query).
    split; [lia|]. split; [reflexivity|]. exists doc. auto.
  - rewrite length_firstn, (Permutation_length Hperm).
    unfold kept. pose proof (filter_length_le (fun r => 0 <? totalRelevance r)
                               (map (doc_result query) docs)) as H.
    rewrite length_map in H. lia.
  - intros Hnd. rewrite <- firstn_map. apply NoDup_firstn.
    eapply Permutation_NoDup; [apply Permutation_map; symmetry; exact Hperm|].
    unfold kept. apply NoDup_map_filter. rewrite map_map. exact Hnd.
Qed.

End Matching.

(** ** Chunks, keywords and the store *)

Section Chunking.
Import VectorDB.

Lemma trimStart_suffix (s : string) : exists front, s = front +:+ trimStart s.
Proof.
  induction s as [|c s [front IH]]; simpl.
  - exists "". reflexivity.
  - destruct (is_space c).
    + exists (String c front). rewrite append_cons. now f_equal.
    + exists "". reflexivity.
Qed.

Lemma trimEnd_prefix (s : string) : exists back, s = trimEnd s +:+ back.
Proof.
  induction s as [|c s [back IH]]; simpl.
  - exists "". reflexivity.
  - destruct (trimEnd s) as [|d t] eqn:E.
    + destruct (is_space c).
      * exists (String c s). reflexivity.
      * exists s. reflexivity.
    + exists back. rewrite append_cons. now f_equal.
Qed.

Lemma includes_trim (s : string) : includes s (trim s) = true.
Proof.
  unfold trim. destruct (trimStart_suffix s) as [front Hf].
  destruct (trimEnd_prefix (trimStart s)) as [back Hb].
  apply includes_spec. exists front, back. now rewrite <- Hb.
Qed.

Lemma trimStart_head (s : string) :
  match trimStart s with
  | String c _ => is_space c = false
  | EmptyString => True
  end.
Proof.
  induction s as [|c s IH]; simpl; [exact I|].
  destruct (is_space c) eqn:E; [exact IH | exact E].
Qed.

Lemma trimEnd_head (c : ascii) (s : string) :
  is_space c = false -> exists t, trimEnd (String c s) = String c t.
Proof.
  intros Hc. simpl. destruct (trimEnd s); rewrite ?Hc; eauto.
Qed.

Lemma trimEnd_idempotent (s : string) : trimEnd (trimEnd s) = trimEnd s.
Proof.
  induction s as [|c s IH]; [reflexivity|].
  cbn [trimEnd]. destruct (trimEnd s) as [|d t] eqn:E.
  - destruct (is_space c) eqn:Hc; [reflexivity|]. simpl. now rewrite Hc.
  - cbn [trimEnd]. cbn [trimEnd] in IH.
    destruct (match trimEnd t with
              | "" => if is_space d then "" else String d ""
              | String a s0 => String d (String a s0) end) eqn:E'; [discriminate|].
    now rewrite <- IH.
Qed.

Lemma trim_idempotent (s : string) : trim (trim s) = trim s.
Proof.
  unfold trim.
  pose proof (trimStart_head s) as Hh.
  destruct (trimStart s) as [|c t] eqn:E; [reflexivity|].
  destruct (trimEnd_head c t Hh) as [u Hu].
  rewrite Hu. cbn [trimStart]. rewrite Hh, <- Hu.
  apply trimEnd_idempotent.
Qed.

Lemma split_blank_head (s : string) :
  exists t ts, split_blank 0 s = t :: ts /\ startsWith s t = true.
Proof.
  induction s as [|c s [t [ts [E H]]]]; simpl.
  - exists "", []. split; reflexivity.
  - destruct (if Ascii.eqb c LF then blank_gap s else None).
    + eexists _, _. split; reflexivity.
    + rewrite E. exists (String c t), ts. split; [reflexivity|].
      simpl. now rewrite Ascii.eqb_refl.
Qed.

Lemma split_blank_pieces (s : string) (skip : nat) (t : string) :
  In t (split_blank skip s) -> includes s t = true.
Proof.
  revert skip. induction s as [|c s IH]; intros skip; cbn [split_blank].
  - intros [<-|[]]. reflexivity.
  - destruct skip as [|k].
    + destruct (if Ascii.eqb c LF then blank_gap s else None).
      * intros [<-|H]; [apply includes_empty | eapply includes_cons, IH, H].
      * destruct (split_blank_head s) as [t0 [ts [E Ht0]]].
        specialize (IH 0%nat). rewrite E in IH |- *.
        intros [<-|H].
        -- apply startsWith_includes. simpl. now rewrite Ascii.eqb_refl.
        -- apply includes_cons, IH. now right.
    + intros H. eapply includes_cons, IH, H.
Qed.

Lemma append_length (a b : string) :
  String.length (a +:+ b) = (String.length a + String.length b)%nat.
Proof.
  induction a as [|x a IH]; [reflexivity|].
  rewrite append_cons. simpl. now rewrite IH.
Qed.

Lemma includes_length (s t : string) :
  includes s t = true -> (String.length t <= String.length s)%nat.
Proof.
  intros H. apply includes_spec in H as [front [back ->]].
  rewrite !append_length. lia.
Qed.

Lemma chunkDocument_chunk (content chunk : string) :
  In chunk (chunkDocument content) ->
  (50 < String.length chunk)%nat /\ trim chunk = chunk /\ includes content chunk = true.
Proof.
  unfold chunkDocument. intros H.
  apply in_map_iff in H as [piece [<- H]].
  apply filter_In in H as [Hin Hlen]. apply Nat.ltb_lt in Hlen.
  split; [exact Hlen|]. split; [apply trim_idempotent|].
  eapply includes_trans; [eapply split_blank_pieces, Hin | apply includes_trim].
Qed.

(** X1: every chunk [chunkDocument] returns is longer than 50 characters, is
    trimmed, and occurs in the content; a content of at most 50 characters
    has no chunk. *)
Theorem chunkDocument_chunks (content : string) :
  Forall (fun chunk => (50 < String.length chunk)%nat
                       /\ trim chunk = chunk
                       /\ includes content chunk = true)
         (chunkDocument content)
  /\ ((String.length content <= 50)%nat -> chunkDocument content = []).
Proof.
  split.
  - apply List.Forall_forall. intros chunk. apply chunkDocument_chunk.
  - intros Hlen. destruct (chunkDocument content) as [|chunk l] eqn:E; [reflexivity|].
    destruct (chunkDocument_chunk content chunk) as [H1 [_ H3]]; [rewrite E; now left|].
    apply includes_length in H3. lia.
Qed.

Example chunkDocument_sample :
  chunkDocument sample_rubric
  = [ "Technical Skills Match (Weight: 40%)" +:+ newline
      +:+ "SCORE 5 (Excellent): Strong backend with cloud and AI/LLM exposure";
      "SCORE 1 (Poor): Less than 1 year of experience or only trivial projects" ].
Proof. vm_compute. reflexivity. Qed.

End Chunking.

Section Keywords.
Import VectorDB.



(** *** The keys of [wordCount] *)




(** *** The counts, when the word [constructor] does not occur *)





(** *** The order of the entries *)












End Keywords.

Section Store.
Import VectorDB.

Lemma find_document_app (docs more : list Document) (name : string) :
  find_document (docs ++ more) name
  = match find_document docs name with
    | Some doc => Some doc
    | None => find_document more name
    end.
Proof.
  unfold find_document. induction docs as [|d docs IH]; simpl; [reflexivity|].
  destruct (String.eqb (id d) name); [reflexivity | exact IH].
Qed.

(** X3: [storeDocument] appends one document and replaces none, whatever
    the content: every lookup that found a document still finds the same
    one, lookups under other ids are unchanged, and an id that was not in
    the store now finds the new document with the given content and
    category, the chunks of [chunkDocument] and the keywords of
    [extractKeywords]. *)
Theorem storeDocument_appends
    (engine_sort : list (string * tally) -> list (string * tally))
    (name content0 category0 : string) (docs : list Document) :
  let docs' := storeDocument engine_sort name content0 category0 docs in
  length docs' = S (length docs)
  /\ (forall other doc, find_document docs other = Some doc ->
                        find_document docs' other = Some doc)
  /\ (forall other, other <> name -> find_document docs' other = find_document docs other)
  /\ (find_document docs name = None ->
      exists doc, find_document docs' name = Some doc
                  /\ id doc = name /\ content doc = content0 /\ category doc = category0
                  /\ chunks doc = chunkDocument content0
                  /\ keywords doc = extractKeywords engine_sort content0).
Proof.
  unfold storeDocument. cbv zeta.
  split; [rewrite length_app; simpl; lia|].
  split; [intros other doc H; now rewrite find_document_app, H|].
  split.
  - intros other Hne. rewrite find_document_app.
    destruct (find_document docs other); [reflexivity|].
    unfold find_document. simpl. destruct (String.eqb name other) eqn:E; [|reflexivity].
    apply String.eqb_eq in E. congruence.
  - intros Hnone. rewrite find_document_app, Hnone.
    unfold find_document. simpl. rewrite String.eqb_refl.
    eexists. split; [reflexivity|]. simpl. auto 6.
Qed.

Lemma getContextForCVEvaluation_outcome (docs : list Document) :
  getContextForCVEvaluation docs
  = match find_document docs "job-requirements" with
    | None => Throw "Job requirements not loaded"
    | Some jobDoc =>
        match find_document docs "scoring-rubric" with
        | None => Throw "Scoring rubric not loaded"
        | Some rubricDoc =>
            Return
              {| jobContext :=
                   extractJobContext
                     (join (newline +:+ newline)
                        (findRelevantChunks (chunks jobDoc)
                           "technical skills experience backend requirements"));
                 evaluationGuidelines :=
                   extractCVGuidelines
                     (join (newline +:+ newline)
                        (findRelevantChunks (chunks rubricDoc)
                           "CV evaluation technical skills experience")) |}
        end
    end.
Proof.
  unfold getContextForCVEvaluation, getJobRequirements, getScoringRubric.
  destruct (find_document docs "job-requirements"); [|reflexivity].
  destruct (find_document docs "scoring-rubric"); reflexivity.
Qed.

Lemma getContextForProjectEvaluation_outcome (docs : list Document) :
  getContextForProjectEvaluation docs
  = match find_document docs "scoring-rubric" with
    | None => Throw "Scoring rubric not loaded"
    | Some rubricDoc =>
        match find_document docs "job-requirements" with
        | None => Throw "Job requirements not loaded"
        | Some jobDoc =>
            Return
              {| scoringCriteria :=
                   extractProjectCriteria
                     (join (newline +:+ newline)
                        (findRelevantChunks (chunks rubricDoc)
                           "project evaluation correctness code quality resilience"));
                 technicalRequirements :=
                   extractTechnicalRequirements
                     (join (newline +:+ newline)
                        (findRelevantChunks (chunks jobDoc)
                           "LLM chaining RAG implementation error handling")) |}
        end
    end.
Proof.
  unfold getContextForProjectEvaluation, getJobRequirements, getScoringRubric.
  destruct (find_document docs "scoring-rubric"); [|reflexivity].
  destruct (find_document docs "job-requirements"); reflexivity.
Qed.

(** X5: the two context builders return exactly when both job-requirements
    and scoring-rubric are in the store.  Otherwise they throw the message
    of the first lookup that fails: the CV builder looks the job
    requirements up first, the project builder the rubric, so on an empty
    store they throw different messages. *)
Theorem context_builders_need_both_documents (docs : list Document) :
  match find_document docs "job-requirements", find_document docs "scoring-rubric" with
  | Some _, Some _ =>
      (exists ctx, getContextForCVEvaluation docs = Return ctx)
      /\ (exists ctx, getContextForProjectEvaluation docs = Return ctx)
  | None, Some _ =>
      getContextForCVEvaluation docs = Throw "Job requirements not loaded"
      /\ getContextForProjectEvaluation docs = Throw "Job requirements not loaded"
  | Some _, None =>
      getContextForCVEvaluation docs = Throw "Scoring rubric not loaded"
      /\ getContextForProjectEvaluation docs = Throw "Scoring rubric not loaded"
  | None, None =>
      getContextForCVEvaluation docs = Throw "Job requirements not loaded"
      /\ getContextForProjectEvaluation docs = Throw "Scoring rubric not loaded"
  end.
Proof.
  rewrite getContextForCVEvaluation_outcome, getContextForProjectEvaluation_outcome.
  destruct (find_document docs "job-requirements"), (find_document docs "scoring-rubric");
    split; eauto.
Qed.

(** The built-in texts do not hold the word constructor: their keywords
    do not depend on the engine. *)
Lemma extractKeywords_built_in
    (engine_sort : list (string * tally) -> list (string * tally)) :
  extractKeywords engine_sort jobDescription
  = extractKeywords (fun entries => entries) jobDescription
  /\ extractKeywords engine_sort scoringRubric
     = extractKeywords (fun entries => entries) scoringRubric.
Proof. split; vm_compute; reflexivity. Qed.

Lemma initialize_appends (engine_sort : list (string * tally) -> list (string * tally))
    (docs : list Document) :
  initialize engine_sort docs = (docs ++ built_in)%list.
Proof.
  unfold built_in, initialize, loadJobRequirements, loadScoringRubric, storeDocument.
  destruct (extractKeywords_built_in engine_sort) as [-> ->].
  rewrite <- app_assoc. reflexivity.
Qed.

Lemma built_in_documents :
  exists job rubric,
    built_in = [job; rubric]
    /\ (id job = "job-requirements" /\ category job = "job-description"
        /\ content job = jobDescription /\ chunks job = chunkDocument jobDescription
        /\ length (chunks job) = 6%nat)
    /\ (id rubric = "scoring-rubric" /\ category rubric = "evaluation-criteria"
        /\ content rubric = scoringRubric /\ chunks rubric = chunkDocument scoringRubric
        /\ length (chunks rubric) = 14%nat).
Proof.
  eexists _, _. split; [vm_compute; reflexivity|].
  split; repeat split; vm_compute; reflexivity.
Qed.

Lemma built_in_stored : Forall stored built_in.
Proof.
  destruct built_in_documents
    as (job & rubric & -> & (_ & _ & Hj & Hcj & _) & (_ & _ & Hr & Hcr & _)).
  unfold stored. repeat constructor; congruence.
Qed.

Lemma getStatus_app (flag : bool) (docs more : list Document) :
  documentCount (getStatus flag (docs ++ more))
  = (documentCount (getStatus flag docs) + documentCount (getStatus flag more))%nat
  /\ totalChunks (getStatus flag (docs ++ more))
     = (totalChunks (getStatus flag docs) + totalChunks (getStatus flag more))%nat.
Proof.
  unfold getStatus. cbn [documentCount totalChunks]. split; [apply length_app|].
  rewrite fold_left_app.
  generalize (fold_left (fun sum doc => (sum + length (chunks doc))%nat) docs 0%nat) as n.
  induction more as [|d more IH]; intros n; simpl; [lia|].
  rewrite IH, (IH (length (chunks d))). lia.
Qed.

Lemma distinct_spec (values seen : list string) :
  List.NoDup (distinct values seen)
  /\ forall v, In v (distinct values seen) <-> In v values /\ ~ In v seen.
Proof.
  revert seen. induction values as [|x values IH]; intros seen; cbn [distinct].
  - split; [constructor | intros v; simpl; tauto].
  - destruct (existsb (String.eqb x) seen) eqn:E.
    + apply existsb_exists in E as (y & Hy & Exy). apply String.eqb_eq in Exy. subst y.
      destruct (IH seen) as [Hnd Hin]. split; [exact Hnd|].
      intros v. rewrite Hin. simpl. split; [tauto|].
      intros [[<-|H] Hn]; [contradiction | tauto].
    + assert (Hx : ~ In x seen).
      { intros Hx. assert (existsb (String.eqb x) seen = true); [|congruence].
        apply existsb_exists. exists x. split; [exact Hx | apply String.eqb_refl]. }
      destruct (IH (x :: seen)) as [Hnd Hin]. split.
      * constructor; [|exact Hnd]. rewrite Hin. simpl. tauto.
      * intros v. simpl. rewrite Hin. simpl.
        destruct (String.eqb_spec x v) as [->|Hne]; tauto.
Qed.

(** X4: [initialize] returns on every store and appends the two built-in
    documents, job-requirements (6 chunks) and scoring-rubric (14 chunks),
    whose chunks are those of [chunkDocument]; [getStatus] then counts two
    more documents and 20 more chunks and lists every category once; a
    document already stored under an id keeps answering lookups, so a
    second initialisation duplicates the documents without replacing them. *)
Theorem initialize_appends_built_in
    (engine_sort : list (string * tally) -> list (string * tally)) (docs : list Document) :
  initialize engine_sort docs = (docs ++ built_in)%list
  /\ map id built_in = ["job-requirements"; "scoring-rubric"]
  /\ map category built_in = ["job-description"; "evaluation-criteria"]
  /\ map content built_in = [jobDescription; scoringRubric]
  /\ map (fun doc => length (chunks doc)) built_in = [6%nat; 14%nat]
  /\ Forall stored built_in
  /\ (let status := getStatus true (docs ++ built_in) in
      documentCount status = (length docs + 2)%nat
      /\ totalChunks status = (totalChunks (getStatus true docs) + 20)%nat
      /\ List.NoDup (categories status)
      /\ forall c, In c (categories status)
                   <-> exists doc, In doc (docs ++ built_in) /\ category doc = c)
  /\ (forall name doc, find_document docs name = Some doc ->
                       find_document (docs ++ built_in) name = Some doc).
Proof.
  split; [apply initialize_appends|].
  pose proof built_in_stored as Hstored.
  destruct built_in_documents
    as (job & rubric & E & (Hj1 & Hj2 & Hj3 & _ & Hj5) & (Hr1 & Hr2 & Hr3 & _ & Hr5)).
  rewrite E in *. cbn [map]. rewrite Hj1, Hj2, Hj3, Hj5, Hr1, Hr2, Hr3, Hr5.
  repeat (split; [reflexivity|]). split; [exact Hstored|].
  split.
  - cbv zeta. destruct (getStatus_app true docs [job; rubric]) as [-> ->].
    split; [reflexivity|].
    split; [unfold getStatus; cbn [totalChunks fold_left]; rewrite Hj5, Hr5; reflexivity|].
    unfold getStatus. cbn [categories].
    destruct (distinct_spec (map category (docs ++ [job; rubric])) []) as [Hnd Hin].
    split; [exact Hnd|]. intros c. rewrite Hin, in_map_iff. simpl.
    split; [intros [(doc & H1 & H2) _]; eauto | intros (doc & H1 & H2); eauto].
  - intros name doc H. now rewrite find_document_app, H.
Qed.

End Store.

Section Bullets.
Import VectorDB.

Lemma trim_no_leading_space (s : string) : startsWith (trim s) " " = false.
Proof.
  pose proof (trimStart_head s) as Hh. unfold trim.
  destruct (trimStart s) as [|c t] eqn:E; [reflexivity|].
  destruct (trimEnd_head c t Hh) as [u ->]. cbn [startsWith].
  destruct (Ascii.eqb " " c) eqn:Ec; [|reflexivity].
  apply Ascii.eqb_eq in Ec. subst c. discriminate.
Qed.

Lemma collect_bullets_section (body tail : list string) (acc : list string) :
  Forall (fun l => bullet_line l = true \/ blank_line l = true) body ->
  acc <> [] ->
  tail = [] \/ (exists stop rest, tail = stop :: rest
                                  /\ bullet_line stop = false /\ blank_line stop = false) ->
  collect_bullets (body ++ tail) acc
  = (acc ++ map bullet_text (List.filter bullet_line body))%list.
Proof.
  revert acc. induction body as [|l body IH]; intros acc H Hacc Htail.
  - cbn [app List.filter map]. rewrite app_nil_r.
    destruct Htail as [->|(stop & rest & -> & Hb & Hn)]; [reflexivity|].
    cbn [collect_bullets]. unfold bullet_line, blank_line in *.
    rewrite Hb, Hn, trim_no_leading_space.
    destruct acc; [contradiction | reflexivity].
  - inversion H as [|? ? Hl Hbody]; subst.
    cbn [app collect_bullets List.filter]. unfold bullet_line, blank_line in *.
    destruct (startsWith (trim l) "-" || startsWith (trim l) bullet) eqn:E.
    + rewrite IH; try assumption.
      * cbn [map]. now rewrite <- app_assoc.
      * destruct acc; discriminate.
    + destruct Hl as [Hl|Hl]; [discriminate|]. rewrite Hl. cbn [negb andb].
      now apply IH.
Qed.

Lemma collect_bullets_skip (front rest : list string) :
  Forall (fun l => bullet_line l = false) front ->
  collect_bullets (front ++ rest) [] = collect_bullets rest [].
Proof.
  induction 1 as [|l front Hl Hfront IH]; [reflexivity|].
  cbn [app collect_bullets]. unfold bullet_line in Hl. rewrite Hl.
  cbn [length Nat.ltb Nat.leb]. rewrite andb_false_r. exact IH.
Qed.

Lemma findIndex_first {A : Type} (p : A -> bool) (before : list A) (x : A) (rest : list A) :
  Forall (fun a => p a = false) before -> p x = true ->
  findIndex p (before ++ x :: rest) = Some (length before).
Proof.
  induction 1 as [|a before Ha Hbefore IH]; intros Hx; simpl.
  - now rewrite Hx.
  - rewrite Ha, IH by assumption. reflexivity.
Qed.

Lemma findIndex_none {A : Type} (p : A -> bool) (l : list A) :
  Forall (fun a => p a = false) l -> findIndex p l = None.
Proof.
  induction 1 as [|a l Ha Hl IH]; simpl; [reflexivity|]. now rewrite Ha, IH.
Qed.

Lemma skipn_after {A : Type} (before : list A) (x : A) (rest : list A) :
  skipn (S (length before)) (before ++ x :: rest) = rest.
Proof. induction before as [|a before IH]; [reflexivity | exact IH]. Qed.

(** X11: [extractBulletPoints] returns the first bullet list after the first
    line that contains the section name, a bullet being a line that starts,
    after trimming, with a hyphen or with the bullet sign U+2022: the lines
    between that header and the first bullet are skipped whatever they are
    (other headers included), blank lines inside the list are skipped, and
    the list ends at the first line after a bullet that is neither blank
    nor a bullet. *)
Theorem extractBulletPoints_first_list (text sectionName header first : string)
    (before front more tail : list string)
    (Hlines : split_char LF text
              = (before ++ header :: front ++ (first :: more) ++ tail)%list)
    (Hbefore : Forall (fun l => includes l sectionName = false) before)
    (Hheader : includes header sectionName = true)
    (Hfront : Forall (fun l => bullet_line l = false) front)
    (Hfirst : bullet_line first = true)
    (Hmore : Forall (fun l => bullet_line l = true \/ blank_line l = true) more)
    (Htail : tail = [] \/ (exists stop rest, tail = stop :: rest
                                            /\ bullet_line stop = false
                                            /\ blank_line stop = false)) :
  extractBulletPoints text sectionName
  = bullet_text first :: map bullet_text (List.filter bullet_line more).
Proof.
  unfold extractBulletPoints. cbv zeta. rewrite Hlines.
  rewrite (findIndex_first _ before header _ Hbefore Hheader).
  rewrite skipn_after.
  rewrite collect_bullets_skip by exact Hfront.
  cbn [app collect_bullets]. unfold bullet_line in Hfirst. rewrite Hfirst.
  rewrite collect_bullets_section; try assumption; [reflexivity | discriminate].
Qed.

Lemma missing_section (text sectionName : string) :
  Forall (fun l => includes l sectionName = false) (split_char LF text) ->
  extractBulletPoints text sectionName = []
  /\ extractScoringDetails text sectionName = "Standard evaluation criteria apply".
Proof.
  intros Habsent. unfold extractBulletPoints, extractScoringDetails. cbv zeta.
  now rewrite (findIndex_none _ _ Habsent).
Qed.

End Bullets.

Section StoredChunks.
Import VectorDB.

Lemma findRelevantChunks_In (chunks : list string) (query c : string) :
  In c (findRelevantChunks chunks query) -> In c chunks /\ token_match c query.
Proof.
  rewrite findRelevantChunks_sorted_prefix. intros Hin.
  assert (H : In c (List.filter (fun c => 0 <? relevance c query) chunks)).
  { eapply Permutation_in; [apply sort_perm|].
    rewrite <- (firstn_skipn 3 (sort _ _)). apply in_or_app. left. exact Hin. }
  apply filter_In in H as [H1 H2]. apply Z.ltb_lt in H2.
  split; [exact H1 | now apply relevance_positive].
Qed.

Lemma searchDocuments_In (docs : list Document) (query : string) (limit : jsint)
    (r : SearchResult) :
  In r (searchDocuments docs query limit) ->
  exists doc, In doc docs /\ r = doc_result query doc.
Proof.
  unfold searchDocuments.
  change (map (fun doc : Document => _) docs) with (map (doc_result query) docs).
  destruct (slice0_prefix limit
              (sort (fun a b => totalRelevance b - totalRelevance a)
                    (List.filter (fun result => 0 <? totalRelevance result)
                                 (map (doc_result query) docs)))) as [n ->].
  intros Hin.
  assert (H : In r (List.filter (fun result => 0 <? totalRelevance result)
                                (map (doc_result query) docs))).
  { eapply Permutation_in; [apply (sort_perm totalRelevance)|].
    rewrite <- (firstn_skipn n (sort _ _)). apply in_or_app. left. exact Hin. }
  apply filter_In in H as [H _]. apply in_map_iff in H as [doc [<- Hdoc]]. eauto.
Qed.

(** X10: over documents whose chunks come from [chunkDocument], as
    [storeDocument] builds them, every chunk a search returns is a trimmed
    passage of its document's content, longer than 50 characters, that
    shares a token with the query. *)
Theorem stored_chunks_retrieved (docs : list Document) (query : string) (limit : jsint)
    (Hstored : Forall stored docs) :
  Forall (fun r =>
            exists doc,
              In doc docs /\ res_id r = id doc
              /\ Forall (fun chunk => (50 < String.length chunk)%nat
                                      /\ trim chunk = chunk
                                      /\ includes (content doc) chunk = true
                                      /\ token_match chunk query)
                        (relevantChunks r))
         (searchDocuments docs query limit).
Proof.
  apply List.Forall_forall. intros r Hr.
  apply searchDocuments_In in Hr as (doc & Hdoc & ->).
  exists doc. split; [exact Hdoc|]. split; [reflexivity|].
  cbn [relevantChunks doc_result]. apply List.Forall_forall. intros chunk Hchunk.
  apply findRelevantChunks_In in Hchunk as [Hin Hmatch].
  rewrite List.Forall_forall in Hstored. rewrite (Hstored doc Hdoc) in Hin.
  apply chunkDocument_chunk in Hin as (H1 & H2 & H3). auto.
Qed.

End StoredChunks.

(** ** Heuristic scores *)

Section ScoreBounds.
Import Num AIService.

Lemma tenths_near (c q r d k n : Z) :
  (Qabs (inject_Z n / 10 - project_weighted_exact c q r d k) <= 1 # 20)%Q ->
  -5 <= 10 * n - (30 * c + 25 * q + 20 * r + 15 * d + 10 * k) <= 5.
Proof.
  intros H. apply Qabs_Qle_condition in H as [H1 H2].
  unfold project_weighted_exact, Qle, Qminus, Qplus, Qmult, Qdiv, Qinv, Qopp, inject_Z in *.
  simpl in *. lia.
Qed.

Lemma cv_score_value (docs : list VectorDB.Document) (cv : CVStructured) (r : MatchResult) :
  evaluateCVMatch docs cv = Return r ->
  score r = of_Z (8 * technical_skills (breakdown r) + 5 * experience_level (breakdown r)
                  + 4 * cv_achievements (breakdown r) + 3 * cultural_fit (breakdown r)).
Proof.
  intros Hreturn.
  pose proof (cv_breakdown_range _ _ _ Hreturn) as (Ht & He & Ha & Hc).
  pose proof (cv_score_check_ok _ _ _ _ Ht He Ha Hc) as Hcheck.
  apply evaluateCVMatch_inv in Hreturn as (ctx & _ & _ & _ & _ & _ & Hscore).
  unfold cv_score_check in Hcheck. cbv zeta in Hcheck.
  repeat (apply andb_prop in Hcheck as [Hcheck _]).
  rewrite Hscore. now apply number_eqb_eq.
Qed.

Lemma project_score_value (docs : list VectorDB.Document) (projectText : string)
    (r : ProjectScore) :
  evaluateProject docs projectText = Return r ->
  exists n,
    overallScore r = div (of_Z n) (of_Z 10)
    /\ 10 <= n <= 50
    /\ -5 <= 10 * n - (30 * correctness (p_breakdown r) + 25 * code_quality (p_breakdown r)
                       + 20 * resilience (p_breakdown r)
                       + 15 * documentation (p_breakdown r)
                       + 10 * creativity (p_breakdown r)) <= 5.
Proof.
  intros Hreturn.
  pose proof (project_breakdown_range _ _ _ Hreturn) as (Hc & Hq & Hr & Hd & Hk).
  destruct (project_score_rounded _ _ _ _ _ Hc Hq Hr Hd Hk) as (n & Hround & Hn & Hnear & _).
  apply evaluateProject_inv in Hreturn as (ctx & _ & _ & _ & _ & _ & _ & Hscore).
  exists n. split; [rewrite Hscore, Hround; reflexivity|].
  split; [exact Hn|]. now apply tenths_near.
Qed.

(** X16: achievements, cultural fit, code quality and documentation never
    score below 2, so the CV score, the integer 8t + 5e + 4a + 3c, is at
    least 27, and the project score is at least 1.4. *)
Theorem reported_scores_floor (docs : list VectorDB.Document) (cv : CVStructured)
    (projectText : string) (cvMatchRate : MatchResult) (projectScore : ProjectScore)
    (Hcv : evaluateCVMatch docs cv = Return cvMatchRate)
    (Hproject : evaluateProject docs projectText = Return projectScore) :
  (2 <= cv_achievements (breakdown cvMatchRate)
   /\ 2 <= cultural_fit (breakdown cvMatchRate)
   /\ exists s, score cvMatchRate = of_Z s
                /\ s = 8 * technical_skills (breakdown cvMatchRate)
                       + 5 * experience_level (breakdown cvMatchRate)
                       + 4 * cv_achievements (breakdown cvMatchRate)
                       + 3 * cultural_fit (breakdown cvMatchRate)
                /\ 27 <= s <= 100)
  /\ (2 <= code_quality (p_breakdown projectScore)
      /\ 2 <= documentation (p_breakdown projectScore)
      /\ exists n, overallScore projectScore = div (of_Z n) (of_Z 10) /\ 14 <= n <= 50).
Proof.
  split.
  - pose proof (cv_score_value _ _ _ Hcv) as Hscore.
    pose proof (cv_breakdown_range _ _ _ Hcv) as (Ht & He & _ & _).
    apply evaluateCVMatch_inv in Hcv as (ctx & _ & _ & _ & Ha & Hc & _).
    pose proof (scoreAchievements_range (achievements cv)).
    pose proof (scoreCulturalFit_range (communication_indicators cv)).
    rewrite Ha, Hc in *.
    split; [lia|]. split; [lia|]. eexists. split; [exact Hscore|]. split; [reflexivity|lia].
  - destruct (project_score_value _ _ _ Hproject) as (n & Hscore & Hn & Hnear).
    pose proof (project_breakdown_range _ _ _ Hproject) as (Hc & _ & Hr & _ & Hk).
    apply evaluateProject_inv in Hproject as (ctx & _ & _ & Hq & _ & Hd & _ & _).
    pose proof (scoreCodeQuality_range projectText).
    pose proof (scoreDocumentation_range projectText).
    rewrite Hq, Hd in *.
    split; [lia|]. split; [lia|]. exists n. split; [exact Hscore|]. lia.
Qed.

End ScoreBounds.

Section Padding.
Import Num AIService.

Lemma filter_length_mono {A : Type} (p p' : A -> bool) (l : list A) :
  (forall x, p x = true -> p' x = true) ->
  (length (List.filter p l) <= length (List.filter p' l))%nat.
Proof.
  intros H. induction l as [|x l IH]; simpl; [lia|].
  destruct (p x) eqn:E.
  - rewrite (H x E). simpl. lia.
  - destruct (p' x); simpl; lia.
Qed.

Variables front projectText back : string.
Local Abbreviation padded := (front +:+ projectText +:+ back).

Lemma includes_padded (keyword : string) :
  includes (toLowerCase projectText) keyword = true ->
  includes (toLowerCase padded) keyword = true.
Proof. rewrite !toLowerCase_app. apply includes_within. Qed.

Lemma includes_padded_implb (keyword : string) :
  implb (includes (toLowerCase projectText) keyword)
        (includes (toLowerCase padded) keyword) = true.
Proof.
  destruct (includes (toLowerCase projectText) keyword) eqn:E; [|reflexivity].
  now rewrite (includes_padded keyword E).
Qed.

Lemma scoreCodeQuality_padded : scoreCodeQuality projectText <= scoreCodeQuality padded.
Proof.
  unfold scoreCodeQuality. cbv zeta.
  pose proof (filter_length_mono
                (fun keyword => includes (toLowerCase projectText) keyword)
                (fun keyword => includes (toLowerCase padded) keyword)
                ["express"; "node.js"; "structured"; "modular"; "test"]
                includes_padded).
  lia.
Qed.

Lemma scoreDocumentation_padded : scoreDocumentation projectText <= scoreDocumentation padded.
Proof.
  unfold scoreDocumentation. cbv zeta.
  pose proof (filter_length_mono
                (fun keyword => includes (toLowerCase projectText) keyword)
                (fun keyword => includes (toLowerCase padded) keyword)
                ["readme"; "documentation"; "instructions"; "setup"]
                includes_padded).
  lia.
Qed.

Lemma scoreCreativity_padded : scoreCreativity projectText <= scoreCreativity padded.
Proof.
  unfold scoreCreativity. rewrite !append_length.
  assert (Z.of_nat (String.length projectText) / 100
          <= Z.of_nat (String.length front
                       + (String.length projectText + String.length back)) / 100)
    by (apply Z.div_le_mono; lia).
  lia.
Qed.

Lemma half_points_mono (b1 b2 b3 b4 b5 b1' b2' b3' b4' b5' : bool) :
  implb b1 b1' = true -> implb b2 b2' = true -> implb b3 b3' = true ->
  implb b4 b4' = true -> implb b5 b5' = true ->
  let total (a b c d e : bool) : Q :=
    let score : Q := 1%Q in
    let score := if a then (score + 1)%Q else score in
    let score := if b then (score + 1)%Q else score in
    let score := if c then (score + 1)%Q else score in
    let score := if d then (score + 1)%Q else score in
    let score := if e then (score + (1 # 2))%Q else score in
    score in
  Z.min 5 (Math_round_Q (total b1 b2 b3 b4 b5))
  <= Z.min 5 (Math_round_Q (total b1' b2' b3' b4' b5')).
Proof.
  destruct b1, b1'; try discriminate; intros _;
  destruct b2, b2'; try discriminate; intros _;
  destruct b3, b3'; try discriminate; intros _;
  destruct b4, b4'; try discriminate; intros _;
  destruct b5, b5'; try discriminate; intros _;
  vm_compute; discriminate.
Qed.

Lemma andb_implb (a a' b : bool) : implb a a' = true -> implb (a && b) (a' && b) = true.
Proof. destruct a, a', b; auto. Qed.

Lemma orb_implb (a a' b b' : bool) :
  implb a a' = true -> implb b b' = true -> implb (a || b) (a' || b') = true.
Proof. destruct a, a', b, b'; auto. Qed.

Lemma scoreCorrectnessWithRAG_padded (reqs : list string) :
  scoreCorrectnessWithRAG projectText reqs <= scoreCorrectnessWithRAG padded reqs.
Proof.
  unfold scoreCorrectnessWithRAG. cbv zeta.
  apply half_points_mono; apply andb_implb, includes_padded_implb.
Qed.

Lemma scoreResilienceWithRAG_padded (reqs : list string) :
  scoreResilienceWithRAG projectText reqs <= scoreResilienceWithRAG padded reqs.
Proof.
  unfold scoreResilienceWithRAG. cbv zeta.
  apply half_points_mono;
    first [ apply andb_implb, includes_padded_implb
          | apply orb_implb; apply includes_padded_implb ].
Qed.

Lemma tenths_order_check_all : forallb tenths_order_check tenths_10_50 = true.
Proof. vm_compute. reflexivity. Qed.

Lemma tenths_order (n n' : Z) :
  10 <= n <= 50 -> 10 <= n' <= 50 -> n <= n' ->
  geb (div (of_Z n') (of_Z 10)) (div (of_Z n) (of_Z 10)) = true.
Proof.
  intros Hn Hn' Hle. pose proof tenths_order_check_all as H.
  rewrite List.forallb_forall in H. specialize (H n (in_tenths n Hn)).
  unfold tenths_order_check in H.
  rewrite List.forallb_forall in H. specialize (H n' (in_tenths n' Hn')).
  apply Z.leb_le in Hle. rewrite Hle in H. exact H.
Qed.

(** X17: adding text before or after a project report never lowers any of
    its five criterion scores nor its overall score. *)
Theorem project_score_padding (docs : list VectorDB.Document) (r r' : ProjectScore)
    (Hreturn : evaluateProject docs projectText = Return r)
    (Hpadded : evaluateProject docs padded = Return r') :
  correctness (p_breakdown r) <= correctness (p_breakdown r')
  /\ code_quality (p_breakdown r) <= code_quality (p_breakdown r')
  /\ resilience (p_breakdown r) <= resilience (p_breakdown r')
  /\ documentation (p_breakdown r) <= documentation (p_breakdown r')
  /\ creativity (p_breakdown r) <= creativity (p_breakdown r')
  /\ geb (overallScore r') (overallScore r) = true.
Proof.
  destruct (project_score_value _ _ _ Hreturn) as (n & Hn & Hrange & Hnear).
  destruct (project_score_value _ _ _ Hpadded) as (n' & Hn' & Hrange' & Hnear').
  apply evaluateProject_inv in Hreturn as (ctx & Hctx & Hc & Hq & Hr & Hd & Hk & Hscore).
  apply evaluateProject_inv in Hpadded as (ctx' & Hctx' & Hc' & Hq' & Hr' & Hd' & Hk' & Hscore').
  rewrite Hctx in Hctx'. injection Hctx' as <-.
  pose proof (scoreCorrectnessWithRAG_padded (VectorDB.technicalRequirements ctx)) as Mc.
  pose proof scoreCodeQuality_padded as Mq.
  pose proof (scoreResilienceWithRAG_padded (VectorDB.technicalRequirements ctx)) as Mr.
  pose proof scoreDocumentation_padded as Md.
  pose proof scoreCreativity_padded as Mk.
  rewrite <- Hc, <- Hc' in Mc. rewrite <- Hq, <- Hq' in Mq. rewrite <- Hr, <- Hr' in Mr.
  rewrite <- Hd, <- Hd' in Md. rewrite <- Hk, <- Hk' in Mk.
  repeat (split; [assumption|]).
  destruct (Z.eq_dec (30 * correctness (p_breakdown r) + 25 * code_quality (p_breakdown r)
                      + 20 * resilience (p_breakdown r) + 15 * documentation (p_breakdown r)
                      + 10 * creativity (p_breakdown r))
                     (30 * correctness (p_breakdown r') + 25 * code_quality (p_breakdown r')
                      + 20 * resilience (p_breakdown r') + 15 * documentation (p_breakdown r')
                      + 10 * creativity (p_breakdown r'))) as [Heq|Hneq].
  - assert (E : overallScore r' = overallScore r).
    { rewrite Hscore, Hscore'.
      replace (correctness (p_breakdown r')) with (correctness (p_breakdown r)) by lia.
      replace (code_quality (p_breakdown r')) with (code_quality (p_breakdown r)) by lia.
      replace (resilience (p_breakdown r')) with (resilience (p_breakdown r)) by lia.
      replace (documentation (p_breakdown r')) with (documentation (p_breakdown r)) by lia.
      replace (creativity (p_breakdown r')) with (creativity (p_breakdown r)) by lia.
      reflexivity. }
    rewrite E, Hn. apply tenths_order; lia.
  - rewrite Hn, Hn'. apply tenths_order; lia.
Qed.

End Padding.

Lemma project_score_padding_witness :
  exists r r',
    AIService.evaluateProject two_docs "An LLM chain with retry" = Return r
    /\ AIService.evaluateProject two_docs
         ("Intro. " +:+ "An LLM chain with retry" +:+ " RAG, README and a fallback.")
       = Return r'
    /\ AIService.correctness (AIService.p_breakdown r)
       <= AIService.correctness (AIService.p_breakdown r')
    /\ AIService.code_quality (AIService.p_breakdown r)
       <= AIService.code_quality (AIService.p_breakdown r')
    /\ AIService.resilience (AIService.p_breakdown r)
       <= AIService.resilience (AIService.p_breakdown r')
    /\ AIService.documentation (AIService.p_breakdown r)
       <= AIService.documentation (AIService.p_breakdown r')
    /\ AIService.creativity (AIService.p_breakdown r)
       <= AIService.creativity (AIService.p_breakdown r')
    /\ Num.geb (AIService.overallScore r') (AIService.overallScore r) = true.
Proof.
  eexists _, _. split; [vm_compute; reflexivity|]. split; [vm_compute; reflexivity|].
  apply (project_score_padding "Intro. " "An LLM chain with retry"
           " RAG, README and a fallback." two_docs); vm_compute; reflexivity.
Defined.

Section Heuristics.
Import Num AIService.


Lemma digits_nonneg (s : string) (value : Z) (count : nat) :
  0 <= value -> 0 <= fst (fst (digits s value count)).
Proof.
  revert value count. induction s as [|c s IH]; intros value count Hv; simpl; [exact Hv|].
  destruct (is_digit c); [|exact Hv].
  apply IH. unfold digit_value. lia.
Qed.

Lemma match_years_at_nonneg (s : string) (value : Z) (len : nat) :
  match_years_at s = Some (value, len) -> 0 <= value.
Proof.
  unfold match_years_at. pose proof (digits_nonneg s 0 0 (Z.le_refl 0)) as H.
  destruct (digits s 0 0) as [[v nd] rest]. simpl in H.
  destruct (nd =? 0)%nat; [discriminate|].
  destruct (spaces rest 0) as [nw rest'].
  destruct (unit_length rest'); [|discriminate].
  intros E. injection E as <- _. exact H.
Qed.

Lemma scan_years_nonneg (s : string) (skip : nat) :
  Forall (fun y => 0 <= y) (scan_years s skip).
Proof.
  revert skip. induction s as [|c s IH]; intros skip; cbn [scan_years]; [constructor|].
  destruct skip; [|apply IH].
  destruct (match_years_at (String c s)) as [[value len]|] eqn:E; [|apply IH].
  constructor; [eapply match_years_at_nonneg; eauto | apply IH].
Qed.

(** *** Numbers that are not negative *)

Lemma positive_or_zero_geb (x : number) : positive_or_zero x <-> geb x (of_Z 0) = true.
Proof.
  destruct x as [s|s| |s m e]; simpl; try destruct s; cbn; intuition congruence.
Qed.

Lemma shr_1_nonneg (mrs : shr_record) : 0 <= shr_m mrs -> 0 <= shr_m (shr_1 mrs).
Proof.
  destruct mrs as [m r s]. simpl. destruct m as [|[p|p|]|p]; simpl; lia.
Qed.

Lemma iter_shr_1_nonneg (p : positive) (mrs : shr_record) :
  0 <= shr_m mrs -> 0 <= shr_m (SpecFloat.iter_pos shr_1 p mrs).
Proof.
  revert mrs. induction p as [p IH|p IH|]; intros mrs H; simpl.
  - apply shr_1_nonneg in H. auto.
  - auto.
  - now apply shr_1_nonneg.
Qed.

Lemma shr_fexp_nonneg (m e : Z) (l : location) :
  0 <= m -> 0 <= shr_m (fst (shr_fexp prec emax m e l)).
Proof.
  intros Hm. unfold shr_fexp, shr.
  assert (H : 0 <= shr_m (shr_record_of_loc m l)) by (destruct l as [|[]]; exact Hm).
  destruct (fexp prec emax (Zdigits2 m + e) - e); simpl; trivial.
  now apply iter_shr_1_nonneg.
Qed.

Lemma round_nearest_even_nonneg (m : Z) (l : location) :
  0 <= m -> 0 <= round_nearest_even m l.
Proof.
  intros Hm. destruct l as [|[]]; simpl; try lia. destruct (Z.even m); lia.
Qed.

Lemma binary_round_aux_positive (m e : Z) (l : location) :
  0 <= m -> positive_or_zero (binary_round_aux prec emax false m e l).
Proof.
  intros Hm. unfold binary_round_aux.
  pose proof (shr_fexp_nonneg m e l Hm) as H1.
  destruct (shr_fexp prec emax m e l) as [mrs' e']. simpl in H1.
  pose proof (shr_fexp_nonneg _ e' loc_Exact
                (round_nearest_even_nonneg _ (loc_of_shr_record mrs') H1)) as H2.
  destruct (shr_fexp prec emax (round_nearest_even (shr_m mrs') (loc_of_shr_record mrs'))
              e' loc_Exact) as [mrs'' e'']. simpl in H2.
  destruct (shr_m mrs'') as [|p|p]; [exact I | | lia].
  destruct (e'' <=? emax - prec); reflexivity.
Qed.

(** [parseInt] of a run of digits is zero, positive or Infinity. *)
Lemma of_Z_positive (n : Z) : 0 <= n -> positive_or_zero (of_Z n).
Proof.
  intros Hn. unfold of_Z, binary_normalize. destruct n as [|p|p]; [exact I | | lia].
  unfold binary_round.
  destruct (shl_align p 0 (fexp prec emax (Z.pos (digits2_pos p) + 0))) as [mz ez].
  apply binary_round_aux_positive. lia.
Qed.

Lemma max2_positive (x y : number) :
  positive_or_zero x -> positive_or_zero y -> positive_or_zero (max2 x y).
Proof.
  intros Hx Hy. unfold max2.
  destruct x as [sx|sx| |sx mx ex]; try contradiction;
    destruct y as [sy|sy| |sy my ey]; try contradiction;
    simpl in Hx, Hy; subst; simpl;
    repeat match goal with
           | |- context [match ?c with _ => _ end] => destruct c
           end; simpl; auto.
Qed.

Lemma max2_infinity (y : number) : positive_or_zero y -> max2 (S754_infinity true) y = y.
Proof. destruct y as [s|s| |s m e]; simpl; intros H; subst; try contradiction; reflexivity. Qed.

Lemma fold_max2_positive (values : list number) (x : number) :
  positive_or_zero x -> Forall positive_or_zero values ->
  positive_or_zero (fold_left max2 values x).
Proof.
  intros Hx H. revert x Hx. induction H as [|y l Hy Hl IH]; intros x Hx; simpl; [exact Hx|].
  apply IH. now apply max2_positive.
Qed.

Lemma Math_max_positive (values : list number) :
  values <> [] -> Forall positive_or_zero values -> positive_or_zero (Math_max values).
Proof.
  intros Hne H. unfold Math_max. destruct H as [|y l Hy Hl]; [contradiction|].
  cbn [fold_left]. rewrite (max2_infinity y Hy). now apply fold_max2_positive.
Qed.

(** [x >= k] for a positive integer [k] whose double has the mantissa
    [mk] and the exponent [ek]. *)
Lemma geb_at (x : number) (k : Z) (mk : positive) (ek : Z) :
  of_Z k = S754_finite false mk ek ->
  geb x (of_Z k)
  = match x with
    | S754_infinity s => negb s
    | S754_finite false m e => (ek <? e) || ((ek =? e) && (mk <=? m)%positive)
    | _ => false
    end.
Proof.
  intros ->. unfold geb, SFleb, SFcompare.
  destruct x as [s|s| |s m e]; try reflexivity.
  - destruct s; reflexivity.
  - destruct s; [reflexivity|].
    rewrite Pos.compare_cont_spec. cbn [Pos.switch_Eq].
    destruct (Z.compare_spec ek e) as [He|He|He].
    + subst. rewrite Z.ltb_irrefl, Z.eqb_refl. cbn [orb andb].
      unfold Pos.leb. destruct (mk ?= m)%positive; reflexivity.
    + apply Z.ltb_lt in He. rewrite He. reflexivity.
    + assert (H1 : (ek <? e) = false) by (apply Z.ltb_ge; lia).
      assert (H2 : (ek =? e) = false) by (apply Z.eqb_neq; lia).
      rewrite H1, H2. reflexivity.
Qed.

(** The thresholds of [scoreExperience] are tested in descending order,
    and a number that passes one passes the lower ones, whatever the
    number is. *)
Lemma geb_thresholds (x : number) :
  (geb x (of_Z 5) = true -> geb x (of_Z 3) = true)
  /\ (geb x (of_Z 3) = true -> geb x (of_Z 2) = true)
  /\ (geb x (of_Z 2) = true -> geb x (of_Z 1) = true).
Proof.
  rewrite (geb_at x 5 5629499534213120 (-50) eq_refl),
    (geb_at x 3 6755399441055744 (-51) eq_refl),
    (geb_at x 2 4503599627370496 (-51) eq_refl),
    (geb_at x 1 4503599627370496 (-52) eq_refl).
  destruct x as [s|s| |[] m e]; try (repeat split; intros H; exact H).
  rewrite !orb_true_iff, !andb_true_iff, !Z.ltb_lt, !Z.eqb_eq, !Pos.leb_le.
  repeat split; lia.
Qed.

(** The case analysis on the four tests of [scoreExperience]. *)
Lemma geb_cases (x : number) :
  let t5 := geb x (of_Z 5) in let t3 := geb x (of_Z 3) in
  let t2 := geb x (of_Z 2) in let t1 := geb x (of_Z 1) in
  (t5 = true /\ t3 = true /\ t2 = true /\ t1 = true)
  \/ (t5 = false /\ t3 = true /\ t2 = true /\ t1 = true)
  \/ (t5 = false /\ t3 = false /\ t2 = true /\ t1 = true)
  \/ (t5 = false /\ t3 = false /\ t2 = false /\ t1 = true)
  \/ (t5 = false /\ t3 = false /\ t2 = false /\ t1 = false).
Proof.
  cbv zeta. destruct (geb_thresholds x) as (H53 & H32 & H21).
  destruct (geb x (of_Z 5)), (geb x (of_Z 3)), (geb x (of_Z 2)), (geb x (of_Z 1));
    try (specialize (H53 eq_refl)); try (specialize (H32 eq_refl));
    try (specialize (H21 eq_refl)); try discriminate; tauto.
Qed.

Lemma scan_years_no_digit (s : string) :
  no_digit s -> scan_years s 0 = [].
Proof.
  unfold no_digit. induction s as [|c s IH]; [reflexivity|].
  simpl list_ascii_of_string. intros H. inversion H as [|? ? Hc Hs]; subst.
  cbn [scan_years]. unfold match_years_at. cbn [digits]. rewrite Hc. simpl.
  now apply IH.
Qed.

Lemma parseInt_positive (s : string) (skip : nat) :
  Forall positive_or_zero (map parseInt (scan_years s skip)).
Proof.
  apply Forall_map. eapply List.Forall_impl; [|apply scan_years_nonneg].
  intros y Hy. now apply of_Z_positive.
Qed.

(** [extractExperience] returns unless the spread call takes more matches
    than a call takes arguments, and [extractCVInfo] with it. *)
Lemma extractExperience_outcome (max_arguments : nat) (text : string) :
  if (year_mentions text <=? max_arguments)%nat
  then exists years,
         extractExperience max_arguments text = Return years /\ positive_or_zero years
  else extractExperience max_arguments text = Throw "Maximum call stack size exceeded".
Proof.
  unfold extractExperience, year_mentions.
  pose proof (parseInt_positive text 0) as H.
  destruct (scan_years text 0) as [|y years].
  - cbn [length Nat.leb]. eexists. split; [reflexivity|].
    destruct (200 <? _)%nat; [reflexivity|]. destruct (100 <? _)%nat; reflexivity.
  - cbv zeta. unfold spread. rewrite length_map.
    destruct (length (y :: years) <=? max_arguments)%nat; [|reflexivity].
    eexists. split; [reflexivity|].
    apply Math_max_positive; [discriminate | exact H].
Qed.

Lemma extractCVInfo_outcome (max_arguments : nat) (cvText : string) :
  if (year_mentions cvText <=? max_arguments)%nat
  then exists years,
         extractExperience max_arguments cvText = Return years
         /\ extractCVInfo max_arguments cvText
            = Return {| skills := extractSkills cvText;
                        experience_years := years;
                        projects := extractProjects cvText;
                        achievements := extractAchievements cvText;
                        education := extractEducation cvText;
                        communication_indicators := extractCommunication cvText |}
  else extractCVInfo max_arguments cvText = Throw "Maximum call stack size exceeded".
Proof.
  pose proof (extractExperience_outcome max_arguments cvText) as H.
  unfold extractCVInfo. cbv zeta.
  destruct (year_mentions cvText <=? max_arguments)%nat.
  - destruct H as (years & -> & _). eexists. split; reflexivity.
  - rewrite H. reflexivity.
Qed.

(** X14: [extractExperience] returns unless the text holds more matches of
    the years pattern than a call takes arguments; then the spread call
    of [Math.max] throws its RangeError.  A value it returns is zero,
    positive or Infinity, never negative and never NaN, and for a text
    without any digit it is the default read off the length of the text:
    3 above 200 characters, 2 above 100, else 1. *)
Theorem extractExperience_default (max_arguments : nat) (text : string) :
  (if (year_mentions text <=? max_arguments)%nat
   then exists years,
          extractExperience max_arguments text = Return years
          /\ geb years (of_Z 0) = true
   else extractExperience max_arguments text = Throw "Maximum call stack size exceeded")
  /\ (no_digit text ->
      extractExperience max_arguments text
      = Return (if (200 <? String.length text)%nat then of_Z 3
                else if (100 <? String.length text)%nat then of_Z 2 else of_Z 1)).
Proof.
  split.
  - pose proof (extractExperience_outcome max_arguments text) as H.
    destruct (year_mentions text <=? max_arguments)%nat; [|exact H].
    destruct H as (years & E & H). exists years. split; [exact E|].
    now apply positive_or_zero_geb.
  - intros H. unfold extractExperience. now rewrite scan_years_no_digit.
Qed.

(** X15: the experience score with context is the base score of
    [scoreExperience] plus a bonus of at most 2 (the bonus 1.5 rounds up),
    capped at 5; below one year there is no bonus and the score is 1, and
    from five years on it is 5. *)
Theorem scoreExperienceWithRAG_bonus (years : number)
    (experienceRequirements : list string) :
  scoreExperience years <= scoreExperienceWithRAG years experienceRequirements
  /\ scoreExperienceWithRAG years experienceRequirements
     <= Z.min 5 (scoreExperience years + 2)
  /\ (geb years (of_Z 1) = false ->
      scoreExperienceWithRAG years experienceRequirements = 1)
  /\ (geb years (of_Z 5) = true ->
      scoreExperienceWithRAG years experienceRequirements = 5).
Proof.
  unfold scoreExperienceWithRAG, scoreExperience. cbv zeta.
  generalize (includes (toLowerCase (join " " experienceRequirements)) "distributed"
              || includes (toLowerCase (join " " experienceRequirements)) "microservices").
  generalize (includes (toLowerCase (join " " experienceRequirements)) "ai"
              || includes (toLowerCase (join " " experienceRequirements)) "llm").
  intros hasAI hasDistributed.
  destruct (geb_cases years) as [H|[H|[H|[H|H]]]]; cbv zeta in H;
    destruct H as (H5 & H3 & H2 & H1); rewrite ?H5, ?H3, ?H2, ?H1;
    destruct hasAI, hasDistributed; cbn [andb];
    match goal with
    | |- context [Math_round_Q ?q] =>
        let v := eval vm_compute in (Math_round_Q q) in change (Math_round_Q q) with v
    end; repeat split; try discriminate; try reflexivity; lia.
Qed.

Lemma includes_in_empty (keyword : string) : keyword <> "" -> includes "" keyword = false.
Proof. destruct keyword; [contradiction | reflexivity]. Qed.

Lemma count_matching_nothing (keywords skills : list string) :
  Forall (fun keyword => keyword <> "") keywords ->
  count_matching keywords "" skills = 0%nat.
Proof.
  intros Hk. unfold count_matching.
  replace (List.filter _ skills) with (@nil string); [reflexivity|].
  symmetry. induction skills as [|skill skills IH]; [reflexivity|].
  cbn [List.filter].
  replace (existsb _ keywords) with false; [exact IH|].
  symmetry. clear IH. induction Hk as [|k l Hk Hl IH]; [reflexivity|].
  cbn [existsb]. now rewrite (includes_in_empty k Hk), andb_false_r, IH.
Qed.

(** X12: when no line of the text contains the section name,
    [extractBulletPoints] returns the empty list and [extractScoringDetails]
    the sentence 'Standard evaluation criteria apply'; a requirements text
    without the skills section then gives every CV the technical score 1,
    and one without the experience section leaves the experience score
    without bonus. *)
Theorem missing_section_defaults (text : string) :
  (forall sectionName,
     Forall (fun l => includes l sectionName = false) (split_char LF text) ->
     VectorDB.extractBulletPoints text sectionName = []
     /\ VectorDB.extractScoringDetails text sectionName
        = "Standard evaluation criteria apply")
  /\ (Forall (fun l => includes l "Required Technical Skills" = false)
             (split_char LF text) ->
      forall skills,
        scoreTechnicalSkillsWithRAG skills
          (VectorDB.jc_skills (VectorDB.extractJobContext text)) = 1)
  /\ (Forall (fun l => includes l "Experience Requirements" = false)
             (split_char LF text) ->
      forall years,
        scoreExperienceWithRAG years
          (VectorDB.jc_experience (VectorDB.extractJobContext text))
        = scoreExperience years).
Proof.
  split; [intros sectionName; apply missing_section|]. split.
  - intros Habsent skills. cbn [VectorDB.extractJobContext VectorDB.jc_skills].
    rewrite (proj1 (missing_section _ _ Habsent)).
    unfold scoreTechnicalSkillsWithRAG. cbv zeta.
    change (toLowerCase (join " " [])) with "".
    rewrite !count_matching_nothing; [reflexivity | | |];
      repeat constructor; discriminate.
  - intros Habsent years. cbn [VectorDB.extractJobContext VectorDB.jc_experience].
    rewrite (proj1 (missing_section _ _ Habsent)).
    unfold scoreExperienceWithRAG, scoreExperience. cbv zeta.
    change (toLowerCase (join " " [])) with "".
    cbn [includes startsWith orb]. rewrite !andb_false_r.
    destruct (geb years (of_Z 5)), (geb years (of_Z 3)), (geb years (of_Z 2)),
      (geb years (of_Z 1)); reflexivity.
Qed.

Lemma threshold_rank (z n : Z) :
  recommendation_rank (threshold_recommendation z n)
  = (if (60 <=? z) && (30 <=? n) then 1 else 0)
    + (if (70 <=? z) && (35 <=? n) then 1 else 0)
    + (if (80 <=? z) && (40 <=? n) then 1 else 0).
Proof.
  unfold threshold_recommendation.
  destruct (80 <=? z) eqn:A1, (40 <=? n) eqn:B1, (70 <=? z) eqn:A2, (35 <=? n) eqn:B2,
    (60 <=? z) eqn:A3, (30 <=? n) eqn:B3;
    rewrite ?Z.leb_le, ?Z.leb_gt in *; try lia; reflexivity.
Qed.

Lemma met_monotone (a b z z' n n' : Z) :
  z <= z' -> n <= n' ->
  (if (a <=? z) && (b <=? n) then 1 else 0) <= (if (a <=? z') && (b <=? n') then 1 else 0).
Proof.
  intros Hz Hn.
  destruct (a <=? z) eqn:A1, (b <=? n) eqn:B1, (a <=? z') eqn:A2, (b <=? n') eqn:B2;
    rewrite ?Z.leb_le, ?Z.leb_gt in *; simpl; lia.
Qed.

(** X18: raising the CV score or the project score never leads to a weaker
    recommendation. *)
Theorem recommendation_monotone (z z' n n' : Z)
    (Hz : 0 <= z <= z') (Hz' : z' <= 100) (Hn : 10 <= n <= n') (Hn' : n' <= 50) :
  recommendation_rank (recommendation (of_Z z) (div (of_Z n) (of_Z 10)))
  <= recommendation_rank (recommendation (of_Z z') (div (of_Z n') (of_Z 10))).
Proof.
  pose proof recommendation_check_all as H.
  rewrite List.forallb_forall in H.
  pose proof (H z (in_percents z ltac:(lia))) as H1.
  pose proof (H z' (in_percents z' ltac:(lia))) as H2.
  rewrite List.forallb_forall in H1, H2.
  specialize (H1 n (in_tenths n ltac:(lia))). specialize (H2 n' (in_tenths n' ltac:(lia))).
  apply String.eqb_eq in H1, H2. rewrite H1, H2, !threshold_rank.
  pose proof (met_monotone 60 30 z z' n n' ltac:(lia) ltac:(lia)).
  pose proof (met_monotone 70 35 z z' n n' ltac:(lia) ltac:(lia)).
  pose proof (met_monotone 80 40 z z' n n' ltac:(lia) ltac:(lia)).
  lia.
Qed.

Lemma recommendation_monotone_witness :
  0 <= 65 <= 82 /\ 82 <= 100 /\ 10 <= 31 <= 44 /\ 44 <= 50
  /\ recommendation_rank (recommendation (of_Z 65) (div (of_Z 31) (of_Z 10)))
     <= recommendation_rank (recommendation (of_Z 82) (div (of_Z 44) (of_Z 10))).
Proof.
  split; [lia|]. split; [lia|]. split; [lia|]. split; [lia|].
  apply (recommendation_monotone 65 82 31 44); lia.
Defined.

End Heuristics.

Section BuiltIn.
Import Num AIService.

(** What the two context builders retrieve from the built-in documents,
    as far as the scores depend on it. *)
Lemma built_in_cv_context :
  exists ctx,
    VectorDB.getContextForCVEvaluation built_in = Return ctx
    /\ let reqText :=
         toLowerCase (join " " (VectorDB.jc_experience (VectorDB.jobContext ctx))) in
       includes reqText "distributed" || includes reqText "microservices" = true
       /\ includes reqText "ai" || includes reqText "llm" = true.
Proof.
  eexists. split; [vm_compute; reflexivity|]. vm_compute. split; reflexivity.
Qed.

Lemma built_in_project_context :
  exists ctx,
    VectorDB.getContextForProjectEvaluation built_in = Return ctx
    /\ let reqText := toLowerCase (join " " (VectorDB.technicalRequirements ctx)) in
       includes reqText "llm" = true /\ includes reqText "chaining" = true
       /\ includes reqText "rag" = true /\ includes reqText "vector" = true
       /\ includes reqText "error" = false
       /\ includes reqText "retry" = true /\ includes reqText "timeout" = false
       /\ includes reqText "failure" = true.
Proof.
  eexists. split; [vm_compute; reflexivity|]. vm_compute. repeat split; reflexivity.
Qed.

(** X19: on the built-in documents [evaluateCVMatch] returns for every CV,
    and the experience requirements it retrieves grant both bonuses: the
    experience score is 5 from two years on, 3 for one year and 1 below,
    never 2 or 4. *)
Theorem built_in_experience_level (cv : CVStructured) :
  exists r,
    evaluateCVMatch built_in cv = Return r
    /\ experience_level (breakdown r)
       = if geb (experience_years cv) (of_Z 2) then 5
         else if geb (experience_years cv) (of_Z 1) then 3 else 1.
Proof.
  destruct built_in_cv_context as (ctx & E & Hdistributed & HAI).
  unfold evaluateCVMatch. rewrite E. cbv beta iota delta [obind].
  eexists. split; [reflexivity|].
  cbn [experience_level breakdown].
  unfold scoreExperienceWithRAG, scoreExperience. cbv zeta.
  rewrite Hdistributed, HAI, !andb_true_r. clear.
  destruct (geb_cases (experience_years cv)) as [H|[H|[H|[H|H]]]]; cbv zeta in H;
    destruct H as (H5 & H3 & H2 & H1); rewrite ?H5, ?H3, ?H2, ?H1; reflexivity.
Qed.

(** X20: on the built-in documents [evaluateProject] returns for every
    report; correctness is 1 plus one point for each of llm, chain, rag and
    vector that the report mentions, and resilience is 1 plus one point
    for each of retry, error handling, resilience or robust, and fallback
    or recovery (whose half point rounds up): the retrieved responsibilities
    mention neither error nor timeout, so these two keywords earn nothing. *)
Theorem built_in_project_criteria (projectText : string) :
  exists r,
    evaluateProject built_in projectText = Return r
    /\ correctness (p_breakdown r)
       = 1 + mentions projectText "llm" + mentions projectText "chain"
         + mentions projectText "rag" + mentions projectText "vector"
    /\ resilience (p_breakdown r)
       = 1 + mentions projectText "retry" + mentions projectText "error handling"
         + Z.max (mentions projectText "resilience") (mentions projectText "robust")
         + Z.max (mentions projectText "fallback") (mentions projectText "recovery").
Proof.
  destruct built_in_project_context
    as (ctx & E & Hllm & Hchaining & Hrag & Hvector & Herror & Hretry & Htimeout & Hfailure).
  unfold evaluateProject. rewrite E. cbv beta iota delta [obind].
  eexists. split; [reflexivity|].
  cbn [correctness resilience p_breakdown].
  unfold scoreCorrectnessWithRAG, scoreResilienceWithRAG, mentions. cbv zeta.
  rewrite Hllm, Hchaining, Hrag, Hvector, Herror, Hretry, Htimeout, Hfailure.
  rewrite !andb_true_r, !andb_false_r. clear.
  split.
  - destruct (includes (toLowerCase projectText) "llm"),
      (includes (toLowerCase projectText) "chain"),
      (includes (toLowerCase projectText) "rag"),
      (includes (toLowerCase projectText) "vector"); reflexivity.
  - destruct (includes (toLowerCase projectText) "retry"),
      (includes (toLowerCase projectText) "error handling"),
      (includes (toLowerCase projectText) "resilience"),
      (includes (toLowerCase projectText) "robust"),
      (includes (toLowerCase projectText) "fallback"),
      (includes (toLowerCase projectText) "recovery"); reflexivity.
Qed.

End BuiltIn.

(** ** The skills that count on the built-in documents *)

Section BuiltInSkills.
Import Num AIService.

Lemma filter_filter_comm {A : Type} (p q : A -> bool) (l : list A) :
  List.filter p (List.filter q l) = List.filter q (List.filter p l).
Proof.
  induction l as [|x l IH]; [reflexivity|]. cbn [List.filter].
  destruct (q x) eqn:Eq, (p x) eqn:Ep; cbn [List.filter]; rewrite ?Eq, ?Ep, IH; reflexivity.
Qed.

Lemma filter_nil_sub {A : Type} (q : A -> bool) (l l' : list A) :
  List.filter q l = [] -> (forall x, In x l' -> In x l) -> List.filter q l' = [].
Proof.
  intros Hnil Hsub. destruct (List.filter q l') as [|x t] eqn:E; [reflexivity|].
  assert (Hx : In x (List.filter q l')) by (rewrite E; now left).
  apply filter_In in Hx as [Hx Hq].
  assert (Hin : In x (List.filter q l)) by (apply filter_In; auto).
  rewrite Hnil in Hin. destruct Hin.
Qed.

(** The skills of the keyword list that count in each group, for the
    requirements retrieved from the built-in documents. *)
Lemma built_in_skill_groups :
  exists ctx,
    VectorDB.getContextForCVEvaluation built_in = Return ctx
    /\ let requiredSkills :=
         toLowerCase (join " " (VectorDB.jc_skills (VectorDB.jobContext ctx))) in
       List.filter (skill_counts
                      ["node.js"; "nodejs"; "express"; "postgresql"; "mongodb"; "api";
                       "javascript"; "python"] requiredSkills) skillKeywords
       = ["node.js"; "javascript"; "python"; "express"; "postgresql"; "mongodb"; "api"]
       /\ List.filter (skill_counts ["ai"; "llm"; "machine learning"; "vector"; "embeddings"]
                                    requiredSkills) skillKeywords
          = ["ai"; "llm"]
       /\ List.filter (skill_counts ["aws"; "azure"; "gcp"; "docker"; "kubernetes"]
                                    requiredSkills) skillKeywords
          = ["aws"; "docker"; "kubernetes"].
Proof.
  eexists. split; [vm_compute; reflexivity|]. vm_compute. repeat split; reflexivity.
Qed.

Lemma count_matching_extractSkills (keywords : list string) (requiredSkills text : string)
    (counted : list string) :
  List.filter (skill_counts keywords requiredSkills) skillKeywords = counted ->
  skill_counts keywords requiredSkills "General programming" = false ->
  count_matching keywords requiredSkills (extractSkills text) = mentioned text counted.
Proof.
  intros Hcounted Hdefault. unfold extractSkills. cbv zeta.
  change [ "node.js"; "nodejs"; "javascript"; "python"; "java"; "express"; "react";
           "postgresql"; "mysql"; "mongodb"; "redis"; "aws"; "docker"; "kubernetes";
           "rest"; "api"; "graphql"; "microservices"; "ai"; "llm"; "machine learning" ]
    with skillKeywords.
  set (Q := fun skill => includes (toLowerCase text) skill).
  unfold mentioned. fold Q. unfold count_matching. fold (skill_counts keywords requiredSkills).
  destruct (List.filter Q skillKeywords) as [|s l] eqn:E.
  - cbn [length Nat.ltb Nat.leb List.filter]. rewrite Hdefault. cbn [length].
    rewrite (filter_nil_sub Q skillKeywords counted E); [reflexivity|].
    intros x Hx. rewrite <- Hcounted in Hx.
    exact (proj1 (proj1 (filter_In _ _ _) Hx)).
  - cbn [length Nat.ltb Nat.leb]. rewrite <- E, <- Hcounted.
    now rewrite filter_filter_comm.
Qed.

(** X30: on the built-in documents the technical score of a CV text is read
    off three counts of keywords it contains: node.js, javascript, python,
    express, postgresql, mongodb and api for the backend, ai and llm, and
    aws, docker and kubernetes; the other keywords [extractSkills] finds
    (nodejs, java, react, mysql, redis, rest, graphql, microservices,
    machine learning) earn nothing.  This holds for every CV text that
    [extractCVInfo] structures, which is every text with no more year
    figures than a call takes arguments; on the others [extractCVInfo]
    throws. *)
Theorem built_in_technical_skills (max_arguments : nat) (cvText : string) :
  if (year_mentions cvText <=? max_arguments)%nat
  then
  exists cv r,
    extractCVInfo max_arguments cvText = Return cv
    /\ evaluateCVMatch built_in cv = Return r
    /\ technical_skills (breakdown r)
       = let backendMatch :=
           mentioned cvText ["node.js"; "javascript"; "python"; "express"; "postgresql";
                             "mongodb"; "api"] in
         let aiMatch := mentioned cvText ["ai"; "llm"] in
         let cloudMatch := mentioned cvText ["aws"; "docker"; "kubernetes"] in
         if ((3 <=? backendMatch) && (1 <=? aiMatch) && (1 <=? cloudMatch))%nat then 5
         else if ((2 <=? backendMatch) && (1 <=? aiMatch))%nat then 4
         else if (2 <=? backendMatch)%nat then 3
         else if (1 <=? backendMatch)%nat then 2
         else 1
  else extractCVInfo max_arguments cvText = Throw "Maximum call stack size exceeded".
Proof.
  pose proof (extractCVInfo_outcome max_arguments cvText) as Hinfo.
  destruct (year_mentions cvText <=? max_arguments)%nat; [|exact Hinfo].
  destruct Hinfo as (years & _ & Hinfo).
  destruct built_in_skill_groups as (ctx & E & Hbackend & HAI & Hcloud).
  eexists _, _. split; [exact Hinfo|].
  unfold evaluateCVMatch. rewrite E. cbv beta iota delta [obind].
  split; [reflexivity|].
  cbn [technical_skills breakdown skills].
  unfold scoreTechnicalSkillsWithRAG. cbv zeta.
  rewrite (count_matching_extractSkills _ _ cvText _ Hbackend eq_refl).
  rewrite (count_matching_extractSkills _ _ cvText _ HAI eq_refl).
  rewrite (count_matching_extractSkills _ _ cvText _ Hcloud eq_refl).
  reflexivity.
Qed.

End BuiltInSkills.

(** ** The retrying call and the mock mode *)

Section RetryBounds.
Import Num ProductionAIService.
Local Arguments attempts_from : simpl never.

Lemma callOpenAI_live_success (cfg : RetryConfig) (api : Z -> api_reply) (attempt : Z) :
  forall (k : Z) (content : string),
    attempt <= k ->
    (forall a, attempt <= a < k -> exists e, attempt_outcome (api a) = Throw e) ->
    attempt_outcome (api k) = Return content ->
    k = attempt \/ k <= maxRetries cfg ->
    callOpenAI_live cfg api attempt
    = (Return content,
       map (backoff_delay cfg) (attempts_from attempt (Z.to_nat (k - attempt)))).
Proof.
  funelim (callOpenAI_live cfg api attempt); intros k content0 Hk Hfail Hok Hretries.
  - assert (k = attempt) as ->.
    { destruct (Z.eq_dec k attempt) as [|Hne]; [assumption|].
      destruct (Hfail attempt ltac:(lia)) as [e He]. congruence. }
    replace (Z.to_nat (attempt - attempt)) with 0%nat by lia.
    rewrite Heq in Hok. injection Hok as ->. reflexivity.
  - assert (attempt < k).
    { destruct (Z.eq_dec k attempt) as [->|Hne]; [congruence | lia]. }
    rewrite (H k content0); try assumption; try lia.
    + replace (Z.to_nat (k - attempt)) with (S (Z.to_nat (k - (attempt + 1)))) by lia.
      rewrite attempts_from_cons. reflexivity.
    + intros a Ha. apply Hfail. lia.
  - exfalso. destruct (Z.eq_dec k attempt) as [->|Hne]; [congruence | lia].
Qed.

(** X21: when the attempts before the [k]-th fail and the [k]-th returns a
    content, with [k] the first attempt or at most maxRetries, [callOpenAI]
    returns that content after sleeping the backoff delays of the attempts
    1 to k - 1, in order. *)
Theorem callOpenAI_first_success (service : Service) (api : Z -> api_reply)
    (prompt : string) (k : Z) (content : string)
    (Hlive : useMockResponses service = false)
    (Hk : 1 <= k)
    (Hfailed : forall a, 1 <= a < k -> exists e, attempt_outcome (api a) = Throw e)
    (Hsuccess : attempt_outcome (api k) = Return content)
    (Hretries : k = 1 \/ k <= maxRetries (config service)) :
  callOpenAI service api prompt 1
  = (Return content,
     map (backoff_delay (config service)) (attempts_from 1 (Z.to_nat (k - 1)))).
Proof.
  unfold callOpenAI. rewrite Hlive. now apply callOpenAI_live_success.
Qed.

Lemma callOpenAI_first_success_witness :
  useMockResponses live_service = false
  /\ 1 <= 3
  /\ (forall a, 1 <= a < 3 ->
        exists e, attempt_outcome (failing_then 2 "{}" a) = Throw e)
  /\ attempt_outcome (failing_then 2 "{}" 3) = Return "{}"
  /\ callOpenAI live_service (failing_then 2 "{}") "prompt" 1
     = (Return "{}",
        map (backoff_delay (config live_service)) (attempts_from 1 (Z.to_nat (3 - 1)))).
Proof.
  assert (Hfailed : forall a, 1 <= a < 3 ->
                      exists e, attempt_outcome (failing_then 2 "{}" a) = Throw e).
  { intros a Ha. unfold failing_then.
    destruct (a <=? 2) eqn:E; [eexists; reflexivity|]. apply Z.leb_gt in E. lia. }
  split; [reflexivity|]. split; [lia|]. split; [exact Hfailed|]. split; [reflexivity|].
  apply (callOpenAI_first_success live_service (failing_then 2 "{}") "prompt" 3 "{}");
    [reflexivity | lia | exact Hfailed | reflexivity | right; vm_compute; discriminate].
Defined.

Lemma backoff_delay_bounds (cfg : RetryConfig) (a : Z) :
  0 <= baseDelay cfg -> 0 <= maxDelay cfg ->
  0 <= backoff_delay cfg a <= maxDelay cfg.
Proof.
  intros Hb Hm. unfold backoff_delay.
  assert (0 <= 2 ^ (a - 1)) by (apply Z.pow_nonneg; lia).
  assert (0 <= baseDelay cfg * 2 ^ (a - 1)) by (apply Z.mul_nonneg_nonneg; lia).
  lia.
Qed.

Lemma backoff_delay_step (cfg : RetryConfig) (a : Z) :
  0 <= baseDelay cfg -> 0 <= maxDelay cfg -> 1 <= a ->
  backoff_delay cfg a <= backoff_delay cfg (a + 1) <= 2 * backoff_delay cfg a.
Proof.
  intros Hb Hm Ha. unfold backoff_delay.
  replace (a + 1 - 1) with (Z.succ (a - 1)) by lia.
  rewrite Z.pow_succ_r by lia.
  assert (0 <= 2 ^ (a - 1)) by (apply Z.pow_nonneg; lia).
  assert (0 <= baseDelay cfg * 2 ^ (a - 1)) by (apply Z.mul_nonneg_nonneg; lia).
  lia.
Qed.

Lemma backoff_delay_monotone (cfg : RetryConfig) (a b : Z) :
  0 <= baseDelay cfg -> 0 <= maxDelay cfg -> 1 <= a <= b ->
  backoff_delay cfg a <= backoff_delay cfg b.
Proof.
  intros Hb Hm [Ha Hab].
  replace b with (a + Z.of_nat (Z.to_nat (b - a))) by lia.
  generalize (Z.to_nat (b - a)) as n. induction n as [|n IH]; [rewrite Z.add_0_r; lia|].
  replace (a + Z.of_nat (S n)) with (a + Z.of_nat n + 1) by lia.
  pose proof (backoff_delay_step cfg (a + Z.of_nat n) Hb Hm ltac:(lia)). lia.
Qed.

Lemma attempts_from_length (a : Z) (n : nat) : length (attempts_from a n) = n.
Proof. unfold attempts_from. now rewrite length_map, length_seq. Qed.

Lemma attempts_from_In (a : Z) (n : nat) (k : Z) :
  In k (attempts_from a n) <-> a <= k < a + Z.of_nat n.
Proof.
  unfold attempts_from. rewrite in_map_iff. split.
  - intros [i [<- Hi]]. apply in_seq in Hi. lia.
  - intros H. exists (Z.to_nat (k - a)). split; [lia|]. apply in_seq. lia.
Qed.

Lemma delays_sorted (cfg : RetryConfig) (a : Z) (n : nat) :
  0 <= baseDelay cfg -> 0 <= maxDelay cfg -> 1 <= a ->
  StronglySorted Z.le (map (backoff_delay cfg) (attempts_from a n)).
Proof.
  intros Hb Hm. revert a. induction n as [|n IH]; intros a Ha; [constructor|].
  rewrite attempts_from_cons. cbn [map]. constructor; [apply IH; lia|].
  apply List.Forall_forall. intros d Hd. apply in_map_iff in Hd as [k [<- Hk]].
  apply attempts_from_In in Hk. apply backoff_delay_monotone; lia.
Qed.

Lemma sumZ_bound (l : list Z) (hi : Z) :
  Forall (fun d => 0 <= d <= hi) l -> 0 <= sumZ l <= Z.of_nat (length l) * hi.
Proof.
  induction 1 as [|d l Hd Hl IH]; unfold sumZ in *; cbn [fold_right length]; [lia|].
  rewrite Nat2Z.inj_succ. nia.
Qed.

(** X22: for a non-negative baseDelay and maxDelay, [callOpenAI] sleeps at most
    maxRetries - 1 times, each delay lies between 0 and maxDelay, the
    delays never decrease, and their sum is at most
    (maxRetries - 1) * maxDelay. *)
Theorem callOpenAI_delays (service : Service) (api : Z -> api_reply) (prompt : string)
    (Hbase : 0 <= baseDelay (config service)) (Hmax : 0 <= maxDelay (config service)) :
  let slept := snd (callOpenAI service api prompt 1) in
  Z.of_nat (length slept) <= Z.max 0 (maxRetries (config service) - 1)
  /\ Forall (fun delay => 0 <= delay <= maxDelay (config service)) slept
  /\ StronglySorted Z.le slept
  /\ 0 <= sumZ slept <= Z.max 0 (maxRetries (config service) - 1) * maxDelay (config service).
Proof.
  intros slept. subst slept. unfold callOpenAI.
  destruct (useMockResponses service).
  { cbn [snd length sumZ fold_right]. repeat split; try constructor; nia. }
  destruct (callOpenAI_live_slept (config service) api 1) as [Hslept Hbelow].
  set (slept := snd (callOpenAI_live (config service) api 1)) in *.
  assert (Hlen : Z.of_nat (length slept) <= Z.max 0 (maxRetries (config service) - 1)).
  { destruct (length slept) as [|n] eqn:E; [lia|].
    rewrite List.Forall_forall in Hbelow.
    specialize (Hbelow (1 + Z.of_nat n)).
    rewrite attempts_from_In in Hbelow. lia. }
  assert (Hall : Forall (fun delay => 0 <= delay <= maxDelay (config service)) slept).
  { rewrite Hslept. apply List.Forall_forall. intros d Hd.
    apply in_map_iff in Hd as [k [<- _]]. now apply backoff_delay_bounds. }
  split; [exact Hlen|]. split; [exact Hall|].
  split; [rewrite Hslept; apply delays_sorted; lia|].
  pose proof (sumZ_bound slept _ Hall). nia.
Qed.

Lemma callOpenAI_delays_witness :
  0 <= baseDelay (config live_service) /\ 0 <= maxDelay (config live_service)
  /\ let slept := snd (callOpenAI live_service (failing_then 2 "{}") "prompt" 1) in
     Z.of_nat (length slept) <= Z.max 0 (maxRetries (config live_service) - 1)
     /\ Forall (fun delay => 0 <= delay <= maxDelay (config live_service)) slept
     /\ StronglySorted Z.le slept
     /\ 0 <= sumZ slept
        <= Z.max 0 (maxRetries (config live_service) - 1) * maxDelay (config live_service).
Proof.
  split; [vm_compute; discriminate|]. split; [vm_compute; discriminate|].
  apply (callOpenAI_delays live_service (failing_then 2 "{}") "prompt");
    vm_compute; discriminate.
Defined.

End RetryBounds.

Section MockMode.
Import Num ProductionAIService.

Variable max_arguments : nat.
Variable service : Service.
Variable documents : list VectorDB.Document.
Variable api : string -> Z -> api_reply.
Variable JSONValue : Type.
Variable JSON_parse : string -> outcome JSONValue.
Variable log_cv_fields : JSONValue -> outcome unit.
Variable set_rag_context_used : JSONValue -> outcome JSONValue.
Variable field_text : JSONValue -> string -> string.
Variable Number_toString : number -> string.
Variable cvInfoPromptRest : string -> string.
Variable cvMatchPrompt : produced JSONValue FallbackCVInfo -> VectorDB.CVContext -> string.
Variable cvFeedbackPrompt :
  produced JSONValue FallbackCVInfo -> produced JSONValue FallbackMatch -> outcome string.
Variable projectPrompt : string -> string.
Variable projectFeedbackPrompt : produced JSONValue FallbackProjectScore -> outcome string.
Variable summaryPrompt :
  produced JSONValue FallbackMatch -> string -> produced JSONValue FallbackProjectScore
  -> string -> string.

Hypothesis Hmock : useMockResponses service = true.

Lemma call_mock (prompt : string) :
  call service api prompt = Return (generateMockResponse prompt).
Proof. unfold call, callOpenAI. now rewrite Hmock. Qed.

Lemma mock_response_cases (prompt : string) :
  generateMockResponse prompt
  = if includes prompt "Extract structured information" then mock_cv_json else mock_text.
Proof. unfold generateMockResponse. destruct (includes prompt _); reflexivity. Qed.

Lemma trim_mock_cv_json : trim mock_cv_json = mock_cv_json.
Proof. vm_compute. reflexivity. Qed.

Lemma trim_mock_text : trim mock_text = mock_text.
Proof. vm_compute. reflexivity. Qed.

(** X23: without an API key (mock mode) [callOpenAI] never calls the provider
    and never sleeps a retry delay: it returns the canned CV when the prompt
    contains 'Extract structured information' and 'Mock response for
    development' otherwise.  So [extractCVInfo], whose prompt starts with
    that phrase, returns the parsed canned CV whatever the CV text is.  The
    prompts of the two evaluations embed the CV fields and the project
    text: when the prompt contains the phrase the evaluation returns the
    parsed canned CV as its result, and when it does not and the mock text
    does not parse it returns its fallback.  The feedbacks and the summary
    are the canned reply to their prompt. *)
Theorem mock_mode_stages :
  (forall prompt attempt,
     callOpenAI service (api prompt) prompt attempt
     = (Return (if includes prompt "Extract structured information"
                then mock_cv_json else mock_text), []))
  /\ (forall cvText parsed,
        JSON_parse mock_cv_json = Return parsed ->
        log_cv_fields parsed = Return tt ->
        extractCVInfo max_arguments service api JSON_parse log_cv_fields cvInfoPromptRest
                      cvText
        = Return (FromModel parsed))
  /\ (forall cvStructured ctx,
        VectorDB.getContextForCVEvaluation documents = Return ctx ->
        let prompt := cvMatchPrompt cvStructured ctx in
        let evaluation :=
          evaluateCVMatch service documents api JSON_parse set_rag_context_used
                          cvMatchPrompt cvStructured in
        (includes prompt "Extract structured information" = true ->
         forall parsed parsed',
           JSON_parse mock_cv_json = Return parsed ->
           set_rag_context_used parsed = Return parsed' ->
           evaluation = Return (FromModel parsed'))
        /\ (includes prompt "Extract structured information" = false ->
            forall e, JSON_parse mock_text = Throw e ->
            evaluation = Return (FromFallback fallbackEvaluateCV)))
  /\ (forall projectText ctx,
        VectorDB.getContextForProjectEvaluation documents = Return ctx ->
        let prompt := projectPrompt projectText in
        let evaluation :=
          evaluateProject service documents api JSON_parse set_rag_context_used
                          projectPrompt projectText in
        (includes prompt "Extract structured information" = true ->
         forall parsed parsed',
           JSON_parse mock_cv_json = Return parsed ->
           set_rag_context_used parsed = Return parsed' ->
           evaluation = Return (FromModel parsed'))
        /\ (includes prompt "Extract structured information" = false ->
            forall e, JSON_parse mock_text = Throw e ->
            evaluation = Return (FromFallback fallbackEvaluateProject)))
  /\ (forall cvStructured matchResult prompt,
        cvFeedbackPrompt cvStructured matchResult = Return prompt ->
        generateCVFeedback service api field_text Number_toString cvFeedbackPrompt
                           cvStructured matchResult
        = Return (if includes prompt "Extract structured information"
                  then mock_cv_json else mock_text))
  /\ (forall projectScore prompt,
        projectFeedbackPrompt projectScore = Return prompt ->
        generateProjectFeedback service api field_text Number_toString
                                projectFeedbackPrompt projectScore
        = Return (if includes prompt "Extract structured information"
                  then mock_cv_json else mock_text))
  /\ (forall cvMatchRate cvFeedback projectScore projectFeedback,
        generateOverallSummary service api field_text Number_toString summaryPrompt
                               cvMatchRate cvFeedback projectScore projectFeedback
        = Return (if includes (summaryPrompt cvMatchRate cvFeedback projectScore
                                             projectFeedback)
                              "Extract structured information"
                  then mock_cv_json else mock_text)).
Proof.
  split; [|split; [|split; [|split; [|split; [|split]]]]].
  - intros prompt attempt. unfold callOpenAI. rewrite Hmock.
    now rewrite mock_response_cases.
  - intros cvText parsed Hparse Hlog. unfold extractCVInfo. cbv zeta.
    rewrite call_mock, mock_response_cases.
    assert (Hprompt : includes (cvInfoPrompt cvInfoPromptRest cvText)
                               "Extract structured information" = true).
    { exact (includes_within ""
               "You are an expert HR analyst. Extract structured information from this CV text and return ONLY valid JSON."
               (cvInfoPromptRest cvText) "Extract structured information" eq_refl). }
    rewrite Hprompt. cbv beta iota delta [obind try_catch].
    rewrite trim_mock_cv_json, Hparse, Hlog. reflexivity.
  - intros cvStructured ctx Hctx. cbv zeta. unfold evaluateCVMatch. rewrite Hctx.
    cbv beta iota zeta delta [obind]. rewrite call_mock, mock_response_cases.
    split; intros Hprompt; rewrite Hprompt.
    + intros parsed parsed' Hparse Hset. cbv beta iota delta [obind try_catch].
      rewrite trim_mock_cv_json, Hparse, Hset. reflexivity.
    + intros e Hparse. cbv beta iota delta [obind try_catch].
      rewrite trim_mock_text, Hparse. reflexivity.
  - intros projectText ctx Hctx. cbv zeta. unfold evaluateProject. rewrite Hctx.
    cbv beta iota zeta delta [obind]. rewrite call_mock, mock_response_cases.
    split; intros Hprompt; rewrite Hprompt.
    + intros parsed parsed' Hparse Hset. cbv beta iota delta [obind try_catch].
      rewrite trim_mock_cv_json, Hparse, Hset. reflexivity.
    + intros e Hparse. cbv beta iota delta [obind try_catch].
      rewrite trim_mock_text, Hparse. reflexivity.
  - intros cvStructured matchResult prompt Hprompt. unfold generateCVFeedback.
    rewrite Hprompt. cbv beta iota delta [obind].
    rewrite call_mock, mock_response_cases.
    destruct (includes prompt _); cbv beta iota delta [obind try_catch];
      now rewrite ?trim_mock_cv_json, ?trim_mock_text.
  - intros projectScore prompt Hprompt. unfold generateProjectFeedback.
    rewrite Hprompt. cbv beta iota delta [obind].
    rewrite call_mock, mock_response_cases.
    destruct (includes prompt _); cbv beta iota delta [obind try_catch];
      now rewrite ?trim_mock_cv_json, ?trim_mock_text.
  - intros cvMatchRate cvFeedback projectScore projectFeedback.
    unfold generateOverallSummary. cbv zeta.
    rewrite call_mock, mock_response_cases.
    destruct (includes _ _); cbv beta iota delta [obind try_catch];
      now rewrite ?trim_mock_cv_json, ?trim_mock_text.
Qed.

End MockMode.

Lemma mock_mode_stages_witness :
  ProductionAIService.useMockResponses mock_service = true
  /\ ProductionAIService.callOpenAI mock_service (sample_api "Summarise") "Summarise" 1
     = (Return mock_text, [])
  /\ ProductionAIService.extractCVInfo sample_max_arguments mock_service sample_api
       sample_parse sample_log sample_rest "5 years of Node.js"
     = Return (ProductionAIService.FromModel mock_cv_json)
  /\ ProductionAIService.evaluateProject mock_service two_docs sample_api sample_parse
       sample_set sample_projectPrompt "A service with retries"
     = Return (ProductionAIService.FromFallback ProductionAIService.fallbackEvaluateProject)
  /\ ProductionAIService.evaluateProject mock_service two_docs sample_api sample_parse
       sample_set sample_projectPrompt "Extract structured information from each CV"
     = Return (ProductionAIService.FromModel mock_cv_json)
  /\ ProductionAIService.evaluateCVMatch mock_service two_docs sample_api sample_parse
       sample_set sample_cvMatchPrompt (ProductionAIService.FromModel mock_cv_json)
     = Return (ProductionAIService.FromFallback ProductionAIService.fallbackEvaluateCV).
Proof.
  destruct (mock_mode_stages sample_max_arguments mock_service two_docs sample_api string
              sample_parse sample_log sample_set sample_field_text sample_toString
              sample_rest sample_cvMatchPrompt sample_cvFeedbackPrompt sample_projectPrompt
              sample_projectFeedbackPrompt sample_summaryPrompt eq_refl)
    as (Hcall & Hinfo & Hmatch & Hproject & _).
  assert (Hcv : exists ctx, VectorDB.getContextForCVEvaluation two_docs = Return ctx)
    by (eexists; vm_compute; reflexivity).
  assert (Hpr : exists ctx, VectorDB.getContextForProjectEvaluation two_docs = Return ctx)
    by (eexists; vm_compute; reflexivity).
  destruct Hcv as [cvCtx Hcv], Hpr as [prCtx Hpr].
  split; [reflexivity|].
  split; [exact (Hcall "Summarise" 1)|].
  split; [exact (Hinfo "5 years of Node.js" mock_cv_json eq_refl eq_refl)|].
  split; [exact (proj2 (Hproject "A service with retries" prCtx Hpr) eq_refl
                   "Unexpected token" eq_refl)|].
  split; [exact (proj1 (Hproject "Extract structured information from each CV" prCtx Hpr)
                   eq_refl mock_cv_json mock_cv_json eq_refl eq_refl)|].
  exact (proj2 (Hmatch (ProductionAIService.FromModel mock_cv_json) cvCtx Hcv) eq_refl
           "Unexpected token" eq_refl).
Defined.

(** ** Request handlers *)

Section Handlers.
Import Num Server.

Variable readFileSync : string -> outcome string.
Variable Number_toString : number -> string.
Variable max_arguments : nat.

Local Abbreviation text_of := (extracted_text readFileSync).
Local Abbreviation post_evaluate := (Server.post_evaluate readFileSync Number_toString max_arguments).

Local Opaque world_with_job update_job new_Date get_documents get_upload await record_jobs.

(** The end of the run on an upload that exists: the job is completed
    with the result compiled from the extraction and the two evaluations
    when the three return, and failed with the message of the first that
    throws. *)
Lemma processEvaluation_final (uploads : gmap string Upload) (jobs0 : gmap string Job)
    (docs : list VectorDB.Document) (evaluationId uploadId : string) (u : Upload)
    (j : Job) (t : nat) (obs : list (gmap string Job)) :
  uploads !! uploadId = Some u ->
  exists final t' obs',
    processEvaluation readFileSync Number_toString max_arguments evaluationId uploadId
      (world_with_job uploads jobs0 docs evaluationId j t obs)
    = (Return tt, world_with_job uploads jobs0 docs evaluationId final t' obs')
    /\ match stage_outcomes max_arguments docs (text_of (cv u)) (text_of (project u)) with
       | Return (cvStructured, cvMatchRate, projectScore) =>
           status final = "completed"
           /\ message final = "AI evaluation completed successfully"
           /\ exists processed_at completedAt0,
                result final
                = Some (compile_result evaluationId uploadId cvStructured cvMatchRate
                          (AIService.generateCVFeedback cvMatchRate) projectScore
                          (AIService.generateProjectFeedback projectScore)
                          (AIService.generateOverallSummary Number_toString cvMatchRate
                                                            projectScore)
                          (cv u) (project u) processed_at)
                /\ completedAt final = Some completedAt0
       | Throw e =>
           status final = "failed"
           /\ message final = "AI evaluation failed - please try again"
           /\ error final = Some e
           /\ exists failedAt0, failedAt final = Some failedAt0
       end.
Proof.
  intros Hu. unfold processEvaluation, catch, bind. rewrite step_start_St. cbv beta iota.
  rewrite (step_extract_St _ _ _ _ _ _ _ _ _ _ Hu). cbv beta iota zeta.
  rewrite step_cv_St. cbv zeta. unfold stage_outcomes.
  destruct (AIService.extractCVInfo max_arguments (text_of (cv u))) as [cvStructured|e];
    cbv beta iota delta [obind].
  2:{ rewrite step_failed_St. eexists _, _, _. split; [reflexivity|]. simpl. eauto 10. }
  destruct (AIService.evaluateCVMatch docs cvStructured) as [cvMatchRate|e];
    cbv beta iota delta [obind].
  2:{ rewrite step_failed_St. eexists _, _, _. split; [reflexivity|]. simpl. eauto 10. }
  rewrite step_project_St. cbv zeta.
  destruct (AIService.evaluateProject docs (text_of (project u))) as [projectScore|e];
    cbv beta iota delta [obind].
  2:{ rewrite step_failed_St. eexists _, _, _. split; [reflexivity|]. simpl. eauto 10. }
  cbv beta iota. rewrite step_summary_St. cbv zeta beta iota.
  unfold property, ret. rewrite new_Date_St. cbv beta iota. rewrite step_complete_St.
  eexists _, _, _. split; [reflexivity|]. simpl. eauto 10.
Qed.

Local Transparent world_with_job update_job new_Date get_documents get_upload await
  record_jobs.

Lemma post_evaluate_final (w : World) (uploadId evaluationId : string) (u : Upload) :
  uploadId <> "" -> uploadedFiles w !! uploadId = Some u ->
  exists final t' obs',
    post_evaluate (Some uploadId) evaluationId w
    = (Return (Queued evaluationId),
       world_with_job (uploadedFiles w) (evaluationJobs w) (documents w)
                      evaluationId final t' obs')
    /\ match stage_outcomes max_arguments (documents w) (text_of (cv u))
                            (text_of (project u)) with
       | Return (cvStructured, cvMatchRate, projectScore) =>
           status final = "completed"
           /\ message final = "AI evaluation completed successfully"
           /\ exists processed_at completedAt0,
                result final
                = Some (compile_result evaluationId uploadId cvStructured cvMatchRate
                          (AIService.generateCVFeedback cvMatchRate) projectScore
                          (AIService.generateProjectFeedback projectScore)
                          (AIService.generateOverallSummary Number_toString cvMatchRate
                                                            projectScore)
                          (cv u) (project u) processed_at)
                /\ completedAt final = Some completedAt0
       | Throw e =>
           status final = "failed"
           /\ message final = "AI evaluation failed - please try again"
           /\ error final = Some e
           /\ exists failedAt0, failedAt final = Some failedAt0
       end.
Proof.
  intros Hid Hu. unfold Server.post_evaluate.
  destruct uploadId as [|c uploadId']; [contradiction|].
  set (uploadId := String c uploadId') in *. rewrite Hu.
  set (j0 := new_job evaluationId uploadId (now w)).
  destruct (processEvaluation_final (uploadedFiles w) (evaluationJobs w) (documents w)
              evaluationId uploadId u j0 (now w)
              (observed w ++ [job_snapshot (evaluationJobs w) evaluationId j0]) Hu)
    as (final & t' & obs' & Hrun & Hfinal).
  exists final, t', (obs' ++ [job_snapshot (evaluationJobs w) evaluationId final])%list.
  split; [|exact Hfinal].
  unfold bind, ret, new_Date, record_jobs, with_jobs. cbn beta iota.
  change (processEvaluation readFileSync Number_toString max_arguments evaluationId uploadId _)
    with (processEvaluation readFileSync Number_toString max_arguments evaluationId uploadId
            (world_with_job (uploadedFiles w) (evaluationJobs w) (documents w)
               evaluationId j0 (now w)
               (observed w ++ [job_snapshot (evaluationJobs w) evaluationId j0]))).
  rewrite Hrun. reflexivity.
Qed.

End Handlers.

Section RoundTrip.
Import Num Server.

Variable readFileSync : string -> outcome string.
Variable Number_toString : number -> string.
Variable max_arguments : nat.

Local Abbreviation text_of := (extracted_text readFileSync).
Local Abbreviation post_evaluate := (Server.post_evaluate readFileSync Number_toString max_arguments).

Lemma evaluateCVMatch_outcome (docs : list VectorDB.Document) (cv : AIService.CVStructured) :
  match VectorDB.getContextForCVEvaluation docs with
  | Return _ => exists r, AIService.evaluateCVMatch docs cv = Return r
  | Throw e => AIService.evaluateCVMatch docs cv = Throw e
  end.
Proof.
  unfold AIService.evaluateCVMatch.
  destruct (VectorDB.getContextForCVEvaluation docs); cbv beta iota delta [obind]; eauto.
Qed.

Lemma evaluateProject_outcome (docs : list VectorDB.Document) (projectText : string) :
  match VectorDB.getContextForProjectEvaluation docs with
  | Return _ => exists r, AIService.evaluateProject docs projectText = Return r
  | Throw e => AIService.evaluateProject docs projectText = Throw e
  end.
Proof.
  unfold AIService.evaluateProject.
  destruct (VectorDB.getContextForProjectEvaluation docs); cbv beta iota delta [obind]; eauto.
Qed.

(** The first stage that throws, read off the CV text and the store. *)
Lemma stage_outcomes_cases (docs : list VectorDB.Document) (cvText projectText : string) :
  if (year_mentions cvText <=? max_arguments)%nat
  then match VectorDB.find_document docs "job-requirements",
             VectorDB.find_document docs "scoring-rubric" with
       | Some _, Some _ =>
           exists cvStructured cvMatchRate projectScore,
             AIService.extractCVInfo max_arguments cvText = Return cvStructured
             /\ stage_outcomes max_arguments docs cvText projectText
                = Return (cvStructured, cvMatchRate, projectScore)
       | None, _ =>
           stage_outcomes max_arguments docs cvText projectText
           = Throw "Job requirements not loaded"
       | Some _, None =>
           stage_outcomes max_arguments docs cvText projectText
           = Throw "Scoring rubric not loaded"
       end
  else stage_outcomes max_arguments docs cvText projectText
       = Throw "Maximum call stack size exceeded".
Proof.
  pose proof (extractCVInfo_outcome max_arguments cvText) as Hinfo.
  unfold stage_outcomes.
  destruct (year_mentions cvText <=? max_arguments)%nat; [|now rewrite Hinfo].
  destruct Hinfo as (years & _ & Hinfo). rewrite Hinfo.
  set (cvStructured := {| AIService.skills := _ |}) in *.
  cbv beta iota delta [obind].
  pose proof (evaluateCVMatch_outcome docs cvStructured) as Hcv.
  pose proof (evaluateProject_outcome docs projectText) as Hproject.
  rewrite getContextForCVEvaluation_outcome in Hcv.
  rewrite getContextForProjectEvaluation_outcome in Hproject.
  destruct (VectorDB.find_document docs "job-requirements"),
    (VectorDB.find_document docs "scoring-rubric").
  - destruct Hcv as [cvMatchRate ->], Hproject as [projectScore ->].
    cbv beta iota delta [obind]. eauto.
  - now rewrite Hcv.
  - now rewrite Hcv.
  - now rewrite Hcv.
Qed.

Lemma get_result_world_with_job uploads jobs0 docs evaluationId (j : Job) t obs :
  get_result evaluationId (world_with_job uploads jobs0 docs evaluationId j t obs)
  = if String.eqb (status j) "completed" then CompletedView (result j) (completedAt j)
    else if String.eqb (status j) "failed" then FailedView (error j) (message j) (failedAt j)
    else PendingView (status j) (message j) (createdAt j).
Proof.
  unfold get_result, world_with_job, job_snapshot. cbn [evaluationJobs].
  now rewrite lookup_insert_eq.
Qed.

(** X26: the outcome of the evaluation of an existing upload, read off the
    text of the CV file and the vector store.  When the CV text holds more
    year figures than a call takes arguments, the job fails with the
    RangeError message 'Maximum call stack size exceeded' of the spread
    call in [extractExperience], whatever the store holds.  Otherwise it
    completes with a result exactly when both documents are in the store,
    and fails with the error 'Job requirements not loaded', or 'Scoring
    rubric not loaded' when only the rubric is missing. *)
Theorem evaluation_outcome_by_documents (w : World) (uploadId evaluationId : string)
    (u : Upload)
    (Hid : uploadId <> "") (Hupload : uploadedFiles w !! uploadId = Some u) :
  let w' := snd (post_evaluate (Some uploadId) evaluationId w) in
  if (year_mentions (text_of (cv u)) <=? max_arguments)%nat
  then match VectorDB.find_document (documents w) "job-requirements",
             VectorDB.find_document (documents w) "scoring-rubric" with
       | Some _, Some _ =>
           exists res t, get_result evaluationId w' = CompletedView (Some res) (Some t)
       | None, _ =>
           exists t, get_result evaluationId w'
                     = FailedView (Some "Job requirements not loaded")
                                  "AI evaluation failed - please try again" (Some t)
       | Some _, None =>
           exists t, get_result evaluationId w'
                     = FailedView (Some "Scoring rubric not loaded")
                                  "AI evaluation failed - please try again" (Some t)
       end
  else exists t, get_result evaluationId w'
                 = FailedView (Some "Maximum call stack size exceeded")
                              "AI evaluation failed - please try again" (Some t).
Proof.
  destruct (post_evaluate_final readFileSync Number_toString max_arguments w uploadId
              evaluationId u Hid Hupload) as (final & t' & obs' & -> & Hfinal).
  cbn [snd]. rewrite get_result_world_with_job.
  pose proof (stage_outcomes_cases (documents w) (text_of (cv u)) (text_of (project u)))
    as Hstages.
  destruct (year_mentions (text_of (cv u)) <=? max_arguments)%nat.
  2:{ rewrite Hstages in Hfinal. destruct Hfinal as (-> & -> & -> & tf & ->).
      cbn. eauto. }
  destruct (VectorDB.find_document (documents w) "job-requirements"),
    (VectorDB.find_document (documents w) "scoring-rubric").
  - destruct Hstages as (cvStructured & cvMatchRate & projectScore & _ & Hstages).
    rewrite Hstages in Hfinal.
    destruct Hfinal as (-> & _ & tp & tc & -> & ->). cbn. eauto.
  - rewrite Hstages in Hfinal. destruct Hfinal as (-> & -> & -> & tf & ->). cbn. eauto.
  - rewrite Hstages in Hfinal. destruct Hfinal as (-> & -> & -> & tf & ->). cbn. eauto.
  - rewrite Hstages in Hfinal. destruct Hfinal as (-> & -> & -> & tf & ->). cbn. eauto.
Qed.

(** X27: with both documents loaded and a CV file whose text holds no more
    year figures than a call takes arguments, the id answered by
    [POST /upload] is accepted by [POST /evaluate], and [GET /result/:id]
    then shows a completed job whose result carries the evaluation id, the
    upload id, the original names of the two files and the CV structure
    [extractCVInfo] returns on the text of the CV file. *)
Theorem upload_evaluate_result_round_trip (w : World) (cvFile projectFile : FileInfo)
    (uploadId evaluationId : string)
    (Hid : uploadId <> "")
    (Hjob : VectorDB.find_document (documents w) "job-requirements" <> None)
    (Hrubric : VectorDB.find_document (documents w) "scoring-rubric" <> None)
    (Hyears : (year_mentions (text_of cvFile) <= max_arguments)%nat) :
  let w1 := snd (post_upload (Some cvFile) (Some projectFile) uploadId w) in
  let w2 := snd (post_evaluate (Some uploadId) evaluationId w1) in
  fst (post_upload (Some cvFile) (Some projectFile) uploadId w)
  = Return (Uploaded uploadId (originalName cvFile) (originalName projectFile))
  /\ get_upload_info uploadId w1
     = UploadInfo uploadId (originalName cvFile) (mimetype cvFile)
                  (originalName projectFile) (mimetype projectFile) (now w)
  /\ fst (post_evaluate (Some uploadId) evaluationId w1) = Return (Queued evaluationId)
  /\ exists res t,
       get_result evaluationId w2 = CompletedView (Some res) (Some t)
       /\ evaluation_id res = evaluationId
       /\ upload_id_used res = uploadId
       /\ file_cv res = originalName cvFile
       /\ file_project res = originalName projectFile
       /\ AIService.extractCVInfo max_arguments (text_of cvFile)
          = Return (cv_structured res).
Proof.
  intros w1 w2.
  set (u := {| upload_id := uploadId; cv := cvFile; project := projectFile;
               uploadedAt := now w |}).
  assert (Hw1 : w1 = {| uploadedFiles := <[uploadId := u]> (uploadedFiles w);
                        evaluationJobs := evaluationJobs w; documents := documents w;
                        now := now w; observed := observed w |}) by reflexivity.
  assert (Hu : uploadedFiles w1 !! uploadId = Some u).
  { rewrite Hw1. cbn [uploadedFiles]. apply lookup_insert_eq. }
  split; [reflexivity|].
  split; [unfold get_upload_info; rewrite Hu; reflexivity|].
  destruct (post_evaluate_final readFileSync Number_toString max_arguments w1 uploadId evaluationId u
              Hid Hu) as (final & t' & obs' & Hrun & Hfinal).
  subst w2. rewrite Hrun. cbn [fst snd]. split; [reflexivity|].
  rewrite get_result_world_with_job.
  pose proof (stage_outcomes_cases (documents w1) (text_of (cv u)) (text_of (project u)))
    as Hstages.
  replace (documents w1) with (documents w) in * by (rewrite Hw1; reflexivity).
  change (cv u) with cvFile in *.
  apply Nat.leb_le in Hyears. rewrite Hyears in Hstages.
  destruct (VectorDB.find_document (documents w) "job-requirements"); [|congruence].
  destruct (VectorDB.find_document (documents w) "scoring-rubric"); [|congruence].
  destruct Hstages as (cvStructured & cvMatchRate & projectScore & Hinfo & Hstages).
  rewrite Hstages in Hfinal.
  destruct Hfinal as (-> & _ & tp & tc & -> & ->). cbn.
  eexists _, _. split; [reflexivity|]. cbn. auto 6.
Qed.

(** X25: [POST /evaluate] with an upload id that is missing, empty or unknown
    answers InvalidUploadId and changes nothing; with a valid one it answers
    Queued, stores the job under the new id, and leaves the uploads, the
    documents and every other job, and so the answer of [GET /result/:id] for
    every other id, as they were. *)
Theorem post_evaluate_footprint (w : World) (uploadId : option string)
    (evaluationId : string) :
  let w' := snd (post_evaluate uploadId evaluationId w) in
  (~ valid_upload_id w uploadId ->
   post_evaluate uploadId evaluationId w = (Return InvalidUploadId, w))
  /\ (valid_upload_id w uploadId ->
      fst (post_evaluate uploadId evaluationId w) = Return (Queued evaluationId)
      /\ uploadedFiles w' = uploadedFiles w
      /\ documents w' = documents w
      /\ evaluationJobs w' !! evaluationId <> None
      /\ forall other, other <> evaluationId ->
           evaluationJobs w' !! other = evaluationJobs w !! other
           /\ get_result other w' = get_result other w).
Proof.
  intros w'. split.
  - intros Hinvalid. unfold Server.post_evaluate.
    destruct uploadId as [[|c uploadId]|]; try reflexivity.
    destruct (uploadedFiles w !! String c uploadId) eqn:E; [|reflexivity].
    exfalso. apply Hinvalid. exists (String c uploadId).
    split; [reflexivity|]. split; [discriminate|]. rewrite E. discriminate.
  - intros (uid & -> & Hid & Hsome).
    destruct (uploadedFiles w !! uid) as [u|] eqn:Hu; [|contradiction].
    destruct (post_evaluate_final readFileSync Number_toString max_arguments w uid evaluationId u
                Hid Hu) as (final & t' & obs' & Hrun & _).
    subst w'. rewrite Hrun. cbn [fst snd].
    split; [reflexivity|]. split; [reflexivity|]. split; [reflexivity|].
    split.
    + unfold world_with_job, job_snapshot. cbn [evaluationJobs].
      rewrite lookup_insert_eq. discriminate.
    + intros other Hother.
      assert (H : evaluationJobs (world_with_job (uploadedFiles w) (evaluationJobs w)
                                    (documents w) evaluationId final t' obs') !! other
                  = evaluationJobs w !! other).
      { unfold world_with_job, job_snapshot. cbn [evaluationJobs].
        now apply lookup_insert_ne. }
      split; [exact H|]. unfold get_result. now rewrite H.
Qed.

(** X28: in every state of the job store seen before the end of the run,
    [GET /result/:id] answers with a pending view, queued or processing, and
    never with a result; at the end it answers with the result or with the
    error. *)
Theorem polls_during_the_run (w : World) (uploadId evaluationId : string)
    (Hvalid : fst (post_evaluate (Some uploadId) evaluationId w)
              = Return (Queued evaluationId)) :
  let w' := snd (post_evaluate (Some uploadId) evaluationId w) in
  let seen := skipn (length (observed w)) (observed w') in
  (2 <= length seen)%nat
  /\ List.last seen ∅ = evaluationJobs w'
  /\ Forall (fun jobs => pending (get_result evaluationId (with_jobs jobs w')))
            (List.removelast seen)
  /\ ((exists res t, get_result evaluationId w' = CompletedView (Some res) (Some t))
      \/ (exists e message t,
            get_result evaluationId w' = FailedView (Some e) message (Some t))).
Proof.
  destruct (post_evaluate_run readFileSync Number_toString max_arguments w uploadId evaluationId Hvalid)
    as (final & trace & Hjobs & Hobs & Hall & Hne & Hfinal).
  cbv zeta. rewrite Hobs, drop_app_length.
  set (snap := job_snapshot (evaluationJobs w) evaluationId) in *.
  set (j0 := new_job evaluationId uploadId (now w)) in *.
  change (j0 :: trace ++ [final])%list with ((j0 :: trace) ++ [final])%list.
  rewrite map_app. cbn [map].
  split; [rewrite length_app; simpl; lia|].
  split; [rewrite List.last_last; symmetry; exact Hjobs|].
  split.
  - rewrite List.removelast_last. apply List.Forall_forall. intros jobs Hin.
    change (snap j0 :: map snap trace) with (map snap (j0 :: trace)) in Hin.
    apply in_map_iff in Hin as [j [<- Hj]].
    assert (Hstatus : status j = "queued" \/ status j = "processing").
    { destruct Hj as [<-|Hj]; [now left|]. right.
      rewrite List.Forall_forall in Hall. now destruct (Hall j Hj). }
    unfold get_result, with_jobs, snap, job_snapshot. cbn [evaluationJobs].
    rewrite lookup_insert_eq.
    destruct Hstatus as [Hs|Hs]; rewrite Hs; cbn; eexists _, _, _; eauto.
  - unfold get_result. rewrite Hjobs. unfold snap, job_snapshot. rewrite lookup_insert_eq.
    destruct Hfinal as [(Hs & (res & Hres & _) & _ & (t & Ht) & _)
                       |(Hs & (e & He) & _ & (t & Ht) & _)]; rewrite Hs; cbn.
    + left. rewrite Hres, Ht. eauto.
    + right. rewrite He, Ht. eauto.
Qed.

End RoundTrip.

Section FilesNotRead.
Import Num Server.

Variable Number_toString : number -> string.
Variable max_arguments : nat.

Local Opaque world_with_job update_job new_Date get_documents get_upload await record_jobs.

Lemma processEvaluation_texts (readFileSync1 readFileSync2 : string -> outcome string)
    (uploads : gmap string Upload) (jobs0 : gmap string Job)
    (docs : list VectorDB.Document) (evaluationId uploadId : string) (u : Upload)
    (j : Job) (t : nat) (obs : list (gmap string Job)) :
  uploads !! uploadId = Some u ->
  extracted_text readFileSync1 (cv u) = extracted_text readFileSync2 (cv u) ->
  extracted_text readFileSync1 (project u) = extracted_text readFileSync2 (project u) ->
  processEvaluation readFileSync1 Number_toString max_arguments evaluationId uploadId
    (world_with_job uploads jobs0 docs evaluationId j t obs)
  = processEvaluation readFileSync2 Number_toString max_arguments evaluationId uploadId
      (world_with_job uploads jobs0 docs evaluationId j t obs).
Proof.
  intros Hu Hcv Hproject. unfold processEvaluation, catch, bind.
  rewrite !step_start_St. cbv beta iota.
  rewrite (step_extract_St readFileSync1 _ _ _ _ _ _ _ _ _ Hu).
  rewrite (step_extract_St readFileSync2 _ _ _ _ _ _ _ _ _ Hu).
  rewrite Hcv, Hproject. reflexivity.
Qed.

Local Transparent world_with_job update_job new_Date get_documents get_upload await
  record_jobs.

(** X29: when neither file of the upload is of type text/plain, the evaluation
    never reads the files: response and final state are the same for any two
    file systems. *)
Theorem other_file_types_never_read (readFileSync1 readFileSync2 : string -> outcome string)
    (w : World) (uploadId evaluationId : string) (u : Upload)
    (Hupload : uploadedFiles w !! uploadId = Some u)
    (Hcv : mimetype (cv u) <> "text/plain")
    (Hproject : mimetype (project u) <> "text/plain") :
  Server.post_evaluate readFileSync1 Number_toString max_arguments (Some uploadId)
                       evaluationId w
  = Server.post_evaluate readFileSync2 Number_toString max_arguments (Some uploadId)
                         evaluationId w.
Proof.
  assert (Htext : forall f, mimetype f <> "text/plain" ->
                    extracted_text readFileSync1 f = extracted_text readFileSync2 f).
  { intros f Hf. unfold extracted_text. apply String.eqb_neq in Hf. now rewrite Hf. }
  unfold Server.post_evaluate.
  destruct uploadId as [|c uploadId']; [reflexivity|].
  set (uploadId := String c uploadId') in *. rewrite Hupload.
  unfold bind, ret, new_Date, record_jobs, with_jobs. cbn beta iota.
  set (j0 := new_job evaluationId uploadId (now w)).
  change (processEvaluation readFileSync1 Number_toString max_arguments evaluationId uploadId _)
    with (processEvaluation readFileSync1 Number_toString max_arguments evaluationId uploadId
            (world_with_job (uploadedFiles w) (evaluationJobs w) (documents w)
               evaluationId j0 (now w)
               (observed w ++ [<[evaluationId := j0]> (evaluationJobs w)]))).
  change (processEvaluation readFileSync2 Number_toString max_arguments evaluationId uploadId _)
    with (processEvaluation readFileSync2 Number_toString max_arguments evaluationId uploadId
            (world_with_job (uploadedFiles w) (evaluationJobs w) (documents w)
               evaluationId j0 (now w)
               (observed w ++ [<[evaluationId := j0]> (evaluationJobs w)]))).
  rewrite (processEvaluation_texts readFileSync1 readFileSync2 _ _ _ _ _ u _ _ _ Hupload
             (Htext _ Hcv) (Htext _ Hproject)).
  reflexivity.
Qed.

End FilesNotRead.

Section Uploads.
Import Num Server.

(** X24: [POST /upload] without one of the two files answers MissingFiles and
    changes nothing; with both it stores the upload under the new id, where
    [GET /upload/:id] finds the names and types of the two files, and leaves
    the other uploads, the jobs and the documents as they were.  The file
    filter accepts exactly the three allowed types. *)
Theorem post_upload_footprint (w : World) (cvFile projectFile : option FileInfo)
    (uploadId : string) :
  let w' := snd (post_upload cvFile projectFile uploadId w) in
  (cvFile = None \/ projectFile = None ->
   w' = w /\ exists cv_received project_received,
               fst (post_upload cvFile projectFile uploadId w)
               = Return (MissingFiles cv_received project_received))
  /\ (forall cvFile0 projectFile0,
        cvFile = Some cvFile0 -> projectFile = Some projectFile0 ->
        fst (post_upload cvFile projectFile uploadId w)
        = Return (Uploaded uploadId (originalName cvFile0) (originalName projectFile0))
        /\ get_upload_info uploadId w'
           = UploadInfo uploadId (originalName cvFile0) (mimetype cvFile0)
                        (originalName projectFile0) (mimetype projectFile0) (now w)
        /\ (forall other, other <> uploadId ->
              get_upload_info other w' = get_upload_info other w)
        /\ evaluationJobs w' = evaluationJobs w
        /\ documents w' = documents w)
  /\ (forall file_mimetype,
        (In file_mimetype allowedTypes -> fileFilter file_mimetype = Return true)
        /\ (~ In file_mimetype allowedTypes ->
            fileFilter file_mimetype
            = Throw "Invalid file type. Only PDF, DOCX, and TXT files are allowed.")).
Proof.
  intros w'. split; [|split].
  3:{ intros t. unfold fileFilter.
      destruct (existsb (String.eqb t) allowedTypes) eqn:E.
      - split; [reflexivity|]. intros Hn. exfalso. apply Hn.
        apply existsb_exists in E as (x & Hx & Ex). apply String.eqb_eq in Ex. now subst.
      - split; [|reflexivity]. intros Hin.
        assert (existsb (String.eqb t) allowedTypes = true); [|congruence].
        apply existsb_exists. exists t. split; [exact Hin | apply String.eqb_refl]. }
  - intros H. subst w'. unfold post_upload.
    destruct cvFile, projectFile; destruct H as [H|H]; try discriminate;
      (split; [reflexivity | eauto]).
  - intros cvFile0 projectFile0 -> ->. subst w'.
    split; [reflexivity|]. split.
    + unfold get_upload_info, post_upload, bind, ret, new_Date. cbn.
      now rewrite lookup_insert_eq.
    + split; [|split; reflexivity]. intros other Hother.
      unfold get_upload_info, post_upload, bind, ret, new_Date. cbn.
      rewrite lookup_insert_ne by congruence. reflexivity.
Qed.

End Uploads.

Section FurtherWitnesses.
Import Num.

Lemma reported_scores_floor_witness :
  exists cvMatchRate projectScore,
    AIService.evaluateCVMatch two_docs sample_cv = Return cvMatchRate
    /\ AIService.evaluateProject two_docs "An LLM chain with retry, RAG and a README"
       = Return projectScore
    /\ (2 <= AIService.cv_achievements (AIService.breakdown cvMatchRate)
        /\ 2 <= AIService.cultural_fit (AIService.breakdown cvMatchRate)
        /\ exists s, AIService.score cvMatchRate = of_Z s
                     /\ s = 8 * AIService.technical_skills (AIService.breakdown cvMatchRate)
                            + 5 * AIService.experience_level (AIService.breakdown cvMatchRate)
                            + 4 * AIService.cv_achievements (AIService.breakdown cvMatchRate)
                            + 3 * AIService.cultural_fit (AIService.breakdown cvMatchRate)
                     /\ 27 <= s <= 100)
    /\ (2 <= AIService.code_quality (AIService.p_breakdown projectScore)
        /\ 2 <= AIService.documentation (AIService.p_breakdown projectScore)
        /\ exists n, AIService.overallScore projectScore = div (of_Z n) (of_Z 10)
                     /\ 14 <= n <= 50).
Proof.
  eexists _, _. split; [vm_compute; reflexivity|]. split; [vm_compute; reflexivity|].
  apply (reported_scores_floor two_docs sample_cv
           "An LLM chain with retry, RAG and a README"); vm_compute; reflexivity.
Defined.

Lemma evaluation_outcome_by_documents_witness :
  "u1" <> ""
  /\ Server.uploadedFiles sample_world !! "u1" = Some sample_upload
  /\ (exists res t,
        Server.get_result "e1"
          (snd (Server.post_evaluate years_file sample_toString sample_max_arguments
                                     (Some "u1") "e1" sample_world))
        = Server.CompletedView (Some res) (Some t))
  /\ (exists t,
        Server.get_result "e1"
          (snd (Server.post_evaluate years_file sample_toString 2 (Some "u1") "e1"
                                     sample_world))
        = Server.FailedView (Some "Maximum call stack size exceeded")
                            "AI evaluation failed - please try again" (Some t)).
Proof.
  assert (Hid : "u1" <> "") by discriminate.
  assert (Hupload : Server.uploadedFiles sample_world !! "u1" = Some sample_upload)
    by (vm_compute; reflexivity).
  split; [exact Hid|]. split; [exact Hupload|]. split.
  - exact (evaluation_outcome_by_documents years_file sample_toString sample_max_arguments
             sample_world "u1" "e1" sample_upload Hid Hupload).
  - exact (evaluation_outcome_by_documents years_file sample_toString 2
             sample_world "u1" "e1" sample_upload Hid Hupload).
Defined.

Lemma upload_evaluate_result_round_trip_witness :
  "u9" <> ""
  /\ VectorDB.find_document (Server.documents sample_world) "job-requirements" <> None
  /\ VectorDB.find_document (Server.documents sample_world) "scoring-rubric" <> None
  /\ (year_mentions (extracted_text years_file (Server.cv sample_upload))
      <= sample_max_arguments)%nat
  /\ let cvFile := Server.cv sample_upload in
     let projectFile := Server.project sample_upload in
     let w1 := snd (Server.post_upload (Some cvFile) (Some projectFile) "u9" sample_world) in
     let w2 := snd (Server.post_evaluate years_file sample_toString sample_max_arguments
                                         (Some "u9") "e9" w1) in
     fst (Server.post_upload (Some cvFile) (Some projectFile) "u9" sample_world)
     = Return (Server.Uploaded "u9" (Server.originalName cvFile)
                               (Server.originalName projectFile))
     /\ Server.get_upload_info "u9" w1
        = Server.UploadInfo "u9" (Server.originalName cvFile) (Server.mimetype cvFile)
                            (Server.originalName projectFile) (Server.mimetype projectFile)
                            (Server.now sample_world)
     /\ fst (Server.post_evaluate years_file sample_toString sample_max_arguments
                                  (Some "u9") "e9" w1)
        = Return (Server.Queued "e9")
     /\ exists res t,
          Server.get_result "e9" w2 = Server.CompletedView (Some res) (Some t)
          /\ Server.evaluation_id res = "e9"
          /\ Server.upload_id_used res = "u9"
          /\ Server.file_cv res = Server.originalName cvFile
          /\ Server.file_project res = Server.originalName projectFile
          /\ AIService.extractCVInfo sample_max_arguments
                                     (extracted_text years_file cvFile)
             = Return (Server.cv_structured res).
Proof.
  assert (Hid : "u9" <> "") by discriminate.
  assert (Hjob : VectorDB.find_document (Server.documents sample_world) "job-requirements"
                 <> None) by (vm_compute; discriminate).
  assert (Hrubric : VectorDB.find_document (Server.documents sample_world) "scoring-rubric"
                    <> None) by (vm_compute; discriminate).
  assert (Hyears : (year_mentions (extracted_text years_file (Server.cv sample_upload))
                    <= sample_max_arguments)%nat) by (vm_compute; lia).
  split; [exact Hid|]. split; [exact Hjob|]. split; [exact Hrubric|].
  split; [exact Hyears|].
  exact (upload_evaluate_result_round_trip years_file sample_toString sample_max_arguments
           sample_world (Server.cv sample_upload) (Server.project sample_upload) "u9" "e9"
           Hid Hjob Hrubric Hyears).
Defined.

Lemma polls_during_the_run_witness :
  fst (Server.post_evaluate no_such_file sample_toString sample_max_arguments (Some "u1")
                            "e1" sample_world)
  = Return (Server.Queued "e1")
  /\ let w' := snd (Server.post_evaluate no_such_file sample_toString sample_max_arguments
                                         (Some "u1") "e1" sample_world) in
     let seen := skipn (length (Server.observed sample_world)) (Server.observed w') in
     (2 <= length seen)%nat
     /\ List.last seen ∅ = Server.evaluationJobs w'
     /\ Forall (fun jobs => pending (Server.get_result "e1" (Server.with_jobs jobs w')))
               (List.removelast seen)
     /\ ((exists res t,
            Server.get_result "e1" w' = Server.CompletedView (Some res) (Some t))
         \/ (exists e message t,
               Server.get_result "e1" w' = Server.FailedView (Some e) message (Some t))).
Proof.
  assert (Hvalid : fst (Server.post_evaluate no_such_file sample_toString
                                             sample_max_arguments (Some "u1") "e1"
                                             sample_world) = Return (Server.Queued "e1"))
    by (vm_compute; reflexivity).
  split; [exact Hvalid|].
  exact (polls_during_the_run no_such_file sample_toString sample_max_arguments
           sample_world "u1" "e1" Hvalid).
Defined.

Lemma other_file_types_never_read_witness :
  Server.uploadedFiles pdf_world !! "u2" = Some pdf_upload
  /\ Server.mimetype (Server.cv pdf_upload) <> "text/plain"
  /\ Server.mimetype (Server.project pdf_upload) <> "text/plain"
  /\ Server.post_evaluate no_such_file sample_toString sample_max_arguments (Some "u2")
                           "e2" pdf_world
     = Server.post_evaluate empty_file sample_toString sample_max_arguments (Some "u2")
                            "e2" pdf_world.
Proof.
  assert (Hupload : Server.uploadedFiles pdf_world !! "u2" = Some pdf_upload)
    by (vm_compute; reflexivity).
  assert (Hcv : Server.mimetype (Server.cv pdf_upload) <> "text/plain")
    by (vm_compute; discriminate).
  assert (Hproject : Server.mimetype (Server.project pdf_upload) <> "text/plain")
    by (vm_compute; discriminate).
  split; [exact Hupload|]. split; [exact Hcv|]. split; [exact Hproject|].
  exact (other_file_types_never_read sample_toString sample_max_arguments no_such_file
           empty_file pdf_world
           "u2" "e2" pdf_upload Hupload Hcv Hproject).
Defined.

Lemma extractBulletPoints_first_list_witness :
  split_char LF sample_section
  = ([] ++ "Skills:" :: ["Notes:"] ++ ("- Node.js" :: [""; sign_line])
        ++ ["Next:"; "- other"])%list
  /\ Forall (fun l => includes l "Skills" = false) []
  /\ includes "Skills:" "Skills" = true
  /\ Forall (fun l => bullet_line l = false) ["Notes:"]
  /\ bullet_line "- Node.js" = true
  /\ Forall (fun l => bullet_line l = true \/ blank_line l = true) [""; sign_line]
  /\ VectorDB.extractBulletPoints sample_section "Skills"
     = bullet_text "- Node.js" :: map bullet_text (List.filter bullet_line [""; sign_line])
  /\ bullet_text "- Node.js" :: map bullet_text (List.filter bullet_line [""; sign_line])
     = ["Node.js"; "Docker"].
Proof.
  assert (Hlines : split_char LF sample_section
                   = ([] ++ "Skills:" :: ["Notes:"] ++ ("- Node.js" :: [""; sign_line])
                         ++ ["Next:"; "- other"])%list) by reflexivity.
  assert (Hfront : Forall (fun l => bullet_line l = false) ["Notes:"])
    by (repeat constructor).
  assert (Hmore : Forall (fun l => bullet_line l = true \/ blank_line l = true)
                         [""; sign_line])
    by (constructor; [right; reflexivity | constructor; [left; reflexivity | constructor]]).
  split; [exact Hlines|]. split; [constructor|]. split; [reflexivity|].
  split; [exact Hfront|]. split; [reflexivity|]. split; [exact Hmore|].
  split; [|reflexivity].
  apply (extractBulletPoints_first_list sample_section "Skills" "Skills:" "- Node.js"
           [] ["Notes:"] [""; sign_line] ["Next:"; "- other"] Hlines);
    [constructor | reflexivity | exact Hfront | reflexivity | exact Hmore |].
  right. exists "Next:", ["- other"]. repeat split; reflexivity.
Defined.

Lemma stored_chunks_retrieved_witness :
  Forall stored built_in
  /\ Forall (fun r =>
               exists doc,
                 In doc built_in /\ VectorDB.res_id r = VectorDB.id doc
                 /\ Forall (fun chunk => (50 < String.length chunk)%nat
                                         /\ trim chunk = chunk
                                         /\ includes (VectorDB.content doc) chunk = true
                                         /\ token_match chunk "backend")
                           (VectorDB.relevantChunks r))
            (VectorDB.searchDocuments built_in "backend" (Int 5)).
Proof.
  split; [exact built_in_stored|].
  exact (stored_chunks_retrieved built_in "backend" (Int 5) built_in_stored).
Defined.

End FurtherWitnesses.
